(** * Email verification service: a shallow embedding

    The development follows [email-checker.service.ts]: the pure
    classifiers ([checkFreeOrPaid], [isRoleEmail], [isBlacklisted],
    [extractMxRecords]), the DNS resolver ([verifyEmailDns]), the SMTP
    probe ([verifyEmail], [closeConnection]) and the orchestration
    ([verifyOneEmail], [verifyManyEmail]).

    Conventions.
    - A JavaScript string is a [string] whose characters are its code
      units; the model is exact for code units below 256 (case mapping
      and white space are the Latin-1 ones).
    - [string | undefined] is [option string]; a number is a [Z], which
      covers the integers a JavaScript number holds exactly.
    - Asynchronous code is sequenced as the [await]s sequence it; effects
      on the outside world are threaded through a state-and-exception
      monad and recorded, in order, in a trace.
    - [console.log] output is not part of the model. *)

From Stdlib Require Import String Ascii List ZArith Bool Lia.
From Stdlib Require Import Permutation Sorted DecimalString.
Import ListNotations.

Local Open Scope list_scope.
Local Open Scope string_scope.

(** ** JavaScript string primitives *)

Module Js.

Definition CR : ascii := ascii_of_nat 13.
Definition LF : ascii := ascii_of_nat 10.
Definition CRLF : string := String CR (String LF EmptyString).
Definition dquote : string := String (ascii_of_nat 34) EmptyString.

(** [c.toLowerCase()] on one code unit below 256: A-Z, and the Latin-1
    capitals 0xC0-0xDE except the multiplication sign 0xD7. *)
Definition toLowerChar (c : ascii) : ascii :=
  let n := nat_of_ascii c in
  if (65 <=? n)%nat && (n <=? 90)%nat then ascii_of_nat (n + 32)
  else if (192 <=? n)%nat && (n <=? 222)%nat && negb (n =? 215)%nat
       then ascii_of_nat (n + 32)
       else c.

Fixpoint toLowerCase (s : string) : string :=
  match s with
  | EmptyString => EmptyString
  | String c r => String (toLowerChar c) (toLowerCase r)
  end.

(** [s.startsWith(p)] *)
Fixpoint startsWith (s p : string) {struct p} : bool :=
  match p, s with
  | EmptyString, _ => true
  | String _ _, EmptyString => false
  | String b p', String a s' => Ascii.eqb a b && startsWith s' p'
  end.

(** [s.includes(p)]: [p] occurs at some position of [s]. *)
Fixpoint includes (s p : string) : bool :=
  startsWith s p ||
  match s with
  | EmptyString => false
  | String _ s' => includes s' p
  end.

(** [s.endsWith(p)]: some suffix of [s] is [p]. *)
Fixpoint endsWith (s p : string) : bool :=
  String.eqb s p ||
  match s with
  | EmptyString => false
  | String _ s' => endsWith s' p
  end.

(** [s.split(c)] for a one-character separator: never the empty array. *)
Fixpoint split (c : ascii) (s : string) : list string :=
  match s with
  | EmptyString => [EmptyString]
  | String a r =>
      if Ascii.eqb a c then EmptyString :: split c r
      else match split c r with
           | h :: t => String a h :: t
           | [] => [String a EmptyString]
           end
  end.

(** White space of [trim] among the code units below 256. *)
Definition isWhiteSpace (c : ascii) : bool :=
  let n := nat_of_ascii c in
  ((9 <=? n)%nat && (n <=? 13)%nat) || (n =? 32)%nat || (n =? 160)%nat.

Fixpoint trimStart (s : string) : string :=
  match s with
  | EmptyString => EmptyString
  | String c r => if isWhiteSpace c then trimStart r else s
  end.

Fixpoint trimEnd (s : string) : string :=
  match s with
  | EmptyString => EmptyString
  | String c r =>
      match trimEnd r with
      | EmptyString => if isWhiteSpace c then EmptyString
                       else String c EmptyString
      | r' => String c r'
      end
  end.

Definition trim (s : string) : string := trimEnd (trimStart s).

(** A value interpolated in a template literal. *)
Definition show (v : option string) : string :=
  match v with
  | Some s => s
  | None => "undefined"
  end.

(** [!!v] for a string or [undefined]. *)
Definition truthy (v : option string) : bool :=
  match v with
  | Some s => negb (String.eqb s EmptyString)
  | None => false
  end.

(** [arr.includes(v)] on an array of strings, [v] possibly [undefined]. *)
Definition arrayIncludes (arr : list string) (v : option string) : bool :=
  match v with
  | Some s => existsb (String.eqb s) arr
  | None => false
  end.

Fixpoint hasChar (c : ascii) (s : string) : bool :=
  match s with
  | EmptyString => false
  | String a r => Ascii.eqb a c || hasChar c r
  end.

(** Thrown values: every value thrown on the paths modelled is an
    [Error] object; only its class and message are observed. *)
Inductive Exn : Type :=
| TypeError (message : string)
| RangeError (message : string)
| Error (message : string).

Definition message (e : Exn) : string :=
  match e with
  | TypeError m => m
  | RangeError m => m
  | Error m => m
  end.

(** [String(n)] for an integer [n]. *)
Definition showInteger (n : Z) : string :=
  NilZero.string_of_int (Z.to_int n).

(** Node's [addNumericalSeparator], on the digits of a number written
    backwards: an underscore before every group of three digits that
    leaves at least one digit in front of it. *)
Fixpoint separate (backwards : list ascii) : list ascii :=
  match backwards with
  | a :: b :: c :: ((_ :: _) as more) =>
      a :: b :: c :: "_"%char :: separate more
  | short => short
  end.

Definition addNumericalSeparator (val : string) : string :=
  let group (digits : string) :=
    string_of_list_ascii
      (rev (separate (rev (list_ascii_of_string digits)))) in
  match val with
  | String "-"%char digits => String "-"%char (group digits)
  | _ => group val
  end.

(** Node's [ERR_OUT_OF_RANGE] for an integer argument. *)
Definition outOfRange (name range : string) (input : Z) : Exn :=
  let received :=
    if (2 ^ 32 <? Z.abs input)%Z
    then addNumericalSeparator (showInteger input)
    else showInteger input in
  RangeError ("The value of " ++ dquote ++ name ++ dquote
              ++ " is out of range. It must be " ++ range
              ++ ". Received " ++ received).

(** The largest delay of a timer, and the delay [setTimeout(f, ms)]
    runs with: a delay below 1 or above the largest is replaced by 1. *)
Definition TIMEOUT_MAX : Z := 2147483647.

Definition timerDelay (ms : Z) : Z :=
  if ((ms <? 1) || (TIMEOUT_MAX <? ms))%Z then 1%Z else ms.

(** A computation that returns or throws. *)
Inductive Completion (A : Type) : Type :=
| Return (a : A)
| Throw (e : Exn).
Arguments Return {A} a.
Arguments Throw {A} e.

End Js.

(** ** Domain classifier *)

Definition roleKeywords : list string :=
  [ "admin"; "administrator"; "support"; "info"; "help"; "service"; "contact";
    "team"; "sales"; "marketing"; "hr"; "billing"; "security"; "noreply";
    "no-reply"; "webmaster"; "postmaster"; "hostmaster"; "office"; "careers";
    "jobs"; "recruitment"; "it"; "tech"; "feedback"; "enquiries"; "inquiries";
    "helpdesk"; "support"; "services"; "orders"; "shipping"; "accounts";
    "accounting"; "finance"; "payroll"; "purchasing"; "legal"; "media";
    "press"; "news"; "newsletter"; "subscriptions"; "unsubscribe"; "abuse";
    "spam"; "compliance"; "privacy"; "careers"; "development"; "dev";
    "operations"; "ops"; "research"; "partners"; "partnership"; "reception";
    "supply"; "logistics"; "warehouse"; "customercare"; "customersupport";
    "customerservice"; "complaints"; "returns"; "quality"; "training";
    "facilities"; "maintenance"; "events"; "social"; "digital"; "online";
    "website"; "web"; "analytics"; "data"; "systems"; "network";
    "infrastructure"; "project"; "projects"; "procurement"; "vendor";
    "suppliers"; "corporate"; "enterprise"; "business"; "community"; "public";
    "external"; "internal"; "global"; "local"; "regional"; "group";
    "department"; "staff"; "employee"; "personnel"; "talent"; "benefits";
    "compensation"; "relations"; "success"; "experience"; "engagement";
    "brand"; "creative"; "assistance"; "aide"; "bureau"; "comptabilite";
    "direction"; "secretariat"; "accueil"; "commercial"; "ventes"; "equipe";
    "service-client"; "contact"; "information"; "administration"; "gestion";
    "rh"; "facturation"; "securite"; "ne-pas-repondre"; "communication";
    "recrutement"; "emplois"; "carrieres"; "technique"; "informatique";
    "commandes"; "expeditions"; "livraison"; "finances"; "paie"; "achats";
    "juridique"; "presse"; "actualites"; "newsletter"; "desabonnement";
    "abonnements"; "conformite"; "confidentialite"; "developpement";
    "partenariats"; "recherche"; "formation"; "stage"; "stages"; "logistique";
    "entrepot"; "qualite"; "evenements"; "maintenance"; "systemes"; "projets";
    "approvisionnement"; "fournisseurs"; "entreprise"; "communaute";
    "personnel"; "avantages"; "experience-client"; "engagement"; "marque";
    "creation"; "social"; "commanditaire"; "departement"; "groupe";
    "succursale"; "siege"; "exploitation"; "production"; "atelier";
    "ressources"; "talents"; "apprentissage"; "conseil"; "consultation";
    "innovation"; "info-fr"; "info-en"; "info-uk"; "info-us"; "support-fr";
    "support-en"; "help-fr"; "help-en"; "reservations"; "bookings"; "tickets";
    "sales"; "academic"; "faculty"; "admissions"; "alumni"; "donations";
    "fundraising"; "grants"; "sponsors"; "editorial"; "submissions"; "studios";
    "production" ].

Definition freeEmailProviders : list string :=
  [ "gmail.com"; "yahoo.com"; "outlook.com"; "hotmail.com"; "icloud.com";
    "mail.com"; "aol.com"; "zoho.com" ].

Inductive FreeOrPaid : Type := Free | Paid.
Inductive RoleFlag : Type := Yes | No.

(** [email.split('@')[i]] *)
Definition part (i : nat) (email : string) : option string :=
  nth_error (Js.split "@"%char email) i.

Definition checkFreeOrPaid (email : string) : Js.Completion FreeOrPaid :=
  match part 1 email with
  | None =>
      Js.Throw (Js.TypeError
        "Cannot read properties of undefined (reading 'toLowerCase')")
  | Some d =>
      let domain := Js.toLowerCase d in
      if Js.arrayIncludes freeEmailProviders (Some domain)
      then Js.Return Free
      else Js.Return Paid
  end.

(** The predicate handed to [roleKeywords.some]. *)
Definition roleMatch (localPart keyword : string) : bool :=
  String.eqb localPart keyword
  || Js.startsWith localPart (keyword ++ ".")
  || Js.endsWith localPart ("." ++ keyword)
  || Js.includes localPart ("." ++ keyword ++ ".")
  || Js.includes localPart ("-" ++ keyword)
  || Js.includes localPart (keyword ++ "-")
  || Js.includes localPart ("_" ++ keyword)
  || Js.includes localPart (keyword ++ "_").

(** [email.split('@')[0]]: the split of a string is never empty. *)
Definition localPartOf (email : string) : string :=
  match part 0 email with
  | Some s => s
  | None => EmptyString
  end.

Definition isRoleEmail (email : string) : bool :=
  let localPart := Js.toLowerCase (localPartOf email) in
  existsb (roleMatch localPart) roleKeywords.

(** ** Data model *)

Record MxRecord : Type := { exchange : string; priority : Z }.

Record DnsVerificationResult : Type := {
  hasMxRecord : bool;
  hasSPF : bool;
  hasDMARC : bool;
  mxRecords : list MxRecord;
  spfRecord : option string;
  dmarcRecord : option string;
  errors : option (list string) }.

Record SmtpVerificationResult : Type := {
  success : bool;
  exists_ : bool;
  message : string }.

Inductive State : Type := Deliverable | Undeliverable | Risky.

Inductive Provider : Type :=
  Google | Microsoft | Yahoo | CloudflareEmailRouting | Unknown.

(** The argument of [emailsModel.create] in [verifyOneEmail]. *)
Record EmailFields : Type := {
  f_email : string;
  f_score : Z;
  f_state : State;
  f_free : FreeOrPaid;
  f_role : RoleFlag;
  f_disposable : bool;
  f_mxRecords : list string;
  f_SmtpProvider : Provider;
  f_time : Z }.

(** A document of the [Emails] collection (emails.schema.ts). *)
Record Emails : Type := {
  id_ : nat;
  listId : list string;
  fields : EmailFields }.

(** [const { listId, ...result } = res.toObject()] *)
Record EmailResult : Type := {
  r_id : nat;
  r_fields : EmailFields }.

Definition email (r : EmailResult) : string := f_email (r_fields r).
Definition score (r : EmailResult) : Z := f_score (r_fields r).
Definition state (r : EmailResult) : State := f_state (r_fields r).

Record VerifyOneDto : Type := { dto_email : string; check : string }.

Record VerifyManyDto : Type := {
  many_email : string;
  many_name : string;
  emails : list string }.

(** ** Outside world *)

(** What a socket emits. *)
Inductive SocketEvent : Type :=
| EvConnect
| EvIdleTimeout
| EvData (data : string)
| EvError (msg : string).

(** Observable actions, recorded in program order. *)
Inductive Effect : Type :=
| ResolveMx (name : option string)
| ResolveTxt (name : option string)
| TlsConnect (host : string) (port : Z) (timeout : Z)
| NetConnect (port : Z) (host : string)
| SetTimeout (ms : Z)
| ClearTimeout
| SocketWrite (data : string)
| SocketEnd
| SocketDestroy
| PromiseResolve (r : SmtpVerificationResult)
| EmailsCreate (doc : EmailFields)
| LoggerError (msg : string)
| Sleep (ms : Z).

(** The collaborators.  [blacklist] is the array of lib/blacklist.json,
    which the service imports; the resolvers are [dns.resolveMx] and
    [dns.resolveTxt]; [submissionEvents a] are the events, with their
    arrival times in milliseconds after the connection is requested, of
    the socket opened while probing address [a]; [mxEvents h] those of a
    port-25 socket to host [h]; [dbFault] is a failure of the database
    itself, if any. *)
Record Env : Type := {
  blacklist : list string;
  resolveMx : string -> Js.Completion (list MxRecord);
  resolveTxt : string -> Js.Completion (list (list string));
  submissionEvents : string -> list (Z * SocketEvent);
  mxEvents : string -> list SocketEvent;
  dbFault : option string }.

Record World : Type := {
  collection : list Emails;
  clock : Z;
  trace : list Effect }.

Definition emit (es : list Effect) (w : World) : World :=
  {| collection := collection w; clock := clock w; trace := (trace w ++ es)%list |}.

(** ** State and exception monad *)

Definition M (A : Type) : Type := World -> Js.Completion A * World.

Definition ret {A} (a : A) : M A := fun w => (Js.Return a, w).

Definition throw {A} (e : Js.Exn) : M A := fun w => (Js.Throw e, w).

Definition bind {A B} (m : M A) (k : A -> M B) : M B :=
  fun w =>
    match m w with
    | (Js.Return a, w') => k a w'
    | (Js.Throw e, w') => (Js.Throw e, w')
    end.

Definition tryCatch {A} (m : M A) (handler : Js.Exn -> M A) : M A :=
  fun w =>
    match m w with
    | (Js.Return a, w') => (Js.Return a, w')
    | (Js.Throw e, w') => handler e w'
    end.

Definition lift {A} (c : Js.Completion A) : M A := fun w => (c, w).

Definition effect (es : list Effect) : M unit :=
  fun w => (Js.Return tt, emit es w).

Notation "x <- m ;; k" := (bind m (fun x => k))
  (at level 61, m at next level, right associativity).
Notation "m ;;; k" := (bind m (fun _ => k))
  (at level 61, right associativity).

(** ** Classifiers that read the MX list and the blacklist *)

Definition isBlacklisted (bl : list string) (email : string) : bool :=
  let domain := part 1 email in
  Js.arrayIncludes bl domain.

Definition extractMxRecords (mxRecordss : list MxRecord)
  : list string * Provider :=
  let mxRecords := map exchange mxRecordss in
  let provider :=
    if existsb (fun e => Js.includes e "google.com") mxRecords then Google
    else if existsb (fun e => Js.includes e "outlook.com"
                              || Js.includes e "protection.outlook.com")
              mxRecords then Microsoft
    else if existsb (fun e => Js.includes e "yahoodns.net") mxRecords
         then Yahoo
    else if existsb (fun e => Js.includes e "cloudflare.net") mxRecords
         then CloudflareEmailRouting
    else Unknown in
  (mxRecords, provider).

(** ** DNS resolver *)

Definition emptyDnsResult : DnsVerificationResult :=
  {| hasMxRecord := false; hasSPF := false; hasDMARC := false;
     mxRecords := []; spfRecord := None; dmarcRecord := None;
     errors := Some [] |}.

(** [result.errors?.push(msg)] *)
Definition pushError (r : DnsVerificationResult) (msg : string)
  : DnsVerificationResult :=
  {| hasMxRecord := hasMxRecord r; hasSPF := hasSPF r;
     hasDMARC := hasDMARC r; mxRecords := mxRecords r;
     spfRecord := spfRecord r; dmarcRecord := dmarcRecord r;
     errors := match errors r with
               | Some es => Some (es ++ [msg])%list
               | None => None
               end |}.

Definition setMx (r : DnsVerificationResult) (mx : list MxRecord)
  : DnsVerificationResult :=
  {| hasMxRecord := (0 <? Z.of_nat (length mx))%Z; hasSPF := hasSPF r;
     hasDMARC := hasDMARC r; mxRecords := mx;
     spfRecord := spfRecord r; dmarcRecord := dmarcRecord r;
     errors := errors r |}.

Definition setSpf (r : DnsVerificationResult) (found : option string)
  : DnsVerificationResult :=
  {| hasMxRecord := hasMxRecord r; hasSPF := Js.truthy found;
     hasDMARC := hasDMARC r; mxRecords := mxRecords r;
     spfRecord := if Js.truthy found then found else spfRecord r;
     dmarcRecord := dmarcRecord r; errors := errors r |}.

Definition setDmarc (r : DnsVerificationResult) (found : option string)
  : DnsVerificationResult :=
  {| hasMxRecord := hasMxRecord r; hasSPF := hasSPF r;
     hasDMARC := Js.truthy found; mxRecords := mxRecords r;
     spfRecord := spfRecord r;
     dmarcRecord := if Js.truthy found then found else dmarcRecord r;
     errors := errors r |}.

(** [txtRecords.flat().find(record => record.startsWith(tag))] *)
Definition findTxt (tag : string) (txtRecords : list (list string))
  : option string :=
  find (fun record => Js.startsWith record tag) (concat txtRecords).

(** Node rejects a lookup whose name is not a string. *)
Definition invalidName : Js.Exn :=
  Js.TypeError ("The " ++ Js.dquote ++ "name" ++ Js.dquote
                ++ " argument must be of type string. Received undefined").

Section Service.

Variable env : Env.

Definition callResolveMx (name : option string) : M (list MxRecord) :=
  effect [ResolveMx name] ;;;
  match name with
  | Some d => lift (resolveMx env d)
  | None => throw invalidName
  end.

Definition callResolveTxt (name : option string)
  : M (list (list string)) :=
  effect [ResolveTxt name] ;;;
  match name with
  | Some d => lift (resolveTxt env d)
  | None => throw invalidName
  end.

Definition verifyEmailDns (email : string) : M DnsVerificationResult :=
  let domain := part 1 email in
  let result := emptyDnsResult in
  tryCatch
    (result <- tryCatch
                 (mxRecords <- callResolveMx domain ;;
                  ret (setMx result mxRecords))
                 (fun error =>
                    ret (pushError result
                           ("MX lookup failed: " ++ Js.message error))) ;;
     result <- tryCatch
                 (txtRecords <- callResolveTxt domain ;;
                  ret (setSpf result (findTxt "v=spf1" txtRecords)))
                 (fun error =>
                    ret (pushError result
                           ("SPF lookup failed: " ++ Js.message error))) ;;
     result <- tryCatch
                 (dmarcRecords <-
                    callResolveTxt (Some ("_dmarc." ++ Js.show domain)) ;;
                  ret (setDmarc result (findTxt "v=DMARC1" dmarcRecords)))
                 (fun error =>
                    ret (pushError result
                           ("DMARC lookup failed: " ++ Js.message error))) ;;
     ret result)
    (fun error =>
       throw (Js.Error ("DNS verification failed: " ++ Js.message error))).

(** ** SMTP probe on the submission port *)

Record Session : Type := { buffer : string; step : nat }.

(** What a handler leaves behind: the session goes on, or the promise
    is resolved and the socket destroyed. *)
Inductive Handled : Type :=
| Continue (s : Session) (effects : list Effect)
| Settled (r : SmtpVerificationResult) (effects : list Effect).

Definition closeConnection (exists' : bool) (message' : string) : Handled :=
  let r := {| success := true; exists_ := exists'; message := message' |} in
  Settled r [ClearTimeout; SocketWrite ("QUIT" ++ Js.CRLF);
             SocketDestroy; PromiseResolve r].

(** The callback of [setTimeout]. *)
Definition onTimer : SmtpVerificationResult * list Effect :=
  let r := {| success := false; exists_ := false;
              message := "Connection timeout" |} in
  (r, [SocketDestroy; PromiseResolve r]).

(** [socket.on('data', ...)] *)
Definition onData (email : string) (domain : option string)
           (s : Session) (data : string) : Handled :=
  let buffer' := buffer s ++ data in
  if Js.includes buffer' Js.CRLF then
    let response := Js.trim buffer' in
    let next (command : string) :=
      Continue {| buffer := EmptyString; step := S (step s) |}
               [SocketWrite command] in
    match step s with
    | 0 =>
        if Js.startsWith response "2"
        then next ("EHLO " ++ Js.show domain ++ Js.CRLF)
        else closeConnection false "Server not ready"
    | 1 =>
        if Js.startsWith response "2"
        then next ("STARTTLS" ++ Js.CRLF)
        else closeConnection false "EHLO failed"
    | 2 =>
        if Js.startsWith response "2"
        then next ("MAIL FROM:<verify@" ++ Js.show domain ++ ">" ++ Js.CRLF)
        else closeConnection false "STARTTLS failed"
    | 3 =>
        if Js.startsWith response "2"
        then next ("RCPT TO:<" ++ email ++ ">" ++ Js.CRLF)
        else closeConnection false "MAIL FROM failed"
    | 4 =>
        if Js.startsWith response "250"
        then closeConnection true "Email exists"
        else if Js.includes response "blocked"
                || Js.includes response "Service unavailable"
        then closeConnection false
               "Verification failed: Server blocked our request"
        else if Js.startsWith response "550"
        then closeConnection false "Email does not exist"
        else closeConnection false "Unexpected response"
    | _ => Continue {| buffer := EmptyString; step := step s |} []
    end
  else Continue {| buffer := buffer'; step := step s |} [].

Definition onEvent (email : string) (domain : option string)
           (s : Session) (ev : SocketEvent) : Handled :=
  match ev with
  | EvConnect => Continue s []
  | EvIdleTimeout => Continue s []
  | EvData data => onData email domain s data
  | EvError msg => closeConnection false ("Connection error: " ++ msg)
  end.

(** The event loop while the promise is pending: events are handled in
    arrival order until one settles the promise; the timer fires when
    [delay] milliseconds, the delay the timer runs with, have passed and
    nothing has settled it. *)
Fixpoint socketLoop (email : string) (domain : option string)
         (delay : Z) (events : list (Z * SocketEvent)) (s : Session)
  : SmtpVerificationResult * list Effect :=
  match events with
  | [] => onTimer
  | (t, ev) :: rest =>
      if (delay <=? t)%Z then onTimer
      else match onEvent email domain s ev with
           | Settled r effects => (r, effects)
           | Continue s' effects =>
               let '(r, tr) := socketLoop email domain delay rest s' in
               (r, (effects ++ tr)%list)
           end
  end.

(** The probe as a function of what the socket emits, once
    [tls.connect] has handed over the socket, which it does when
    [timeout] is not negative ([verifyEmail] below has the other case).
    The timer is set with [timeout] and runs with [Js.timerDelay timeout]. *)
Definition verifyEmailOn (events : list (Z * SocketEvent))
           (email : string) (dnsResult : DnsVerificationResult)
           (timeout : Z) : SmtpVerificationResult * list Effect :=
  if negb (hasMxRecord dnsResult)
     || (length (mxRecords dnsResult) =? 0)%nat
  then ({| success := false; exists_ := false;
           message := "No MX records found for domain" |}, [])
  else
    let domain := part 1 email in
    let '(r, tr) :=
      socketLoop email domain (Js.timerDelay timeout) events
                 {| buffer := EmptyString; step := 0 |} in
    (r, (TlsConnect "smtp.office365.com" 587 timeout
           :: SetTimeout timeout :: tr)%list).

Definition defaultTimeout : Z := 10000.

(** [tls.connect] sets the idle timeout of the socket before it
    connects, and [socket.setTimeout] throws on a negative number: the
    executor of the promise throws, nothing has been opened, and the
    promise is rejected. *)
Definition verifyEmail (email : string) (dnsResult : DnsVerificationResult)
           (timeout : Z) : M SmtpVerificationResult :=
  let noMx := negb (hasMxRecord dnsResult)
              || (length (mxRecords dnsResult) =? 0)%nat in
  if negb noMx && (timeout <? 0)%Z then
    throw (Js.outOfRange "msecs" "a non-negative finite number" timeout)
  else
    let '(r, tr) :=
      verifyEmailOn (submissionEvents env email) email dnsResult timeout in
    effect tr ;;; ret r.

(** ** SMTP handshake with the exchanges of the domain *)

(** [arr.sort(cmp)]: the sort is stable. *)
Fixpoint insertBy {A} (cmp : A -> A -> Z) (x : A) (l : list A) : list A :=
  match l with
  | [] => [x]
  | y :: t => if (cmp x y <=? 0)%Z then x :: y :: t
              else y :: insertBy cmp x t
  end.

Definition arraySort {A} (cmp : A -> A -> Z) (l : list A) : list A :=
  fold_right (insertBy cmp) [] l.

Definition byPriority (a b : MxRecord) : Z := (priority a - priority b)%Z.

(** The promise of [smtpHandshake]: resolved, rejected (a [Throw] of the
    monad) or, with no timer to settle it, left pending ([None]). *)
Fixpoint handshakeLoop (user domain : string) (events : list SocketEvent)
         (handshakeState : nat) : M (option bool) :=
  match events with
  | [] => ret None
  | ev :: rest =>
      match ev with
      | EvConnect => handshakeLoop user domain rest handshakeState
      | EvData data =>
          match handshakeState with
          | 0 =>
              if Js.includes data "220"
              then effect [SocketWrite ("EHLO " ++ domain ++ Js.CRLF)] ;;;
                   handshakeLoop user domain rest 1
              else handshakeLoop user domain rest handshakeState
          | 1 =>
              if Js.includes data "250"
              then effect [SocketWrite ("MAIL FROM:<mhaddaou@" ++ domain
                                        ++ ">" ++ Js.CRLF)] ;;;
                   handshakeLoop user domain rest 2
              else handshakeLoop user domain rest handshakeState
          | 2 =>
              if Js.includes data "250"
              then effect [SocketWrite ("RCPT TO:<" ++ user ++ "@" ++ domain
                                        ++ ">" ++ Js.CRLF)] ;;;
                   handshakeLoop user domain rest 3
              else handshakeLoop user domain rest handshakeState
          | 3 =>
              if Js.includes data "250"
              then effect [SocketEnd] ;;; ret (Some true)
              else if Js.includes data "550"
              then effect [SocketEnd] ;;; ret (Some false)
              else handshakeLoop user domain rest handshakeState
          | _ => handshakeLoop user domain rest handshakeState
          end
      | EvError msg => effect [SocketDestroy] ;;; throw (Js.Error msg)
      | EvIdleTimeout => effect [SocketDestroy] ;;; throw (Js.Error "Timeout")
      end
  end.

Definition smtpHandshake (smtpServer user domain : string)
  : M (option bool) :=
  effect [NetConnect 25 smtpServer] ;;;
  handshakeLoop user domain (mxEvents env smtpServer) 0.

Fixpoint tryExchanges (user domain : string) (sorted : list MxRecord)
  : M (option bool) :=
  match sorted with
  | [] => ret (Some false)
  | mxRecord :: rest =>
      emailExists <- tryCatch
                       (smtpHandshake (exchange mxRecord) user domain)
                       (fun _ => ret (Some false)) ;;
      match emailExists with
      | None => ret None
      | Some true => ret (Some true)
      | Some false => tryExchanges user domain rest
      end
  end.

Definition sortedMxRecords (dnsResult : DnsVerificationResult)
  : list MxRecord :=
  arraySort byPriority (mxRecords dnsResult).

Definition verifyEmailWithDnsResult (email : string)
           (dnsResult : DnsVerificationResult) : M (option bool) :=
  let user := part 0 email in
  let domain := part 1 email in
  if negb (Js.truthy user) || negb (Js.truthy domain)
  then ret (Some false)
  else if negb (hasMxRecord dnsResult)
          || (length (mxRecords dnsResult) =? 0)%nat
  then ret (Some false)
  else tryExchanges (Js.show user) (Js.show domain)
                    (sortedMxRecords dnsResult).

(** ** Persistence and logging *)

Definition duplicateKey (address : string) : Js.Exn :=
  Js.Error ("E11000 duplicate key error collection: emails index: "
            ++ "email_1 dup key: " ++ address).

(** [emailsModel.create(doc)]: the schema declares [email] unique and
    [listId] empty by default. *)
Definition emailsModel_create (doc : EmailFields) : M Emails :=
  fun w =>
    let w1 := emit [EmailsCreate doc] w in
    match dbFault env with
    | Some msg => (Js.Throw (Js.Error msg), w1)
    | None =>
        if existsb (fun d => String.eqb (f_email (fields d)) (f_email doc))
                   (collection w1)
        then (Js.Throw (duplicateKey (f_email doc)), w1)
        else
          let res := {| id_ := length (collection w1); listId := [];
                        fields := doc |} in
          (Js.Return res,
           {| collection := (collection w1 ++ [res])%list;
              clock := clock w1; trace := trace w1 |})
    end.

Definition toResult (res : Emails) : EmailResult :=
  {| r_id := id_ res; r_fields := fields res |}.

(** [new Date()].  The clock of the world is moved by [sleep] alone:
    how long a lookup, a probe or an insertion takes is not modelled,
    so the value read here stands for some time of the call, not for a
    particular one. *)
Definition newDate : M Z := fun w => (Js.Return (clock w), w).

Definition sleep (ms : Z) : M unit :=
  fun w => (Js.Return tt,
            {| collection := collection w; clock := (clock w + ms)%Z;
               trace := (trace w ++ [Sleep ms])%list |}).

Definition Logger_error (msg : string) : M unit := effect [LoggerError msg].

(** ** Orchestration *)

Record Info : Type := {
  free : FreeOrPaid;
  role : RoleFlag;
  i_mxRecords : list string;
  provider : Provider;
  disposable : bool }.

Definition getInfoEmail (email : string) (records : list MxRecord)
  : M Info :=
  free <- lift (checkFreeOrPaid email) ;;
  let role := if isRoleEmail email then Yes else No in
  dns <- verifyEmailDns email ;;
  let '(mxRecords, provider) := extractMxRecords records in
  let disposable := isBlacklisted (blacklist env) email in
  ret {| free := free; role := role; i_mxRecords := mxRecords;
         provider := provider; disposable := disposable |}.

(** The statements after the first [return;] are unreachable and are
    left out. *)
Definition verifyOneEmail (data : VerifyOneDto) : M (option EmailResult) :=
  tryCatch
    (let score := 0%Z in
     let state := Undeliverable in
     dns <- verifyEmailDns (check data) ;;
     info <- getInfoEmail (check data) (mxRecords dns) ;;
     if disposable info then
       time <- newDate ;;
       res <- emailsModel_create
                {| f_email := check data; f_score := 5; f_state := Risky;
                   f_free := free info; f_role := role info;
                   f_disposable := disposable info;
                   f_mxRecords := i_mxRecords info;
                   f_SmtpProvider := provider info; f_time := time |} ;;
       ret (Some (toResult res))
     else
       smtp <- verifyEmail (check data) dns defaultTimeout ;;
       let '(score, state) :=
         if exists_ smtp then (99%Z, Deliverable) else (score, state) in
       time <- newDate ;;
       res <- emailsModel_create
                {| f_email := check data; f_score := score;
                   f_state := state;
                   f_free := free info; f_role := role info;
                   f_disposable := disposable info;
                   f_mxRecords := i_mxRecords info;
                   f_SmtpProvider := provider info; f_time := time |} ;;
       ret (Some (toResult res)))
    (fun err => Logger_error (Js.message err) ;;; ret None).

(** The loop of [verifyManyEmail]; [dataa] is the array pushed to. *)
Fixpoint verifyManyLoop (userEmail : string) (targets : list string)
         (dataa : list (option EmailResult))
  : M (list (option EmailResult)) :=
  match targets with
  | [] => ret dataa
  | target :: rest =>
      res <- verifyOneEmail {| dto_email := userEmail; check := target |} ;;
      let dataa := (dataa ++ [res])%list in
      sleep 2000 ;;;
      verifyManyLoop userEmail rest dataa
  end.

(** The statements after [return dataa;] are unreachable and are left
    out. *)
Definition verifyManyEmail (data : VerifyManyDto)
  : M (list (option EmailResult)) :=
  verifyManyLoop (many_email data) (emails data) [].

End Service.

(** * Specification vocabulary *)

(** The eight boundary rules, on the lower-cased local part. *)
Definition boundaryRule (localPart keyword : string) : Prop :=
  localPart = keyword
  \/ (exists b, localPart = (keyword ++ ".") ++ b)
  \/ (exists a, localPart = a ++ ("." ++ keyword))
  \/ (exists a b, localPart = a ++ ("." ++ keyword ++ ".") ++ b)
  \/ (exists a b, localPart = a ++ ("-" ++ keyword) ++ b)
  \/ (exists a b, localPart = a ++ (keyword ++ "-") ++ b)
  \/ (exists a b, localPart = a ++ ("_" ++ keyword) ++ b)
  \/ (exists a b, localPart = a ++ (keyword ++ "_") ++ b).

(** The three lookups of [verifyEmailDns], in program order. *)
Definition dnsLookups (email : string) : list Effect :=
  [ ResolveMx (part 1 email);
    ResolveTxt (part 1 email);
    ResolveTxt (Some ("_dmarc." ++ Js.show (part 1 email))) ].

Definition lookupMx (env : Env) (name : option string)
  : Js.Completion (list MxRecord) :=
  match name with
  | Some d => resolveMx env d
  | None => Js.Throw invalidName
  end.

Definition lookupTxt (env : Env) (name : option string)
  : Js.Completion (list (list string)) :=
  match name with
  | Some d => resolveTxt env d
  | None => Js.Throw invalidName
  end.

(** The value [verifyEmailDns] resolves to, read off the three answers. *)
Definition dnsResult (env : Env) (email : string) : DnsVerificationResult :=
  let domain := part 1 email in
  let r0 := emptyDnsResult in
  let r1 := match lookupMx env domain with
            | Js.Return mx => setMx r0 mx
            | Js.Throw e => pushError r0 ("MX lookup failed: " ++ Js.message e)
            end in
  let r2 := match lookupTxt env domain with
            | Js.Return txt => setSpf r1 (findTxt "v=spf1" txt)
            | Js.Throw e => pushError r1 ("SPF lookup failed: " ++ Js.message e)
            end in
  match lookupTxt env (Some ("_dmarc." ++ Js.show domain)) with
  | Js.Return txt => setDmarc r2 (findTxt "v=DMARC1" txt)
  | Js.Throw e => pushError r2 ("DMARC lookup failed: " ++ Js.message e)
  end.

(** Some TXT value starts with [tag]. *)
Definition hasTxt (tag : string) (txtRecords : list (list string)) : bool :=
  existsb (fun record => Js.startsWith record tag) (concat txtRecords).

(** Ascending priority: every record is at most the ones after it. *)
Definition priorityLe (a b : MxRecord) : Prop := (priority a <= priority b)%Z.

Definition ascendingPriority (l : list MxRecord) : Prop :=
  StronglySorted priorityLe l.

(** The records of one priority, in the order a list has them. *)
Definition ofPriority (p : Z) (l : list MxRecord) : list MxRecord :=
  filter (fun mx => (priority mx =? p)%Z) l.

(** The port-25 connections among some effects, in order. *)
Definition isNetConnect (e : Effect) : bool :=
  match e with
  | NetConnect _ _ => true
  | _ => false
  end.

Definition netConnects (tr : list Effect) : list Effect :=
  filter isNetConnect tr.

(** ** Example collaborators *)

Definition exampleMx : list MxRecord :=
  [ {| exchange := "mx2.example.com"; priority := 20 |};
    {| exchange := "mx1.example.com"; priority := 10 |} ].

Definition line (t : Z) (text : string) : Z * SocketEvent :=
  (t, EvData (text ++ Js.CRLF)).

(** A resolver that knows [example.com] (MX and DMARC, no TXT) and
    [mailinator.com] (MX only), a submission server that accepts
    [user@example.com], and an empty port-25 network. *)
Definition exampleEnv : Env :=
  {| blacklist := ["mailinator.com"; "yopmail.com"];
     resolveMx := fun d =>
       if String.eqb d "example.com" then Js.Return exampleMx
       else if String.eqb d "mailinator.com"
       then Js.Return [ {| exchange := "mail.mailinator.com";
                           priority := 1 |} ]
       else Js.Throw (Js.Error ("queryMx ENOTFOUND " ++ d));
     resolveTxt := fun d =>
       if String.eqb d "_dmarc.example.com"
       then Js.Return [["v=DMARC1; p=none"]]
       else Js.Throw (Js.Error ("queryTxt ENODATA " ++ d));
     submissionEvents := fun a =>
       if String.eqb a "user@example.com"
       then [ (1%Z, EvConnect); line 20 "220 ok"; line 40 "250 ehlo-ok";
              line 60 "250 starttls-ok"; line 80 "250 mail-ok";
              line 100 "250 rcpt-ok" ]
       else [];
     mxEvents := fun _ => [];
     dbFault := None |}.

Definition emptyWorld : World :=
  {| collection := []; clock := 0; trace := [] |}.

Definition exampleDns : DnsVerificationResult :=
  setMx emptyDnsResult exampleMx.

(** Server lines delivered one per chunk, each ended by CR LF, at the
    given arrival times. *)
Definition script (times : list Z) (lines : list string)
  : list (Z * SocketEvent) :=
  combine times (map (fun l => EvData (l ++ Js.CRLF)) lines).

(** No data and no error arrives before the timer expires. *)
Definition silentBefore (timeout : Z) (events : list (Z * SocketEvent))
  : Prop :=
  Forall (fun te => (fst te < timeout)%Z ->
                    snd te = EvConnect \/ snd te = EvIdleTimeout) events.

Definition quit : Effect := SocketWrite ("QUIT" ++ Js.CRLF).

Definition timeoutResult : SmtpVerificationResult :=
  {| success := false; exists_ := false; message := "Connection timeout" |}.

(** A command of the dialogue: a write that is not [QUIT]. *)
Definition isCommand (e : Effect) : bool :=
  match e with
  | SocketWrite data => negb (String.eqb data ("QUIT" ++ Js.CRLF))
  | _ => false
  end.

(** The connections opened among some effects, in order. *)
Definition isConnect (e : Effect) : bool :=
  match e with
  | TlsConnect _ _ _ => true
  | NetConnect _ _ => true
  | _ => false
  end.

Definition connects (tr : list Effect) : list Effect := filter isConnect tr.

Definition relay (timeout : Z) : Effect :=
  TlsConnect "smtp.office365.com" 587 timeout.

(** What [verifyOneEmail] is about to persist once the classification
    [free] is known, and the socket effects of getting there. *)
Definition plannedFields (env : Env) (data : VerifyOneDto)
           (free' : FreeOrPaid) (time : Z) : EmailFields * list Effect :=
  let c := check data in
  let dns := dnsResult env c in
  let role' := if isRoleEmail c then Yes else No in
  let '(mx, provider') := extractMxRecords (mxRecords dns) in
  let disposable' := isBlacklisted (blacklist env) c in
  if disposable' then
    ({| f_email := c; f_score := 5; f_state := Risky; f_free := free';
        f_role := role'; f_disposable := disposable'; f_mxRecords := mx;
        f_SmtpProvider := provider'; f_time := time |}, [])
  else
    let '(smtp, tr) :=
      verifyEmailOn (submissionEvents env c) c dns defaultTimeout in
    ({| f_email := c;
        f_score := if exists_ smtp then 99 else 0;
        f_state := if exists_ smtp then Deliverable else Undeliverable;
        f_free := free'; f_role := role'; f_disposable := disposable';
        f_mxRecords := mx; f_SmtpProvider := provider'; f_time := time |},
     tr).

(** The answer of the probe [verifyOneEmail] runs for an address. *)
Definition probeOf (env : Env) (address : string) : SmtpVerificationResult :=
  fst (verifyEmailOn (submissionEvents env address) address
                     (dnsResult env address) defaultTimeout).

Definition probeTrace (env : Env) (address : string) : list Effect :=
  snd (verifyEmailOn (submissionEvents env address) address
                     (dnsResult env address) defaultTimeout).

(** The effects that belong to a socket. *)
Definition isSocketEffect (e : Effect) : bool :=
  match e with
  | TlsConnect _ _ _ | NetConnect _ _ | SetTimeout _ | ClearTimeout
  | SocketWrite _ | SocketEnd | SocketDestroy | PromiseResolve _ => true
  | _ => false
  end.

Definition isSleep (e : Effect) : bool :=
  match e with
  | Sleep _ => true
  | _ => false
  end.

(** The address is already in the collection. *)
Definition stored (address : string) (w : World) : bool :=
  existsb (fun d => String.eqb (f_email (fields d)) address) (collection w).

Definition exampleData : VerifyOneDto :=
  {| dto_email := "owner@example.org"; check := "user@example.com" |}.

Definition disposableData : VerifyOneDto :=
  {| dto_email := "owner@example.org"; check := "someone@mailinator.com" |}.

(** The world left by one verification of [exampleData]. *)
Definition storedWorld : World :=
  snd (verifyOneEmail exampleEnv exampleData emptyWorld).

(** [verifyManyEmail] told as a plain recursion: one target, then the
    pause, then the rest. *)
Fixpoint oneByOne (env : Env) (userEmail : string) (targets : list string)
         (w : World) : list (option EmailResult) * World :=
  match targets with
  | [] => ([], w)
  | target :: rest =>
      let '(c, w1) :=
        verifyOneEmail env {| dto_email := userEmail; check := target |} w in
      let res := match c with
                 | Js.Return o => o
                 | Js.Throw _ => None
                 end in
      let '(_, w2) := sleep 2000 w1 in
      let '(rs, w3) := oneByOne env userEmail rest w2 in
      (res :: rs, w3)
  end.

(** An entry of the result list answers its target: a record for that
    address, or nothing. *)
Definition answers (target : string) (res : option EmailResult) : Prop :=
  match res with
  | Some r => email r = target
  | None => True
  end.

(** * Further vocabulary *)

(** Some record names an exchange that contains [sub]. *)
Definition mentions (sub : string) (records : list MxRecord) : bool :=
  existsb (fun r => Js.includes (exchange r) sub) records.

(** The separators of the adjacency rules of [isRoleEmail]. *)
Definition isSeparator (c : ascii) : bool :=
  Ascii.eqb c "-" || Ascii.eqb c "_".

(** The entry a failed lookup leaves in [errors]. *)
Definition failure {A : Type} (label : string) (c : Js.Completion A)
  : list string :=
  match c with
  | Js.Return _ => []
  | Js.Throw e => [label ++ " lookup failed: " ++ Js.message e]
  end.

Definition isSome {A : Type} (o : option A) : bool :=
  match o with
  | Some _ => true
  | None => false
  end.

(** The entries of the lookups of [verifyEmailDns] that fail, in the
    order MX, SPF, DMARC. *)
Definition dnsFailures (env : Env) (address : string) : list string :=
  let domain := part 1 address in
  (failure "MX" (lookupMx env domain)
   ++ failure "SPF" (lookupTxt env domain)
   ++ failure "DMARC" (lookupTxt env (Some ("_dmarc." ++ Js.show domain)%string))
  )%list.

(** The four commands of the probe, in the order of its steps. *)
Definition dialogue (email : string) : list Effect :=
  let domain := Js.show (part 1 email) in
  [ SocketWrite ("EHLO " ++ domain ++ Js.CRLF);
    SocketWrite ("STARTTLS" ++ Js.CRLF);
    SocketWrite ("MAIL FROM:<verify@" ++ domain ++ ">" ++ Js.CRLF);
    SocketWrite ("RCPT TO:<" ++ email ++ ">" ++ Js.CRLF) ].

(** The effects of [closeConnection], and those of the timer. *)
Definition closing (r : SmtpVerificationResult) : list Effect :=
  [ClearTimeout; quit; SocketDestroy; PromiseResolve r].

Definition expiry (r : SmtpVerificationResult) : list Effect :=
  [SocketDestroy; PromiseResolve r].

Definition accepted : SmtpVerificationResult :=
  {| success := true; exists_ := true; message := "Email exists" |}.

(** Events that arrive in time and are neither data nor an error. *)
Definition idle (timeout : Z) (events : list (Z * SocketEvent)) : Prop :=
  Forall (fun te => (fst te < timeout)%Z
                    /\ (snd te = EvConnect \/ snd te = EvIdleTimeout)) events.

(** A computation whose result is the same in every world and whose only
    action on the world is to extend the trace. *)
Definition framed {A : Type} (m : M A) : Prop :=
  forall w : World,
    m w = (fst (m emptyWorld), emit (trace (snd (m emptyWorld))) w).

(** How the promise of [smtpHandshake] with one host ends. *)
Definition handshakeOutcome (env : Env) (host user domain : string)
  : Js.Completion (option bool) :=
  fst (smtpHandshake env host user domain emptyWorld).

(** The answer of the loop over the exchanges, read off the outcomes of
    the handshakes in the order tried: the first acceptance answers
    [true], a promise left pending leaves the whole call pending, a
    refusal or a rejection passes to the next exchange. *)
Fixpoint firstDecisive (outcomes : list (Js.Completion (option bool)))
  : option bool :=
  match outcomes with
  | [] => Some false
  | Js.Return None :: _ => None
  | Js.Return (Some true) :: _ => Some true
  | _ :: rest => firstDecisive rest
  end.

(** How many exchanges the loop contacts. *)
Fixpoint attempts (outcomes : list (Js.Completion (option bool))) : nat :=
  match outcomes with
  | [] => 0
  | Js.Return None :: _ => 1
  | Js.Return (Some true) :: _ => 1
  | _ :: rest => S (attempts rest)
  end.

(** Events that never let the handshake leave its first state: no error,
    no idle timeout, and no data that contains [220]. *)
Definition mute (events : list SocketEvent) : Prop :=
  Forall (fun ev => ev = EvConnect
                    \/ exists data, ev = EvData data
                                    /\ Js.includes data "220" = false) events.

(** A network where the first exchange of [example.com] refuses the
    connection and the second accepts the recipient. *)
Definition fallbackEnv : Env :=
  {| blacklist := blacklist exampleEnv;
     resolveMx := resolveMx exampleEnv;
     resolveTxt := resolveTxt exampleEnv;
     submissionEvents := submissionEvents exampleEnv;
     mxEvents := fun host =>
       if String.eqb host "mx1.example.com"
       then [EvError "connect ECONNREFUSED"]
       else if String.eqb host "mx2.example.com"
       then [ EvConnect; EvData "220 mx2 ESMTP"; EvData "250 mx2";
              EvData "250 2.1.0 Ok"; EvData "250 2.1.5 Ok" ]
       else [EvData "554 no service"];
     dbFault := None |}.

(** A network whose exchanges refuse the recipient with a line that
    happens to contain [250]. *)
Definition looseEnv : Env :=
  {| blacklist := [];
     resolveMx := resolveMx exampleEnv;
     resolveTxt := resolveTxt exampleEnv;
     submissionEvents := fun _ => [];
     mxEvents := fun _ =>
       [ EvData "220 ready"; EvData "250 hello"; EvData "250 ok";
         EvData "550 5.1.1 unknown user (ref 250)" ];
     dbFault := None |}.

(** The addresses of the stored documents, in insertion order. *)
Definition addresses (w : World) : list string :=
  map (fun d => f_email (fields d)) (collection w).

(** The records among the entries of a result list. *)
Fixpoint records (results : list (option EmailResult)) : list EmailResult :=
  match results with
  | [] => []
  | Some r :: rest => r :: records rest
  | None :: rest => records rest
  end.

Definition strayData : VerifyOneDto :=
  {| dto_email := "owner@example.org"; check := "user@nowhere.invalid" |}.

(** ** Account probes through a browser *)

(** The selectors and the page texts the probes use:
    [input[type=email]], [input[name=username]], [button:has-text(Next)];
    the Google text [Couldn.t find your Google], the Yahoo texts
    [Sorry, we don't recognize] and [This account has been], and the
    Microsoft texts [That Microsoft account doesn'], [This username may
    be] and [We couldn't find an account]. *)
Inductive Selector : Type := EmailField | UsernameField | NextButton.

Inductive Phrase : Type :=
| NoGoogleAccount
| YahooUnrecognized
| YahooDeactivated
| NoMicrosoftAccount
| MicrosoftUsernameMayBe
| MicrosoftNotFound.

(** The calls into the browser library, and the pauses of [randomDelay]
    with their bounds.  What [Math.random] draws (the user agent, the
    delays, the pointer position) is left out. *)
Inductive BrowserCall : Type :=
| Launch
| NewContext
| NewPage
| AddInitScript
| Goto (url : string)
| WaitForSelector (selector : Selector)
| TypeChar (selector : Selector) (char : ascii)
| Query (selector : Selector)
| BoundingBox
| MouseMove
| MouseDown
| MouseUp
| PressEnterIn (selector : Selector)
| KeyboardEnter
| WaitForLoadState (state' : string)
| IsVisible (text : Phrase)
| RandomDelay (min max : Z)
| ClosePage
| CloseContext
| CloseBrowser.

(** The browser: what the [n]-th action of a run answers when it is the
    call [c]: a rejection, or a value ([true] for a handle that is not
    null, or for a text that is visible). *)
Definition Pilot : Type := nat -> BrowserCall -> Js.Completion bool.

(** One run of a probe: the actions so far, what [Logger.error] wrote,
    and the variables [page], [context] and [browser] ([false] for
    null). *)
Record Visit : Type := {
  calls : list BrowserCall;
  logged : list string;
  page : bool;
  context : bool;
  browser : bool }.

Definition newVisit : Visit :=
  {| calls := []; logged := []; page := false; context := false;
     browser := false |}.

Definition B (A : Type) : Type := Visit -> Js.Completion A * Visit.

Definition retB {A} (a : A) : B A := fun v => (Js.Return a, v).

Definition bindB {A C} (m : B A) (k : A -> B C) : B C :=
  fun v =>
    match m v with
    | (Js.Return a, v') => k a v'
    | (Js.Throw e, v') => (Js.Throw e, v')
    end.

Definition catchB {A} (m : B A) (handler : Js.Exn -> B A) : B A :=
  fun v =>
    match m v with
    | (Js.Return a, v') => (Js.Return a, v')
    | (Js.Throw e, v') => handler e v'
    end.

(** [try { body } finally { final }]: the completion of the body stands
    unless the final block throws. *)
Definition finallyB {A} (body : B A) (final : B unit) : B A :=
  fun v =>
    let '(c, v1) := body v in
    match final v1 with
    | (Js.Return _, v2) => (c, v2)
    | (Js.Throw e, v2) => (Js.Throw e, v2)
    end.

Notation "x <~ m ;; k" := (bindB m (fun x => k))
  (at level 61, m at next level, right associativity).
Notation "m ~~ k" := (bindB m (fun _ => k))
  (at level 61, right associativity).

Definition record (c : BrowserCall) (v : Visit) : Visit :=
  {| calls := (calls v ++ [c])%list; logged := logged v; page := page v;
     context := context v; browser := browser v |}.

Record AccountCheck : Type := { ac_exists : bool; ac_message : string }.

Section Probes.

Variable pilot : Pilot.

(** An awaited call whose value is used. *)
Definition consult (c : BrowserCall) : B bool :=
  fun v => (pilot (length (calls v)) c, record c v).

(** An awaited call whose value is dropped. *)
Definition perform (c : BrowserCall) : B unit :=
  _ <~ consult c ;; retB tt.

Definition randomDelay (min max : Z) : B unit :=
  fun v => (Js.Return tt, record (RandomDelay min max) v).

Fixpoint typeText (selector : Selector) (text : string) : B unit :=
  match text with
  | EmptyString => retB tt
  | String char rest =>
      perform (TypeChar selector char) ~~
      randomDelay 30 100 ~~
      typeText selector rest
  end.

Definition simulateHumanClick (selector : Selector) : B unit :=
  button <~ consult (Query selector) ;;
  if button then
    box <~ consult BoundingBox ;;
    if box then
      perform MouseMove ~~
      randomDelay 100 300 ~~
      perform MouseDown ~~
      randomDelay 50 150 ~~
      perform MouseUp
    else retB tt
  else retB tt.

Definition initBrowser : B unit :=
  perform Launch ~~
  perform NewContext ~~
  perform NewPage ~~
  perform AddInitScript.

(** [let browser = null; let context = null; let page = null;] *)
Definition declare : B unit :=
  fun v => (Js.Return tt,
            {| calls := calls v; logged := logged v; page := false;
               context := false; browser := false |}).

(** [({ browser, context, page } = await this.initBrowser())], once the
    call has returned. *)
Definition assign : B unit :=
  fun v => (Js.Return tt,
            {| calls := calls v; logged := logged v; page := true;
               context := true; browser := true |}).

Definition logError (msg : string) : B unit :=
  fun v => (Js.Return tt,
            {| calls := calls v; logged := (logged v ++ [msg])%list;
               page := page v; context := context v;
               browser := browser v |}).

Definition whenSet (variable : Visit -> bool) (m : B unit) : B unit :=
  fun v => if variable v then m v else (Js.Return tt, v).

(** The [finally] block of the three probes. *)
Definition release : B unit :=
  whenSet page (perform ClosePage) ~~
  whenSet context (perform CloseContext) ~~
  whenSet browser (perform CloseBrowser).

Definition failed (label : string) (error : Js.Exn) : B AccountCheck :=
  logError (label ++ Js.message error) ~~
  retB {| ac_exists := false; ac_message := Js.message error |}.

Definition checkGoogleAccount (email : string) : B AccountCheck :=
  declare ~~
  finallyB
    (catchB
       (initBrowser ~~ assign ~~
        perform (Goto "https://accounts.google.com") ~~
        perform (WaitForSelector EmailField) ~~
        randomDelay 500 2000 ~~
        typeText EmailField email ~~
        randomDelay 500 2000 ~~
        simulateHumanClick NextButton ~~
        randomDelay 500 2000 ~~
        perform (WaitForLoadState "networkidle") ~~
        randomDelay 500 2000 ~~
        accountNotFound <~ consult (IsVisible NoGoogleAccount) ;;
        retB {| ac_exists := negb accountNotFound;
                ac_message := if accountNotFound then "Account not found"
                              else "Account exists" |})
       (failed "Google account check failed: "))
    release.

Definition checkYahooAccount (email : string) : B AccountCheck :=
  declare ~~
  finallyB
    (catchB
       (initBrowser ~~ assign ~~
        perform (Goto "https://login.yahoo.com/") ~~
        perform (WaitForSelector UsernameField) ~~
        randomDelay 500 2000 ~~
        typeText UsernameField email ~~
        randomDelay 500 2000 ~~
        perform (PressEnterIn UsernameField) ~~
        randomDelay 2000 3000 ~~
        catchB
          (accountNotFound <~ consult (IsVisible YahooUnrecognized) ;;
           if accountNotFound then
             retB {| ac_exists := false; ac_message := "Account not found" |}
           else
             perform (WaitForLoadState "load") ~~
             randomDelay 500 2000 ~~
             accountDesactivated <~ consult (IsVisible YahooDeactivated) ;;
             if accountDesactivated then
               retB {| ac_exists := false;
                       ac_message := "Account desactivated" |}
             else
               retB {| ac_exists := true; ac_message := "Account exists" |})
          (fun _ =>
             retB {| ac_exists := false;
                     ac_message := "Error checking account" |}))
       (failed "Microsoft account check failed: "))
    release.

Definition checkMicrosoftAccount (email : string) : B AccountCheck :=
  declare ~~
  finallyB
    (catchB
       (initBrowser ~~ assign ~~
        perform (Goto "https://login.microsoftonline.com/") ~~
        perform (WaitForSelector EmailField) ~~
        randomDelay 500 2000 ~~
        typeText EmailField email ~~
        randomDelay 500 2000 ~~
        perform KeyboardEnter ~~
        randomDelay 2000 3000 ~~
        catchB
          (accountNotFound <~ consult (IsVisible NoMicrosoftAccount) ;;
           if accountNotFound then
             retB {| ac_exists := false; ac_message := "Account not found" |}
           else
             sc <~ consult (IsVisible MicrosoftUsernameMayBe) ;;
             if sc then
               retB {| ac_exists := false;
                       ac_message := "Account not found" |}
             else
               sc1 <~ consult (IsVisible MicrosoftNotFound) ;;
               if sc1 then
                 retB {| ac_exists := false;
                         ac_message := "Account not found" |}
               else
                 retB {| ac_exists := true;
                         ac_message := "Account exists" |})
          (fun _ =>
             retB {| ac_exists := false;
                     ac_message := "Error checking account" |}))
       (failed "Microsoft account check failed: "))
    release.

End Probes.

(** Vocabulary for the account probes. *)

Definition isClose (c : BrowserCall) : bool :=
  match c with
  | ClosePage | CloseContext | CloseBrowser => true
  | _ => false
  end.

Definition closes (cs : list BrowserCall) : list BrowserCall :=
  filter isClose cs.

(** A visit after further actions and further log lines, its variables
    unchanged. *)
Definition extend (new : list BrowserCall) (lines : list string) (v : Visit)
  : Visit :=
  {| calls := (calls v ++ new)%list; logged := (logged v ++ lines)%list;
     page := page v; context := context v; browser := browser v |}.

(** A computation that closes nothing and leaves the three variables
    alone. *)
Definition attends {A : Type} (m : B A) : Prop :=
  forall v, exists new lines,
    snd (m v) = extend new lines v /\ closes new = [].

Definition initCalls : list BrowserCall :=
  [Launch; NewContext; NewPage; AddInitScript].

Definition allClosed : list BrowserCall :=
  [ClosePage; CloseContext; CloseBrowser].

(** The visit in which [initBrowser] has returned and its handles have
    been assigned. *)
Definition opened : Visit :=
  {| calls := initCalls; logged := []; page := true; context := true;
     browser := true |}.

(** The statements of each probe between the assignment of the handles
    and the end of its [try] block. *)
Definition googleSteps (pilot : Pilot) (email : string) : B AccountCheck :=
  perform pilot (Goto "https://accounts.google.com") ~~
  perform pilot (WaitForSelector EmailField) ~~
  randomDelay 500 2000 ~~
  typeText pilot EmailField email ~~
  randomDelay 500 2000 ~~
  simulateHumanClick pilot NextButton ~~
  randomDelay 500 2000 ~~
  perform pilot (WaitForLoadState "networkidle") ~~
  randomDelay 500 2000 ~~
  accountNotFound <~ consult pilot (IsVisible NoGoogleAccount) ;;
  retB {| ac_exists := negb accountNotFound;
          ac_message := if accountNotFound then "Account not found"
                        else "Account exists" |}.

Definition yahooVerdict (pilot : Pilot) : B AccountCheck :=
  catchB
    (accountNotFound <~ consult pilot (IsVisible YahooUnrecognized) ;;
     if accountNotFound then
       retB {| ac_exists := false; ac_message := "Account not found" |}
     else
       perform pilot (WaitForLoadState "load") ~~
       randomDelay 500 2000 ~~
       accountDesactivated <~ consult pilot (IsVisible YahooDeactivated) ;;
       if accountDesactivated then
         retB {| ac_exists := false; ac_message := "Account desactivated" |}
       else
         retB {| ac_exists := true; ac_message := "Account exists" |})
    (fun _ =>
       retB {| ac_exists := false; ac_message := "Error checking account" |}).

Definition yahooSteps (pilot : Pilot) (email : string) : B AccountCheck :=
  perform pilot (Goto "https://login.yahoo.com/") ~~
  perform pilot (WaitForSelector UsernameField) ~~
  randomDelay 500 2000 ~~
  typeText pilot UsernameField email ~~
  randomDelay 500 2000 ~~
  perform pilot (PressEnterIn UsernameField) ~~
  randomDelay 2000 3000 ~~
  yahooVerdict pilot.

Definition microsoftVerdict (pilot : Pilot) : B AccountCheck :=
  catchB
    (accountNotFound <~ consult pilot (IsVisible NoMicrosoftAccount) ;;
     if accountNotFound then
       retB {| ac_exists := false; ac_message := "Account not found" |}
     else
       sc <~ consult pilot (IsVisible MicrosoftUsernameMayBe) ;;
       if sc then
         retB {| ac_exists := false; ac_message := "Account not found" |}
       else
         sc1 <~ consult pilot (IsVisible MicrosoftNotFound) ;;
         if sc1 then
           retB {| ac_exists := false; ac_message := "Account not found" |}
         else
           retB {| ac_exists := true; ac_message := "Account exists" |})
    (fun _ =>
       retB {| ac_exists := false; ac_message := "Error checking account" |}).

Definition microsoftSteps (pilot : Pilot) (email : string)
  : B AccountCheck :=
  perform pilot (Goto "https://login.microsoftonline.com/") ~~
  perform pilot (WaitForSelector EmailField) ~~
  randomDelay 500 2000 ~~
  typeText pilot EmailField email ~~
  randomDelay 500 2000 ~~
  perform pilot KeyboardEnter ~~
  randomDelay 2000 3000 ~~
  microsoftVerdict pilot.

(** The frame the three probes share. *)
Definition session (pilot : Pilot) (label : string) (steps : B AccountCheck)
  : B AccountCheck :=
  declare ~~
  finallyB
    (catchB (initBrowser pilot ~~ assign ~~ steps) (failed label))
    (release pilot).

(** The three probes, each with the label it logs under. *)
Inductive Adapter : Type := GoogleProbe | YahooProbe | MicrosoftProbe.

Definition probe (a : Adapter) (pilot : Pilot) (email : string)
  : B AccountCheck :=
  match a with
  | GoogleProbe => checkGoogleAccount pilot email
  | YahooProbe => checkYahooAccount pilot email
  | MicrosoftProbe => checkMicrosoftAccount pilot email
  end.

Definition labelOf (a : Adapter) : string :=
  match a with
  | GoogleProbe => "Google account check failed: "
  | YahooProbe => "Microsoft account check failed: "
  | MicrosoftProbe => "Microsoft account check failed: "
  end.

Definition stepsOf (a : Adapter) (pilot : Pilot) (email : string)
  : B AccountCheck :=
  match a with
  | GoogleProbe => googleSteps pilot email
  | YahooProbe => yahooSteps pilot email
  | MicrosoftProbe => microsoftSteps pilot email
  end.

(** A browser in which everything succeeds and no text is visible, one
    that cannot open a context, and one that cannot close a page. *)
Definition calmPilot : Pilot :=
  fun _ c =>
    match c with
    | IsVisible _ => Js.Return false
    | _ => Js.Return true
    end.

Definition crampedPilot : Pilot :=
  fun _ c =>
    match c with
    | NewContext => Js.Throw (Js.Error "browser.newContext: out of memory")
    | c' => calmPilot 0 c'
    end.

Definition stuckPilot : Pilot :=
  fun _ c =>
    match c with
    | ClosePage => Js.Throw (Js.Error "page.close: target crashed")
    | c' => calmPilot 0 c'
    end.

(** The end of the [try] block of the Google probe. *)
Definition googleVerdict (pilot : Pilot) : B AccountCheck :=
  accountNotFound <~ consult pilot (IsVisible NoGoogleAccount) ;;
  retB {| ac_exists := negb accountNotFound;
          ac_message := if accountNotFound then "Account not found"
                        else "Account exists" |}.

Definition verdictOf (a : Adapter) (pilot : Pilot) : B AccountCheck :=
  match a with
  | GoogleProbe => googleVerdict pilot
  | YahooProbe => yahooVerdict pilot
  | MicrosoftProbe => microsoftVerdict pilot
  end.

(** The actions of a verdict that finds no sign against the account. *)
Definition verdictCalls (a : Adapter) : list BrowserCall :=
  match a with
  | GoogleProbe => [IsVisible NoGoogleAccount]
  | YahooProbe =>
      [ IsVisible YahooUnrecognized; WaitForLoadState "load";
        RandomDelay 500 2000; IsVisible YahooDeactivated ]
  | MicrosoftProbe =>
      [ IsVisible NoMicrosoftAccount; IsVisible MicrosoftUsernameMayBe;
        IsVisible MicrosoftNotFound ]
  end.

(** ** Users *)

(** A document of the [Users] collection (users.schema.ts): [email] is
    required and unique, the other paths have defaults. *)
Record ListItem : Type := { li_id : string; li_name : string }.

Record Users : Type := {
  u_id : nat;
  u_email : string;
  username : string;
  listsIds : list ListItem;
  singlesIds : list nat;
  hashPassword : string }.

(** The collection, and what [Logger.error] wrote. *)
Record Registry : Type := {
  users : list Users;
  journal : list string }.

Definition note (msg : string) (r : Registry) : Registry :=
  {| users := users r; journal := (journal r ++ [msg])%list |}.

(** [usersModel.findOne({ email })] *)
Definition usersModel_findOne (env : Env) (address : string) (r : Registry)
  : Js.Completion (option Users) :=
  match dbFault env with
  | Some msg => Js.Throw (Js.Error msg)
  | None => Js.Return (find (fun u => String.eqb (u_email u) address)
                            (users r))
  end.

(** The error of the validation that precedes a write: the [required]
    validator of a string path refuses the empty string. *)
Definition emailRequired : Js.Exn :=
  Js.Error "Users validation failed: email: Path `email` is required.".

Definition duplicateUser (address : string) : Js.Exn :=
  Js.Error ("E11000 duplicate key error collection: users index: "
            ++ "email_1 dup key: " ++ address).

(** [usersModel.create({ email })]: the document is validated, then
    written. *)
Definition usersModel_create (env : Env) (address : string) (r : Registry)
  : Js.Completion Users * Registry :=
  if String.eqb address EmptyString then (Js.Throw emailRequired, r)
  else
    match dbFault env with
    | Some msg => (Js.Throw (Js.Error msg), r)
    | None =>
        if existsb (fun u => String.eqb (u_email u) address) (users r)
        then (Js.Throw (duplicateUser address), r)
        else
          let user := {| u_id := length (users r); u_email := address;
                         username := EmptyString; listsIds := [];
                         singlesIds := []; hashPassword := EmptyString |} in
          (Js.Return user,
           {| users := (users r ++ [user])%list; journal := journal r |})
    end.

(** [user.save()] on a document that was not modified: nothing is
    written. *)
Definition user_save (env : Env) (user : Users) (r : Registry)
  : Js.Completion unit * Registry :=
  match dbFault env with
  | Some msg => (Js.Throw (Js.Error msg), r)
  | None => (Js.Return tt, r)
  end.

Definition createUser (env : Env) (address : string) (r : Registry)
  : Js.Completion (option Users) * Registry :=
  match usersModel_findOne env address r with
  | Js.Throw err => (Js.Return None, note (Js.message err) r)
  | Js.Return (Some _) => (Js.Return None, r)
  | Js.Return None =>
      match usersModel_create env address r with
      | (Js.Throw err, r1) => (Js.Return None, note (Js.message err) r1)
      | (Js.Return user, r1) =>
          match user_save env user r1 with
          | (Js.Throw err, r2) => (Js.Return None, note (Js.message err) r2)
          | (Js.Return _, r2) => (Js.Return (Some user), r2)
          end
      end
  end.

Definition registered (address : string) (r : Registry) : bool :=
  existsb (fun u => String.eqb (u_email u) address) (users r).

Definition healthyEnv : Env := exampleEnv.

Definition faultyEnv : Env :=
  {| blacklist := blacklist exampleEnv;
     resolveMx := resolveMx exampleEnv;
     resolveTxt := resolveTxt exampleEnv;
     submissionEvents := submissionEvents exampleEnv;
     mxEvents := mxEvents exampleEnv;
     dbFault := Some "connect ECONNREFUSED 127.0.0.1:27017" |}.

Definition emptyRegistry : Registry := {| users := []; journal := [] |}.

(** * Properties *)

(** ** Sanity checks of the embedding *)

Example roleKeywords_count : length roleKeywords = 210.
Proof. reflexivity. Qed.

Example split_three : Js.split "@" "a@b@c" = ["a"; "b"; "c"].
Proof. reflexivity. Qed.

Example split_empty : Js.split "@" EmptyString = [EmptyString].
Proof. reflexivity. Qed.

Example trim_line : Js.trim ("  220 ok " ++ Js.CRLF) = "220 ok".
Proof. reflexivity. Qed.

Example checkFreeOrPaid_gmail : checkFreeOrPaid "a@GMail.com" = Js.Return Free.
Proof. reflexivity. Qed.

Example checkFreeOrPaid_corp : checkFreeOrPaid "a@my-corp.io" = Js.Return Paid.
Proof. reflexivity. Qed.

Example extractMxRecords_priority :
  snd (extractMxRecords
         [ {| exchange := "mail.protection.outlook.com"; priority := 0 |};
           {| exchange := "aspmx.l.google.com"; priority := 10 |} ])
  = Google.
Proof. reflexivity. Qed.

Example arraySort_stable :
  map exchange
      (arraySort byPriority
         [ {| exchange := "c"; priority := 20 |};
           {| exchange := "a"; priority := 10 |};
           {| exchange := "b"; priority := 10 |} ])
  = ["a"; "b"; "c"].
Proof. reflexivity. Qed.

(** ** String primitives *)

Lemma startsWith_spec (s p : string) :
  Js.startsWith s p = true <-> exists t, s = p ++ t.
Proof.
  revert s; induction p as [|b p IH]; intros s; simpl.
  - split; [intros _; now exists s | reflexivity].
  - destruct s as [|a s]; simpl.
    + split; [discriminate | intros [t Ht]; discriminate].
    + rewrite andb_true_iff, Ascii.eqb_eq, IH. split.
      * intros [-> [t ->]]. now exists t.
      * intros [t Ht]. injection Ht as -> ->. split; [reflexivity | now exists t].
Qed.

Lemma includes_spec (s p : string) :
  Js.includes s p = true <-> exists a b, s = a ++ p ++ b.
Proof.
  induction s as [|c s IH].
  - simpl. rewrite orb_false_r, startsWith_spec. split.
    + intros [t Ht]. now exists EmptyString, t.
    + intros [a [b H]]. destruct a; [now exists b | discriminate].
  - cbn [Js.includes]. rewrite orb_true_iff, startsWith_spec, IH. split.
    + intros [[t Ht] | [a [b Hab]]].
      * now exists EmptyString, t.
      * exists (String c a), b. simpl. now rewrite Hab.
    + intros [a [b H]]. destruct a as [|c' a]; simpl in H.
      * left. now exists b.
      * right. injection H as _ ->. now exists a, b.
Qed.

Lemma endsWith_spec (s p : string) :
  Js.endsWith s p = true <-> exists a, s = a ++ p.
Proof.
  induction s as [|c s IH].
  - cbn [Js.endsWith]. rewrite orb_false_r, String.eqb_eq. split.
    + intros <-. now exists EmptyString.
    + intros [a H]. destruct a; [assumption | discriminate].
  - cbn [Js.endsWith]. rewrite orb_true_iff, String.eqb_eq, IH. split.
    + intros [<- | [a ->]].
      * now exists EmptyString.
      * now exists (String c a).
    + intros [a H]. destruct a as [|c' a]; simpl in H.
      * now left.
      * right. injection H as _ ->. now exists a.
Qed.

Lemma split_nonempty (c : ascii) (s : string) : Js.split c s <> [].
Proof.
  destruct s as [|a r]; simpl; [discriminate|].
  destruct (Ascii.eqb a c); [discriminate|].
  destruct (Js.split c r); discriminate.
Qed.

Lemma split_no_separator (c : ascii) (s : string) :
  Js.hasChar c s = false -> Js.split c s = [s].
Proof.
  induction s as [|a r IH]; simpl; [reflexivity|].
  intros H. apply orb_false_iff in H as [Ha Hr].
  rewrite Ha, (IH Hr). reflexivity.
Qed.

Lemma hasChar_append (c : ascii) (a b : string) :
  Js.hasChar c (a ++ b) = Js.hasChar c a || Js.hasChar c b.
Proof.
  induction a as [|x a IH]; simpl; [reflexivity|].
  now rewrite IH, orb_assoc.
Qed.

Lemma toLowerChar_idempotent (c : ascii) :
  Js.toLowerChar (Js.toLowerChar c) = Js.toLowerChar c.
Proof. destruct c as [[] [] [] [] [] [] [] []]; reflexivity. Qed.

Lemma toLowerChar_at (c : ascii) :
  Ascii.eqb (Js.toLowerChar c) "@" = Ascii.eqb c "@".
Proof. destruct c as [[] [] [] [] [] [] [] []]; reflexivity. Qed.

Lemma toLowerCase_idempotent (s : string) :
  Js.toLowerCase (Js.toLowerCase s) = Js.toLowerCase s.
Proof.
  induction s as [|c s IH]; simpl; [reflexivity|].
  now rewrite toLowerChar_idempotent, IH.
Qed.

Lemma split_toLowerCase (s : string) :
  Js.split "@" (Js.toLowerCase s) = map Js.toLowerCase (Js.split "@" s).
Proof.
  induction s as [|c s IH]; simpl; [reflexivity|].
  rewrite toLowerChar_at, IH.
  destruct (Ascii.eqb c "@"); [reflexivity|].
  destruct (Js.split "@" s); reflexivity.
Qed.

Lemma localPartOf_toLowerCase (e : string) :
  localPartOf (Js.toLowerCase e) = Js.toLowerCase (localPartOf e).
Proof.
  unfold localPartOf, part. rewrite split_toLowerCase.
  pose proof (split_nonempty "@" e) as Hne.
  destruct (Js.split "@" e); [contradiction | reflexivity].
Qed.

Lemma localPartOf_no_at (s : string) :
  Js.hasChar "@" s = false -> localPartOf s = s.
Proof.
  intros H. unfold localPartOf, part. now rewrite (split_no_separator _ _ H).
Qed.

(** ** Role mailboxes *)

Lemma roleMatch_spec (localPart keyword : string) :
  roleMatch localPart keyword = true <-> boundaryRule localPart keyword.
Proof.
  unfold roleMatch, boundaryRule.
  rewrite !orb_true_iff, String.eqb_eq, startsWith_spec, endsWith_spec,
    !includes_spec.
  tauto.
Qed.

Lemma hasChar_infix (c : ascii) (a p b : string) :
  Js.hasChar c p = true -> Js.hasChar c (a ++ p ++ b) = true.
Proof.
  intros H. rewrite !hasChar_append, H. now rewrite orb_true_r.
Qed.

Lemma includes_hasChar (c : ascii) (s p : string) :
  Js.hasChar c p = true -> Js.hasChar c s = false -> Js.includes s p = false.
Proof.
  intros Hp Hs. destruct (Js.includes s p) eqn:E; [|reflexivity].
  apply includes_spec in E as [a [b ->]].
  now rewrite (hasChar_infix c a p b Hp) in Hs.
Qed.

Lemma startsWith_includes (s p : string) :
  Js.startsWith s p = true -> Js.includes s p = true.
Proof. intros H. destruct s; simpl; now rewrite H. Qed.

Lemma endsWith_includes (s p : string) :
  Js.endsWith s p = true -> Js.includes s p = true.
Proof.
  rewrite endsWith_spec, includes_spec. intros [a ->].
  exists a, EmptyString. f_equal.
  clear. induction p; simpl; [reflexivity | now f_equal].
Qed.

Lemma hasChar_keyword_l (c : ascii) (k : string) :
  Js.hasChar c (String c EmptyString ++ k) = true.
Proof. simpl. now rewrite Ascii.eqb_refl. Qed.

Lemma hasChar_keyword_r (c : ascii) (k : string) :
  Js.hasChar c (k ++ String c EmptyString) = true.
Proof.
  rewrite hasChar_append. simpl. rewrite Ascii.eqb_refl.
  now rewrite orb_true_r.
Qed.

Lemma roleMatch_no_separator (l k : string) :
  Js.hasChar "." l = false ->
  Js.hasChar "-" l = false ->
  Js.hasChar "_" l = false ->
  roleMatch l k = String.eqb l k.
Proof.
  intros Hdot Hdash Hund. unfold roleMatch.
  assert (Js.startsWith l (k ++ ".") = false) as ->.
  { destruct (Js.startsWith l (k ++ ".")) eqn:E; [|reflexivity].
    apply startsWith_includes in E.
    now rewrite (includes_hasChar "." l _ (hasChar_keyword_r "." k) Hdot) in E. }
  assert (Js.endsWith l ("." ++ k) = false) as ->.
  { destruct (Js.endsWith l ("." ++ k)) eqn:E; [|reflexivity].
    apply endsWith_includes in E.
    now rewrite (includes_hasChar "." l _ (hasChar_keyword_l "." k) Hdot) in E. }
  rewrite (includes_hasChar "." l _ (hasChar_keyword_l "." (k ++ ".")) Hdot).
  rewrite (includes_hasChar "-" l _ (hasChar_keyword_l "-" k) Hdash).
  rewrite (includes_hasChar "-" l _ (hasChar_keyword_r "-" k) Hdash).
  rewrite (includes_hasChar "_" l _ (hasChar_keyword_l "_" k) Hund).
  rewrite (includes_hasChar "_" l _ (hasChar_keyword_r "_" k) Hund).
  now rewrite !orb_false_r.
Qed.

(** C8.  [isRoleEmail] holds exactly when the lower-cased local part
    meets some keyword of [roleKeywords] under one of the eight boundary
    rules (equality, [keyword.] prefix, [.keyword] suffix, [.keyword.]
    infix, and [-]/[_] next to the keyword on either side); the test does
    not depend on the case of the input; a local part without any of the
    separators matches only by equality with a keyword; and
    [support] and [support-desk] are role mailboxes while [johnsupport]
    is not. *)
Theorem isRoleEmail_boundary_rules :
  (forall email,
      isRoleEmail email = true <->
      exists keyword,
        In keyword roleKeywords /\
        boundaryRule (Js.toLowerCase (localPartOf email)) keyword)
  /\ (forall email, isRoleEmail (Js.toLowerCase email) = isRoleEmail email)
  /\ (forall email,
         let localPart := Js.toLowerCase (localPartOf email) in
         Js.hasChar "." localPart = false ->
         Js.hasChar "-" localPart = false ->
         Js.hasChar "_" localPart = false ->
         isRoleEmail email = existsb (String.eqb localPart) roleKeywords)
  /\ isRoleEmail "support" = true
  /\ isRoleEmail "support-desk" = true
  /\ isRoleEmail "johnsupport" = false.
Proof.
  split; [|split; [|split; [|repeat split; vm_compute; reflexivity]]].
  - intros email. unfold isRoleEmail. rewrite existsb_exists.
    split; intros [k [Hin Hk]]; exists k; split; trivial;
      now apply roleMatch_spec.
  - intros email. unfold isRoleEmail.
    now rewrite localPartOf_toLowerCase, toLowerCase_idempotent.
  - intros email localPart Hdot Hdash Hund. unfold isRoleEmail.
    fold localPart. induction roleKeywords as [|k ks IH]; simpl.
    + reflexivity.
    + now rewrite IH, (roleMatch_no_separator _ k Hdot Hdash Hund).
Qed.

Lemma isRoleEmail_boundary_rules_witness :
  isRoleEmail "JohnSupport@example.com" = false
  /\ isRoleEmail "Sales.Team@example.com" = true.
Proof.
  destruct isRoleEmail_boundary_rules as [Hrules [Hcase [Hbare _]]].
  split.
  - rewrite (Hbare "JohnSupport@example.com"); vm_compute; reflexivity.
  - apply Hrules. exists "sales". split.
    + vm_compute. tauto.
    + right. left. exists "team". vm_compute. reflexivity.
Defined.

(** ** Inputs without an at sign *)

(** C10.  On a string with no at sign, [checkFreeOrPaid] throws a
    [TypeError] (the domain part is [undefined]), [isBlacklisted] answers
    [false] whatever the blacklist, and [isRoleEmail] tests the whole
    string as the local part. *)
Theorem classifiers_without_at (bl : list string) (s : string) :
  Js.hasChar "@" s = false ->
  checkFreeOrPaid s =
    Js.Throw (Js.TypeError
      "Cannot read properties of undefined (reading 'toLowerCase')")
  /\ isBlacklisted bl s = false
  /\ localPartOf s = s
  /\ isRoleEmail s = existsb (roleMatch (Js.toLowerCase s)) roleKeywords.
Proof.
  intros H.
  assert (Hsplit : Js.split "@" s = [s]) by now apply split_no_separator.
  unfold checkFreeOrPaid, isBlacklisted, isRoleEmail, part.
  rewrite (localPartOf_no_at s H), Hsplit. simpl. auto.
Qed.

Lemma classifiers_without_at_witness :
  Js.hasChar "@" "support" = false
  /\ checkFreeOrPaid "support" =
       Js.Throw (Js.TypeError
         "Cannot read properties of undefined (reading 'toLowerCase')")
  /\ isBlacklisted ["mailinator.com"] "support" = false
  /\ isRoleEmail "support" = true.
Proof.
  assert (H : Js.hasChar "@" "support" = false) by reflexivity.
  destruct (classifiers_without_at ["mailinator.com"] "support" H)
    as [Hfree [Hbl [_ _]]].
  split; [exact H|]. split; [exact Hfree|]. split; [exact Hbl|].
  vm_compute. reflexivity.
Defined.

(** ** DNS resolver *)

Lemma emit_emit (es1 es2 : list Effect) (w : World) :
  emit es2 (emit es1 w) = emit (es1 ++ es2) w.
Proof. unfold emit; simpl. now rewrite app_assoc. Qed.

Lemma emit_nil (w : World) : emit [] w = w.
Proof. destruct w. unfold emit; simpl. now rewrite app_nil_r. Qed.

Lemma verifyEmailDns_run (env : Env) (email : string) (w : World) :
  verifyEmailDns env email w
  = (Js.Return (dnsResult env email), emit (dnsLookups email) w).
Proof.
  unfold verifyEmailDns, dnsResult, dnsLookups, tryCatch, bind,
    callResolveMx, callResolveTxt, effect, lift, throw, ret, lookupMx,
    lookupTxt.
  destruct (part 1 email) as [d|]; simpl.
  - destruct (resolveMx env d), (resolveTxt env d); simpl;
      match goal with
      | |- context [resolveTxt env ?name] => destruct (resolveTxt env name)
      end; simpl; now rewrite !emit_emit.
  - destruct (resolveTxt env "_dmarc.undefined"); simpl;
      now rewrite !emit_emit.
Qed.

Lemma findTxt_truthy (tag : string) (txt : list (list string)) :
  tag <> EmptyString -> Js.truthy (findTxt tag txt) = hasTxt tag txt.
Proof.
  intros Htag. unfold findTxt, hasTxt.
  induction (concat txt) as [|r rs IH]; simpl; [reflexivity|].
  destruct (Js.startsWith r tag) eqn:E; simpl; [|exact IH].
  destruct r; simpl; [|reflexivity].
  destruct tag; [contradiction | discriminate].
Qed.

(** C5.  [verifyEmailDns] never raises and always performs the three
    lookups, in order.  When exactly one of them fails, the fields of the
    two others are set from their answers, the boolean of the failed one
    stays [false], and [errors] holds exactly the one entry of the failed
    lookup. *)
Theorem verifyEmailDns_partial_failure
        (env : Env) (email d : string) (w : World) :
  part 1 email = Some d ->
  exists r,
    verifyEmailDns env email w = (Js.Return r, emit (dnsLookups email) w)
    /\ (forall mx e dm,
           resolveMx env d = Js.Return mx ->
           resolveTxt env d = Js.Throw e ->
           resolveTxt env ("_dmarc." ++ d) = Js.Return dm ->
           mxRecords r = mx
           /\ (mx <> [] -> hasMxRecord r = true)
           /\ hasSPF r = false /\ spfRecord r = None
           /\ hasDMARC r = hasTxt "v=DMARC1" dm
           /\ errors r = Some ["SPF lookup failed: " ++ Js.message e])
    /\ (forall e txt dm,
           resolveMx env d = Js.Throw e ->
           resolveTxt env d = Js.Return txt ->
           resolveTxt env ("_dmarc." ++ d) = Js.Return dm ->
           hasMxRecord r = false /\ mxRecords r = []
           /\ hasSPF r = hasTxt "v=spf1" txt
           /\ hasDMARC r = hasTxt "v=DMARC1" dm
           /\ errors r = Some ["MX lookup failed: " ++ Js.message e])
    /\ (forall mx txt e,
           resolveMx env d = Js.Return mx ->
           resolveTxt env d = Js.Return txt ->
           resolveTxt env ("_dmarc." ++ d) = Js.Throw e ->
           mxRecords r = mx
           /\ (mx <> [] -> hasMxRecord r = true)
           /\ hasSPF r = hasTxt "v=spf1" txt
           /\ hasDMARC r = false /\ dmarcRecord r = None
           /\ errors r = Some ["DMARC lookup failed: " ++ Js.message e]).
Proof.
  intros Hd. exists (dnsResult env email).
  split; [apply verifyEmailDns_run|].
  assert (Hnonempty : forall mx : list MxRecord,
             mx <> [] -> (0 <? Z.of_nat (length mx))%Z = true).
  { intros [|x mx] H; [contradiction | reflexivity]. }
  unfold dnsResult, lookupMx, lookupTxt. rewrite Hd. cbn [Js.show].
  repeat split; intros; subst;
    repeat match goal with
           | H : resolveMx _ _ = _ |- _ => rewrite H; clear H
           | H : resolveTxt _ _ = _ |- _ => rewrite H; clear H
           end; cbn -[findTxt hasTxt Z.ltb];
    auto using findTxt_truthy; apply findTxt_truthy; discriminate.
Qed.

Lemma verifyEmailDns_partial_failure_witness :
  exists r,
    verifyEmailDns exampleEnv "user@example.com" emptyWorld
    = (Js.Return r, emit (dnsLookups "user@example.com") emptyWorld)
    /\ hasMxRecord r = true /\ hasSPF r = false /\ hasDMARC r = true
    /\ errors r = Some ["SPF lookup failed: queryTxt ENODATA example.com"].
Proof.
  destruct (verifyEmailDns_partial_failure exampleEnv "user@example.com"
              "example.com" emptyWorld eq_refl) as [r [Hrun [Hspf _]]].
  exists r. split; [exact Hrun|].
  destruct (Hspf exampleMx (Js.Error "queryTxt ENODATA example.com")
              [["v=DMARC1; p=none"]] eq_refl eq_refl eq_refl)
    as [_ [Hmx [Hs [_ [Hd He]]]]].
  split; [apply Hmx; discriminate|].
  split; [exact Hs|]. split; [exact Hd | exact He].
Defined.

(** ** Order of the MX records *)

Lemma byPriority_le (a b : MxRecord) :
  (byPriority a b <=? 0)%Z = true <-> priorityLe a b.
Proof. unfold byPriority, priorityLe. rewrite Z.leb_le. lia. Qed.

Lemma insertBy_perm (x : MxRecord) (l : list MxRecord) :
  Permutation (x :: l) (insertBy byPriority x l).
Proof.
  induction l as [|y t IH]; simpl; [reflexivity|].
  destruct (byPriority x y <=? 0)%Z; [reflexivity|].
  rewrite perm_swap. now constructor.
Qed.

Lemma insertBy_sorted (x : MxRecord) (l : list MxRecord) :
  ascendingPriority l -> ascendingPriority (insertBy byPriority x l).
Proof.
  unfold ascendingPriority.
  induction l as [|y t IH]; simpl; intros Hl.
  - repeat constructor.
  - apply StronglySorted_inv in Hl as [Ht Hy].
    destruct (byPriority x y <=? 0)%Z eqn:E.
    + apply byPriority_le in E. constructor.
      * now constructor.
      * constructor; [exact E|].
        eapply Forall_impl; [|exact Hy].
        unfold priorityLe in *. intros; lia.
    + assert (priorityLe y x).
      { unfold byPriority, priorityLe in *. apply Z.leb_gt in E. lia. }
      constructor; [now apply IH|].
      eapply Permutation_Forall; [apply insertBy_perm|].
      now constructor.
Qed.

Lemma arraySort_perm (l : list MxRecord) :
  Permutation l (arraySort byPriority l).
Proof.
  induction l as [|x l IH]; simpl; [reflexivity|].
  etransitivity; [|apply insertBy_perm]. now constructor.
Qed.

Lemma arraySort_sorted (l : list MxRecord) :
  ascendingPriority (arraySort byPriority l).
Proof.
  induction l as [|x l IH]; simpl.
  - constructor.
  - now apply insertBy_sorted.
Qed.

(** Records of equal priority keep their relative order: inserting in
    front of a list that is already ascending and no smaller changes
    nothing. *)
Lemma arraySort_fixpoint (l : list MxRecord) :
  ascendingPriority l -> arraySort byPriority l = l.
Proof.
  unfold ascendingPriority.
  induction l as [|x l IH]; simpl; intros Hl; [reflexivity|].
  apply StronglySorted_inv in Hl as [Ht Hx].
  rewrite (IH Ht). destruct l as [|y t]; simpl; [reflexivity|].
  apply Forall_inv in Hx. apply byPriority_le in Hx. now rewrite Hx.
Qed.

Lemma netConnects_app (a b : list Effect) :
  netConnects (a ++ b) = (netConnects a ++ netConnects b)%list.
Proof. apply filter_app. Qed.

Lemma handshakeLoop_trace (user domain : string) (events : list SocketEvent) :
  forall (handshakeState : nat) (w : World),
  exists tr,
    snd (handshakeLoop user domain events handshakeState w) = emit tr w
    /\ netConnects tr = [].
Proof.
  assert (Hstep : forall (m : M (option bool)) (e : Effect) (w : World),
             isNetConnect e = false ->
             (forall w', exists tr, snd (m w') = emit tr w'
                                    /\ netConnects tr = []) ->
             exists tr, snd ((effect [e] ;;; m) w) = emit tr w
                        /\ netConnects tr = []).
  { intros m e w He Hm. unfold bind, effect.
    destruct (Hm (emit [e] w)) as [tr [Htr Hnc]].
    exists (e :: tr)%list. split.
    - destruct (m (emit [e] w)) as [[a|x] w']; simpl in *;
        now rewrite Htr, emit_emit.
    - unfold netConnects in *. simpl. now rewrite He. }
  assert (Hnil : forall w : World,
             exists tr, w = emit tr w /\ netConnects tr = []).
  { intros w. exists []. now rewrite emit_nil. }
  induction events as [|ev rest IH]; intros st w; simpl.
  - apply Hnil.
  - destruct ev as [| |data|msg].
    + apply IH.
    + apply Hstep; [reflexivity | intros; apply Hnil].
    + destruct st as [|[|[|[|st]]]];
        repeat match goal with
               | |- context [if ?b then _ else _] => destruct b
               end;
        try apply IH;
        (apply Hstep; [reflexivity | intros; first [apply IH | apply Hnil]]).
    + apply Hstep; [reflexivity | intros; apply Hnil].
Qed.

Lemma smtpHandshake_trace (env : Env) (server user domain : string)
      (w : World) :
  exists tr,
    snd (smtpHandshake env server user domain w)
    = emit (NetConnect 25 server :: tr) w
    /\ netConnects tr = [].
Proof.
  unfold smtpHandshake, bind, effect.
  destruct (handshakeLoop_trace user domain (mxEvents env server) 0
              (emit [NetConnect 25 server] w)) as [tr [Htr Hnc]].
  exists tr. split; [|exact Hnc].
  rewrite Htr, emit_emit. reflexivity.
Qed.

(** C4, as stated, fails: the resolver returns what the lookup delivered,
    here priority 20 before priority 10. *)
Lemma verifyEmailDns_not_ascending :
  ~ (forall (env : Env) (email : string) (w w' : World)
            (r : DnsVerificationResult),
        verifyEmailDns env email w = (Js.Return r, w') ->
        ascendingPriority (mxRecords r)).
Proof.
  intros H.
  specialize (H exampleEnv "user@example.com" emptyWorld _ _
                (verifyEmailDns_run _ _ _)).
  apply StronglySorted_inv in H as [_ H].
  apply Forall_inv in H. unfold priorityLe in H. simpl in H. lia.
Qed.

(** ** SMTP probe *)

(** Every run of the event loop is a run of commands followed by one of
    the two endings: [closeConnection], or the timer. *)
Lemma socketLoop_shape (email : string) (domain : option string)
      (timeout : Z) (events : list (Z * SocketEvent)) :
  forall s : Session,
  exists pre,
    forallb isCommand pre = true
    /\ let r := fst (socketLoop email domain timeout events s) in
       let tr := snd (socketLoop email domain timeout events s) in
       (success r = true
        /\ tr = (pre ++ [ClearTimeout; quit; SocketDestroy;
                         PromiseResolve r])%list)
       \/ (r = timeoutResult
           /\ tr = (pre ++ [SocketDestroy; PromiseResolve r])%list).
Proof.
  assert (Hclose : forall ex msg,
             exists pre,
               forallb isCommand pre = true
               /\ let r := {| success := true; exists_ := ex;
                              message := msg |} in
                  let tr := [ClearTimeout; quit; SocketDestroy;
                             PromiseResolve r] in
                  (success r = true
                   /\ tr = (pre ++ [ClearTimeout; quit; SocketDestroy;
                                    PromiseResolve r])%list)
                  \/ (r = timeoutResult
                      /\ tr = (pre ++ [SocketDestroy;
                                       PromiseResolve r])%list)).
  { intros. exists []. split; [reflexivity | left; split; reflexivity]. }
  assert (Htimer : exists pre,
             forallb isCommand pre = true
             /\ let r := fst onTimer in
                let tr := snd onTimer in
                (success r = true
                 /\ tr = (pre ++ [ClearTimeout; quit; SocketDestroy;
                                  PromiseResolve r])%list)
                \/ (r = timeoutResult
                    /\ tr = (pre ++ [SocketDestroy;
                                     PromiseResolve r])%list)).
  { exists []. split; [reflexivity | right; split; reflexivity]. }
  induction events as [|[t ev] rest IH]; intros s; cbn [socketLoop].
  - exact Htimer.
  - destruct (timeout <=? t)%Z; [exact Htimer|].
    assert (Hgo : forall s' effects,
               forallb isCommand effects = true ->
               exists pre,
                 forallb isCommand pre = true
                 /\ let p := (let '(r, tr) :=
                                socketLoop email domain timeout rest s' in
                              (r, (effects ++ tr)%list)) in
                    (success (fst p) = true
                     /\ snd p = (pre ++ [ClearTimeout; quit; SocketDestroy;
                                         PromiseResolve (fst p)])%list)
                    \/ (fst p = timeoutResult
                        /\ snd p = (pre ++ [SocketDestroy;
                                            PromiseResolve (fst p)])%list)).
    { intros s' effects Heff. destruct (IH s') as [pre [Hpre Hcase]].
      destruct (socketLoop email domain timeout rest s') as [r tr].
      exists (effects ++ pre)%list. split.
      - now rewrite forallb_app, Heff, Hpre.
      - cbn [fst snd] in *.
        destruct Hcase as [[Hs ->] | [Hr ->]]; [left | right];
          (split; [assumption | now rewrite <- app_assoc]). }
    destruct ev as [| |data|msg]; cbn [onEvent].
    + apply Hgo. reflexivity.
    + apply Hgo. reflexivity.
    + unfold onData.
      destruct (Js.includes (buffer s ++ data) Js.CRLF);
        [|apply Hgo; reflexivity].
      destruct (step s) as [|[|[|[|[|n]]]]];
        repeat match goal with
               | |- context [if ?b then _ else _] => destruct b
               end;
        first [apply Hclose | apply Hgo; reflexivity].
    + apply Hclose.
Qed.

Lemma isCommand_not_connect (pre : list Effect) :
  forallb isCommand pre = true -> connects pre = [].
Proof.
  induction pre as [|e pre IH]; simpl; [reflexivity|].
  intros H. apply andb_true_iff in H as [He Hpre].
  unfold connects in *. simpl. destruct e; try discriminate.
  now apply IH.
Qed.


Lemma mx_present (dns : DnsVerificationResult) :
  hasMxRecord dns = true -> mxRecords dns <> [] ->
  negb (hasMxRecord dns) || (length (mxRecords dns) =? 0)%nat = false.
Proof.
  intros -> Hne. destruct (mxRecords dns); [contradiction | reflexivity].
Qed.

Lemma socketLoop_silent (email : string) (domain : option string)
      (timeout : Z) (events : list (Z * SocketEvent)) (s : Session) :
  silentBefore timeout events ->
  socketLoop email domain timeout events s = onTimer.
Proof.
  unfold silentBefore. induction 1 as [|[t ev] rest Hev _ IH]; simpl.
  - reflexivity.
  - destruct (timeout <=? t)%Z eqn:E; [reflexivity|].
    apply Z.leb_gt in E. destruct (Hev E) as [H | H]; simpl in H; subst ev;
      simpl; now rewrite IH.
Qed.

Lemma timerDelay_in_range (timeout : Z) :
  (1 <= timeout <= Js.TIMEOUT_MAX)%Z -> Js.timerDelay timeout = timeout.
Proof.
  intros [Hlo Hhi]. unfold Js.timerDelay.
  apply Z.ltb_ge in Hlo. apply Z.ltb_ge in Hhi. now rewrite Hlo, Hhi.
Qed.

Lemma verifyEmail_run (env : Env) (email : string)
      (dns : DnsVerificationResult) (timeout : Z) (w : World) :
  (0 <= timeout)%Z ->
  verifyEmail env email dns timeout w
  = (Js.Return
       (fst (verifyEmailOn (submissionEvents env email) email dns timeout)),
     emit (snd (verifyEmailOn (submissionEvents env email) email dns timeout))
          w).
Proof.
  intros H. apply Z.ltb_ge in H. unfold verifyEmail.
  rewrite H, andb_false_r.
  destruct (verifyEmailOn (submissionEvents env email) email dns timeout).
  reflexivity.
Qed.

(** A negative timeout: the promise is rejected before anything is
    opened. *)
Lemma verifyEmail_negative_timeout (env : Env) (email : string)
      (dns : DnsVerificationResult) (timeout : Z) (w : World) :
  hasMxRecord dns = true ->
  mxRecords dns <> [] ->
  (timeout < 0)%Z ->
  verifyEmail env email dns timeout w
  = (Js.Throw (Js.outOfRange "msecs" "a non-negative finite number" timeout),
     w).
Proof.
  intros Hmx Hne H. apply Z.ltb_lt in H. unfold verifyEmail.
  now rewrite (mx_present dns Hmx Hne), H.
Qed.

(** C2.  With MX records present and a timeout that the timer runs
    with as it is (from 1 to [Js.TIMEOUT_MAX] milliseconds, the default
    of 10000 among them), the scripted lines [220 ok],
    [250 ehlo-ok], [250 starttls-ok], [250 mail-ok], [250 rcpt-ok], each
    arriving before the timer expires, resolve the probe with
    [exists = true] after the commands EHLO, STARTTLS, MAIL FROM and
    RCPT TO were written in that order; with [550 no such user] as the
    last line the probe resolves with [exists = false]; and when neither
    data nor an error arrives before the timer expires, the probe
    resolves with [success = false] and the message
    [Connection timeout]. *)
Theorem verifyEmail_scripted_dialogue
        (email : string) (dns : DnsVerificationResult) (timeout : Z)
        (times : list Z) (events : list (Z * SocketEvent)) :
  hasMxRecord dns = true ->
  mxRecords dns <> [] ->
  (1 <= timeout <= Js.TIMEOUT_MAX)%Z ->
  length times = 5 ->
  Forall (fun t => (t < timeout)%Z) times ->
  silentBefore timeout events ->
  let domain := Js.show (part 1 email) in
  let dialogue :=
    [ SocketWrite ("EHLO " ++ domain ++ Js.CRLF);
      SocketWrite ("STARTTLS" ++ Js.CRLF);
      SocketWrite ("MAIL FROM:<verify@" ++ domain ++ ">" ++ Js.CRLF);
      SocketWrite ("RCPT TO:<" ++ email ++ ">" ++ Js.CRLF) ] in
  let accepted :=
    {| success := true; exists_ := true; message := "Email exists" |} in
  let rejected :=
    {| success := true; exists_ := false;
       message := "Email does not exist" |} in
  verifyEmailOn
    (script times ["220 ok"; "250 ehlo-ok"; "250 starttls-ok";
                   "250 mail-ok"; "250 rcpt-ok"])
    email dns timeout
  = (accepted,
     (relay timeout :: SetTimeout timeout :: dialogue
      ++ [ClearTimeout; quit; SocketDestroy; PromiseResolve accepted])%list)
  /\ verifyEmailOn
       (script times ["220 ok"; "250 ehlo-ok"; "250 starttls-ok";
                      "250 mail-ok"; "550 no such user"])
       email dns timeout
     = (rejected,
        (relay timeout :: SetTimeout timeout :: dialogue
         ++ [ClearTimeout; quit; SocketDestroy; PromiseResolve rejected])%list)
  /\ verifyEmailOn events email dns timeout
     = (timeoutResult,
        [relay timeout; SetTimeout timeout; SocketDestroy;
         PromiseResolve timeoutResult]).
Proof.
  intros Hmx Hne Hrange Hlen Htimes Hsilent domain dialogue accepted rejected.
  unfold verifyEmailOn.
  rewrite (mx_present dns Hmx Hne), (timerDelay_in_range timeout Hrange).
  split; [|split].
  3: { now rewrite (socketLoop_silent _ _ _ _ _ Hsilent). }
  all: destruct times as [|t1 [|t2 [|t3 [|t4 [|t5 [|t6 ts]]]]]];
    try discriminate Hlen;
    repeat match goal with
           | H : Forall _ (_ :: _) |- _ =>
               apply Forall_cons_iff in H as [?%Z.leb_gt H]
           end;
    unfold script; cbn [map combine socketLoop];
    repeat match goal with
           | H : (_ <=? _)%Z = false |- _ => rewrite H; clear H
           end;
    reflexivity.
Qed.

(** ** Orchestration *)

Lemma clock_emit (es : list Effect) (w : World) :
  clock (emit es w) = clock w.
Proof. reflexivity. Qed.

Lemma verifyOneEmail_run (env : Env) (data : VerifyOneDto) (w : World) :
  let c := check data in
  verifyOneEmail env data w =
  match checkFreeOrPaid c with
  | Js.Throw e =>
      (Js.Return None, emit (dnsLookups c ++ [LoggerError (Js.message e)]) w)
  | Js.Return free' =>
      let '(doc, tr) := plannedFields env data free' (clock w) in
      let w2 := emit (dnsLookups c ++ dnsLookups c ++ tr) w in
      match emailsModel_create env doc w2 with
      | (Js.Return res, w3) => (Js.Return (Some (toResult res)), w3)
      | (Js.Throw e, w3) =>
          (Js.Return None, emit [LoggerError (Js.message e)] w3)
      end
  end.
Proof.
  intros c. unfold verifyOneEmail, tryCatch, bind. fold c.
  rewrite verifyEmailDns_run.
  unfold getInfoEmail, bind, lift, plannedFields. fold c.
  destruct (checkFreeOrPaid c) as [free'|e].
  2: { unfold Logger_error, effect, ret. now rewrite emit_emit. }
  rewrite verifyEmailDns_run.
  destruct (extractMxRecords (mxRecords (dnsResult env c))) as [mx prov].
  unfold ret at 1. cbn [disposable free role i_mxRecords provider].
  destruct (isBlacklisted (blacklist env) c).
  - unfold newDate. cbn [clock emit]. rewrite emit_emit, app_nil_r.
    match goal with
    | |- context [emailsModel_create env ?d ?x] =>
        destruct (emailsModel_create env d x) as [[res|e] w3]
    end; reflexivity.
  - rewrite verifyEmail_run by (unfold defaultTimeout; lia).
    destruct (verifyEmailOn (submissionEvents env c) c (dnsResult env c)
                            defaultTimeout) as [smtp tr].
    cbn [fst snd]. unfold newDate. cbn [clock emit].
    rewrite !emit_emit.
    destruct (exists_ smtp); cbv beta iota; rewrite clock_emit;
      match goal with
      | |- context [emailsModel_create env ?d ?x] =>
          destruct (emailsModel_create env d x) as [[res|e] w3]
      end; reflexivity.
Qed.

Lemma create_returns (env : Env) (doc : EmailFields) (w w3 : World)
      (res : Emails) :
  emailsModel_create env doc w = (Js.Return res, w3) ->
  fields res = doc
  /\ listId res = []
  /\ stored (f_email doc) w = false
  /\ dbFault env = None
  /\ collection w3 = (collection w ++ [res])%list
  /\ clock w3 = clock w
  /\ trace w3 = (trace w ++ [EmailsCreate doc])%list.
Proof.
  unfold emailsModel_create, stored. cbn [emit collection clock trace].
  destruct (dbFault env); [discriminate|].
  destruct (existsb _ (collection w)); [discriminate|].
  intros H. injection H as <- <-. repeat split; reflexivity.
Qed.

Lemma create_throws (env : Env) (doc : EmailFields) (w w3 : World)
      (e : Js.Exn) :
  emailsModel_create env doc w = (Js.Throw e, w3) ->
  w3 = emit [EmailsCreate doc] w
  /\ (dbFault env = Some (Js.message e)
      \/ (dbFault env = None /\ stored (f_email doc) w = true)).
Proof.
  unfold emailsModel_create, stored. cbn [emit collection clock trace].
  destruct (dbFault env) as [msg|].
  - intros H. injection H as <- <-. split; [reflexivity | now left].
  - destruct (existsb _ (collection w)); [|discriminate].
    intros H. injection H as <- <-. split; [reflexivity | now right].
Qed.

Lemma create_succeeds (env : Env) (doc : EmailFields) (w : World) :
  dbFault env = None -> stored (f_email doc) w = false ->
  exists res w3, emailsModel_create env doc w = (Js.Return res, w3).
Proof.
  unfold emailsModel_create, stored. cbn [emit collection clock trace].
  intros -> ->. eauto.
Qed.

Lemma plannedFields_email (env : Env) (data : VerifyOneDto)
      (free' : FreeOrPaid) (time : Z) :
  f_email (fst (plannedFields env data free' time)) = check data.
Proof.
  unfold plannedFields.
  destruct (extractMxRecords _), (isBlacklisted _ _); [reflexivity|].
  destruct (verifyEmailOn _ _ _ _). reflexivity.
Qed.

Lemma plannedFields_disposable (env : Env) (data : VerifyOneDto)
      (free' : FreeOrPaid) (time : Z) :
  isBlacklisted (blacklist env) (check data) = true ->
  let p := plannedFields env data free' time in
  f_state (fst p) = Risky /\ f_score (fst p) = 5%Z /\ snd p = [].
Proof.
  intros H. unfold plannedFields. rewrite H.
  destruct (extractMxRecords _). repeat split.
Qed.

Lemma plannedFields_probed (env : Env) (data : VerifyOneDto)
      (free' : FreeOrPaid) (time : Z) :
  isBlacklisted (blacklist env) (check data) = false ->
  let p := plannedFields env data free' time in
  let smtp := probeOf env (check data) in
  f_state (fst p) = (if exists_ smtp then Deliverable else Undeliverable)
  /\ f_score (fst p) = (if exists_ smtp then 99 else 0)%Z
  /\ snd p = probeTrace env (check data).
Proof.
  intros H. unfold plannedFields, probeOf, probeTrace. rewrite H.
  destruct (extractMxRecords _), (verifyEmailOn _ _ _ _). repeat split.
Qed.

Lemma stored_emit (address : string) (es : list Effect) (w : World) :
  stored address (emit es w) = stored address w.
Proof. reflexivity. Qed.

(** What a returned record looks like. *)
Lemma verifyOneEmail_record (env : Env) (data : VerifyOneDto)
      (w w' : World) (r : EmailResult) :
  verifyOneEmail env data w = (Js.Return (Some r), w') ->
  exists free' res,
    checkFreeOrPaid (check data) = Js.Return free'
    /\ r = toResult res
    /\ fields res = fst (plannedFields env data free' (clock w))
    /\ listId res = []
    /\ collection w' = (collection w ++ [res])%list
    /\ trace w'
       = (trace w ++ dnsLookups (check data) ++ dnsLookups (check data)
          ++ snd (plannedFields env data free' (clock w))
          ++ [EmailsCreate (r_fields r)])%list.
Proof.
  rewrite verifyOneEmail_run. cbv zeta.
  destruct (checkFreeOrPaid (check data)) as [free'|e]; [|discriminate].
  destruct (plannedFields env data free' (clock w)) as [doc tr] eqn:P.
  destruct (emailsModel_create env doc _) as [[res|e] w3] eqn:E;
    [|discriminate].
  intros H. injection H as <- <-.
  apply create_returns in E as [Hf [Hl [_ [_ [Hc [_ Ht]]]]]].
  exists free', res. rewrite P. cbn [fst snd emit collection trace] in *.
  repeat split; trivial.
  rewrite Ht. unfold toResult. cbn [r_fields]. rewrite Hf.
  now rewrite <- !app_assoc.
Qed.

Lemma checkFreeOrPaid_returns (c d : string) :
  part 1 c = Some d -> exists free', checkFreeOrPaid c = Js.Return free'.
Proof.
  intros H. unfold checkFreeOrPaid. rewrite H.
  destruct (Js.arrayIncludes _ _); eauto.
Qed.

(** C1.  A record is returned whenever the target has a domain part and
    the database accepts the new document.  Every returned record is for
    the target; if the target is blacklisted its state is [Risky] and its
    score 5, and the call performed the DNS lookups and the insertion but
    no socket action; if not, the record is [Deliverable] with score 99
    exactly when the probe resolved with [exists = true], and
    [Undeliverable] with score 0 otherwise.  A call for a blacklisted
    target performs no socket action whatever its outcome, a failed
    insertion included: it performs the lookups, the insertion and, if
    that fails, the logging of the failure. *)
Theorem verifyOneEmail_state_score
        (env : Env) (data : VerifyOneDto) (w : World) :
  let c := check data in
  (forall d,
      part 1 c = Some d -> dbFault env = None -> stored c w = false ->
      exists r w', verifyOneEmail env data w = (Js.Return (Some r), w'))
  /\ (forall r w',
         verifyOneEmail env data w = (Js.Return (Some r), w') ->
         email r = c
         /\ (isBlacklisted (blacklist env) c = true ->
             state r = Risky /\ score r = 5%Z
             /\ exists tr,
                 trace w' = (trace w ++ tr)%list
                 /\ tr = (dnsLookups c ++ dnsLookups c
                          ++ [EmailsCreate (r_fields r)])%list
                 /\ existsb isSocketEffect tr = false)
         /\ (isBlacklisted (blacklist env) c = false ->
             (exists_ (probeOf env c) = true ->
              state r = Deliverable /\ score r = 99%Z)
             /\ (exists_ (probeOf env c) = false ->
                 state r = Undeliverable /\ score r = 0%Z)
             /\ trace w' = (trace w ++ dnsLookups c ++ dnsLookups c
                            ++ probeTrace env c
                            ++ [EmailsCreate (r_fields r)])%list))
  /\ (isBlacklisted (blacklist env) c = true ->
      exists doc log,
        trace (snd (verifyOneEmail env data w))
        = (trace w ++ dnsLookups c ++ dnsLookups c
           ++ EmailsCreate doc :: log)%list
        /\ (log = [] \/ exists msg, log = [LoggerError msg])
        /\ existsb isSocketEffect
             (dnsLookups c ++ dnsLookups c ++ EmailsCreate doc :: log)
           = false).
Proof.
  intros c. split; [|split].
  - intros d Hd Hdb Hnew.
    destruct (checkFreeOrPaid_returns c d Hd) as [free' Hfree].
    rewrite verifyOneEmail_run. fold c. rewrite Hfree.
    pose proof (plannedFields_email env data free' (clock w)) as Hmail.
    destruct (plannedFields env data free' (clock w)) as [doc tr].
    cbn [fst] in Hmail.
    destruct (create_succeeds env doc
                (emit (dnsLookups c ++ dnsLookups c ++ tr) w) Hdb)
      as [res [w3 Hc]].
    + now rewrite Hmail, stored_emit.
    + cbv beta iota zeta. rewrite Hc. eauto.
  - intros r w' Hrun.
    apply verifyOneEmail_record in Hrun
      as [free' [res [Hfree [-> [Hf [_ [_ Htr]]]]]]].
    fold c in Htr. unfold email, state, score, toResult in *.
    cbn [r_fields] in *. rewrite Hf.
    split; [apply plannedFields_email|]. split.
    + intros Hbl.
      destruct (plannedFields_disposable env data free' (clock w) Hbl)
        as [Hs [Hsc Hnil]].
      split; [exact Hs|]. split; [exact Hsc|].
      rewrite Hnil in Htr. eexists. split; [exact Htr|].
      split; [now rewrite Hf|]. reflexivity.
    + intros Hbl.
      destruct (plannedFields_probed env data free' (clock w) Hbl)
        as [Hs [Hsc Hp]].
      rewrite Hs, Hsc. fold c.
      split; [intros ->; now split|]. split; [intros ->; now split|].
      rewrite Htr, Hp, Hf. reflexivity.
  - intros Hbl.
    assert (Hd : exists d, part 1 c = Some d).
    { unfold isBlacklisted, Js.arrayIncludes in Hbl.
      destruct (part 1 c) as [d|]; [eauto | discriminate]. }
    destruct Hd as [d Hd].
    destruct (checkFreeOrPaid_returns c d Hd) as [free' Hfree].
    rewrite verifyOneEmail_run. fold c. rewrite Hfree.
    destruct (plannedFields_disposable env data free' (clock w) Hbl)
      as [_ [_ Hnil]].
    destruct (plannedFields env data free' (clock w)) as [doc tr].
    cbn [snd] in Hnil. subst tr. cbv beta iota zeta.
    exists doc.
    destruct (emailsModel_create env doc _) as [[res|e] w3] eqn:E.
    + apply create_returns in E as [_ [_ [_ [_ [_ [_ Ht]]]]]].
      exists []. cbn [snd]. rewrite Ht. cbn [emit trace].
      rewrite app_nil_r, <- !app_assoc.
      split; [reflexivity|]. split; [now left | reflexivity].
    + apply create_throws in E as [-> _].
      exists [LoggerError (Js.message e)]. cbn [snd emit trace].
      rewrite app_nil_r, <- !app_assoc.
      split; [reflexivity|]. split; [right; eauto | reflexivity].
Qed.

Lemma verifyOneEmail_state_score_witness :
  (exists r w',
      verifyOneEmail exampleEnv disposableData emptyWorld
      = (Js.Return (Some r), w')
      /\ state r = Risky /\ score r = 5%Z)
  /\ (exists r w',
         verifyOneEmail exampleEnv exampleData emptyWorld
         = (Js.Return (Some r), w')
         /\ state r = Deliverable /\ score r = 99%Z)
  /\ fst (verifyOneEmail faultyEnv disposableData emptyWorld)
     = Js.Return None
  /\ existsb isSocketEffect
       (trace (snd (verifyOneEmail faultyEnv disposableData emptyWorld)))
     = false.
Proof.
  split; [|split; [|split; [reflexivity|]]].
  - destruct (verifyOneEmail_state_score exampleEnv disposableData emptyWorld)
      as [Hret [Hrec _]].
    destruct (Hret "mailinator.com" eq_refl eq_refl eq_refl)
      as [r [w' Hrun]].
    exists r, w'. split; [exact Hrun|].
    destruct (Hrec r w' Hrun) as [_ [Hrisky _]].
    destruct (Hrisky eq_refl) as [Hs [Hsc _]]. now split.
  - destruct (verifyOneEmail_state_score exampleEnv exampleData emptyWorld)
      as [Hret [Hrec _]].
    destruct (Hret "example.com" eq_refl eq_refl eq_refl) as [r [w' Hrun]].
    exists r, w'. split; [exact Hrun|].
    destruct (Hrec r w' Hrun) as [_ [_ Hprobe]].
    destruct (Hprobe eq_refl) as [Hyes _].
    apply Hyes. vm_compute. reflexivity.
  - destruct (verifyOneEmail_state_score faultyEnv disposableData emptyWorld)
      as [_ [_ Hquiet]].
    destruct (Hquiet eq_refl) as [doc [log [Htr [_ Hno]]]].
    rewrite Htr. exact Hno.
Defined.

(** C3, as the code has it.  [verifyOneEmail] never raises.  The record
    it returns is the stored document, so when [emailsModel.create]
    fails, whatever the probe found, the error message is logged with
    [Logger.error] as the last action and nothing is returned: this
    happens for every target with a domain part when the database is
    failing or the address is already stored. *)
Theorem verifyOneEmail_persistence_failure
        (env : Env) (data : VerifyOneDto) (w : World) :
  let c := check data in
  (exists o w', verifyOneEmail env data w = (Js.Return o, w'))
  /\ (forall free' e w3,
         checkFreeOrPaid c = Js.Return free' ->
         emailsModel_create env
           (fst (plannedFields env data free' (clock w)))
           (emit (dnsLookups c ++ dnsLookups c
                  ++ snd (plannedFields env data free' (clock w))) w)
         = (Js.Throw e, w3) ->
         verifyOneEmail env data w
         = (Js.Return None, emit [LoggerError (Js.message e)] w3))
  /\ (forall d,
         part 1 c = Some d ->
         dbFault env <> None \/ stored c w = true ->
         exists w' pre msg,
           verifyOneEmail env data w = (Js.Return None, w')
           /\ trace w' = (pre ++ [LoggerError msg])%list)
  /\ (forall r w',
         verifyOneEmail env data w = (Js.Return (Some r), w') ->
         In {| id_ := r_id r; listId := []; fields := r_fields r |}
            (collection w')).
Proof.
  intros c. split; [|split; [|split]].
  - rewrite verifyOneEmail_run. cbv zeta.
    destruct (checkFreeOrPaid (check data)); [|eauto].
    destruct (plannedFields _ _ _ _) as [doc tr].
    destruct (emailsModel_create _ _ _) as [[res|e] w3]; eauto.
  - intros free' e w3 Hfree Hcreate.
    rewrite verifyOneEmail_run. fold c. rewrite Hfree.
    destruct (plannedFields env data free' (clock w)) as [doc tr].
    cbn [fst snd] in Hcreate. cbv beta iota zeta. now rewrite Hcreate.
  - intros d Hd Hfail.
    destruct (checkFreeOrPaid_returns c d Hd) as [free' Hfree].
    rewrite verifyOneEmail_run. fold c. rewrite Hfree.
    pose proof (plannedFields_email env data free' (clock w)) as Hmail.
    destruct (plannedFields env data free' (clock w)) as [doc tr].
    cbn [fst] in Hmail. fold c in Hmail. cbv beta iota zeta.
    destruct (emailsModel_create env doc _) as [[res|e] w3] eqn:E.
    + apply create_returns in E as [_ [_ [Hnew [Hdb _]]]].
      rewrite Hmail, stored_emit in Hnew.
      destruct Hfail as [Hfail | Hfail]; congruence.
    + exists (emit [LoggerError (Js.message e)] w3), (trace w3),
        (Js.message e). split; reflexivity.
  - intros r w' Hrun.
    apply verifyOneEmail_record in Hrun
      as [free' [res [_ [-> [_ [Hl [Hc _]]]]]]].
    rewrite Hc. apply in_or_app. right. left.
    destruct res as [i l f]. cbn in Hl. now subst l.
Qed.

Lemma verifyOneEmail_persistence_failure_witness :
  exists w' pre msg,
    verifyOneEmail exampleEnv exampleData storedWorld = (Js.Return None, w')
    /\ trace w' = (pre ++ [LoggerError msg])%list.
Proof.
  destruct (verifyOneEmail_persistence_failure exampleEnv exampleData
              storedWorld) as [_ [_ [Hfail _]]].
  apply (Hfail "example.com" eq_refl). right. vm_compute. reflexivity.
Defined.

(** C3, as stated, fails: the second verification of an address whose
    probe answers [exists = true] finds the address stored; the insertion
    is rejected, the rejection is logged, and no record comes back. *)
Lemma verifyOneEmail_drops_record_on_duplicate :
  exists_ (probeOf exampleEnv (check exampleData)) = true
  /\ stored (check exampleData) storedWorld = true
  /\ exists w',
      verifyOneEmail exampleEnv exampleData storedWorld
      = (Js.Return None, w')
      /\ last (trace w') (Sleep 0)
         = LoggerError (Js.message (duplicateKey "user@example.com")).
Proof.
  split; [vm_compute; reflexivity|]. split; [vm_compute; reflexivity|].
  eexists. split; vm_compute; reflexivity.
Qed.

Lemma verifyEmail_scripted_dialogue_witness :
  exists_ (fst (verifyEmailOn
                  (script [20; 40; 60; 80; 100]%Z
                          ["220 ok"; "250 ehlo-ok"; "250 starttls-ok";
                           "250 mail-ok"; "250 rcpt-ok"])
                  "user@example.com" exampleDns defaultTimeout)) = true
  /\ exists_ (fst (verifyEmailOn
                     (script [20; 40; 60; 80; 100]%Z
                             ["220 ok"; "250 ehlo-ok"; "250 starttls-ok";
                              "250 mail-ok"; "550 no such user"])
                     "user@example.com" exampleDns defaultTimeout)) = false
  /\ fst (verifyEmailOn [(10000%Z, EvData ("220 late" ++ Js.CRLF))]
                        "user@example.com" exampleDns defaultTimeout)
     = timeoutResult.
Proof.
  assert (Hmx : hasMxRecord exampleDns = true) by reflexivity.
  assert (Hne : mxRecords exampleDns <> []) by discriminate.
  assert (Hrange : (1 <= defaultTimeout <= Js.TIMEOUT_MAX)%Z).
  { unfold defaultTimeout, Js.TIMEOUT_MAX. lia. }
  assert (Hlen : length [20; 40; 60; 80; 100]%Z = 5) by reflexivity.
  assert (Htimes : Forall (fun t => (t < defaultTimeout)%Z)
                          [20; 40; 60; 80; 100]%Z).
  { repeat constructor. }
  assert (Hsilent : silentBefore defaultTimeout
                      [(10000%Z, EvData ("220 late" ++ Js.CRLF))]).
  { constructor; [|constructor]. cbn. unfold defaultTimeout. lia. }
  destruct (verifyEmail_scripted_dialogue "user@example.com" exampleDns
              defaultTimeout [20; 40; 60; 80; 100]%Z
              [(10000%Z, EvData ("220 late" ++ Js.CRLF))]
              Hmx Hne Hrange Hlen Htimes Hsilent) as [Hyes [Hno Hlate]].
  rewrite Hyes, Hno, Hlate. repeat split.
Defined.

Lemma connects_app (a b : list Effect) :
  connects (a ++ b) = (connects a ++ connects b)%list.
Proof. apply filter_app. Qed.

(** C6.  With MX records present and a timeout that is not negative,
    one call of the probe opens exactly one connection, to
    [smtp.office365.com] on port 587; the records themselves are never
    read: any two results with MX records present give the same run. *)
Theorem verifyEmail_single_fixed_relay
        (env : Env) (events : list (Z * SocketEvent)) (email : string)
        (dns dns' : DnsVerificationResult) (timeout : Z) (w : World) :
  hasMxRecord dns = true -> mxRecords dns <> [] ->
  hasMxRecord dns' = true -> mxRecords dns' <> [] ->
  (0 <= timeout)%Z ->
  connects (snd (verifyEmailOn events email dns timeout))
  = [TlsConnect "smtp.office365.com" 587 timeout]
  /\ verifyEmailOn events email dns' timeout
     = verifyEmailOn events email dns timeout
  /\ exists r tr,
      verifyEmail env email dns timeout w = (Js.Return r, emit tr w)
      /\ connects tr = [TlsConnect "smtp.office365.com" 587 timeout].
Proof.
  intros Hmx Hne Hmx' Hne' Hrange.
  assert (Hone : forall evs,
             connects (snd (verifyEmailOn evs email dns timeout))
             = [TlsConnect "smtp.office365.com" 587 timeout]).
  { intros evs. unfold verifyEmailOn. rewrite (mx_present dns Hmx Hne).
    destruct (socketLoop_shape email (part 1 email) (Js.timerDelay timeout)
                evs {| buffer := EmptyString; step := 0 |})
      as [pre [Hpre Hcase]].
    destruct (socketLoop _ _ _ _ _) as [r tr]. cbn [fst snd] in *.
    apply isCommand_not_connect in Hpre.
    change (connects (?a :: ?b :: ?l)) with (a :: connects l).
    destruct Hcase as [[_ ->] | [_ ->]]; rewrite connects_app, Hpre;
      reflexivity. }
  split; [apply Hone|]. split.
  - unfold verifyEmailOn.
    now rewrite (mx_present dns Hmx Hne), (mx_present dns' Hmx' Hne').
  - rewrite (verifyEmail_run _ _ _ _ _ Hrange). eexists. eexists.
    split; [reflexivity | apply Hone].
Qed.

Lemma verifyEmail_single_fixed_relay_witness :
  connects (snd (verifyEmailOn
                   (script [20; 40; 60; 80; 100]%Z
                           ["220 ok"; "250 ehlo-ok"; "250 starttls-ok";
                            "250 mail-ok"; "550 no such user"])
                   "user@example.com" exampleDns defaultTimeout))
  = [TlsConnect "smtp.office365.com" 587 defaultTimeout].
Proof.
  assert (Hmx : hasMxRecord exampleDns = true) by reflexivity.
  assert (Hne : mxRecords exampleDns <> []) by discriminate.
  assert (Hrange : (0 <= defaultTimeout)%Z) by (unfold defaultTimeout; lia).
  exact (proj1 (verifyEmail_single_fixed_relay exampleEnv _
                  "user@example.com" exampleDns exampleDns defaultTimeout
                  emptyWorld Hmx Hne Hmx Hne Hrange)).
Defined.




(** ** Batches *)

Lemma isCommand_socket (pre : list Effect) :
  forallb isCommand pre = true -> forallb isSocketEffect pre = true.
Proof.
  induction pre as [|e pre IH]; simpl; [reflexivity|].
  intros H. apply andb_true_iff in H as [He Hpre].
  rewrite (IH Hpre). destruct e; try discriminate. reflexivity.
Qed.

Lemma verifyEmailOn_socket (events : list (Z * SocketEvent))
      (address : string) (dns : DnsVerificationResult) (timeout : Z) :
  forallb isSocketEffect (snd (verifyEmailOn events address dns timeout))
  = true.
Proof.
  unfold verifyEmailOn.
  destruct (negb (hasMxRecord dns) || (length (mxRecords dns) =? 0)%nat);
    [reflexivity|].
  destruct (socketLoop_shape address (part 1 address) (Js.timerDelay timeout)
              events
              {| buffer := EmptyString; step := 0 |}) as [pre [Hpre Hcase]].
  destruct (socketLoop _ _ _ _ _) as [r tr]. cbn [fst snd] in *.
  apply isCommand_socket in Hpre.
  destruct Hcase as [[_ ->] | [_ ->]]; cbn [forallb isSocketEffect andb];
    now rewrite forallb_app, Hpre.
Qed.

Lemma socket_no_sleep (tr : list Effect) :
  forallb isSocketEffect tr = true -> filter isSleep tr = [].
Proof.
  induction tr as [|e tr IH]; simpl; [reflexivity|].
  intros H. apply andb_true_iff in H as [He Htr].
  rewrite (IH Htr). destruct e; try discriminate; reflexivity.
Qed.

Lemma plannedFields_no_sleep (env : Env) (data : VerifyOneDto)
      (free' : FreeOrPaid) (time : Z) :
  filter isSleep (snd (plannedFields env data free' time)) = [].
Proof.
  unfold plannedFields.
  destruct (extractMxRecords _), (isBlacklisted _ _); [reflexivity|].
  pose proof (verifyEmailOn_socket
                (submissionEvents env (check data)) (check data)
                (dnsResult env (check data)) defaultTimeout) as H.
  destruct (verifyEmailOn _ _ _ _) as [smtp tr]. cbn [snd] in *.
  now apply socket_no_sleep.
Qed.

(** One verification always returns, and never pauses. *)
Lemma verifyOneEmail_effects (env : Env) (data : VerifyOneDto) (w : World) :
  exists o w' tr,
    verifyOneEmail env data w = (Js.Return o, w')
    /\ trace w' = (trace w ++ tr)%list
    /\ filter isSleep tr = [].
Proof.
  rewrite verifyOneEmail_run. cbv zeta.
  destruct (checkFreeOrPaid (check data)) as [free'|e].
  2: { eexists. eexists. eexists. split; [reflexivity|].
       split; [reflexivity|]. unfold dnsLookups. reflexivity. }
  pose proof (plannedFields_no_sleep env data free' (clock w)) as Hns.
  destruct (plannedFields env data free' (clock w)) as [doc tr].
  cbn [snd] in Hns.
  destruct (emailsModel_create env doc _) as [[res|e] w3] eqn:E.
  - apply create_returns in E as [_ [_ [_ [_ [_ [_ Ht]]]]]].
    eexists. eexists. eexists. split; [reflexivity|]. split.
    + rewrite Ht. cbn [emit trace]. now rewrite <- app_assoc.
    + rewrite !filter_app, Hns. reflexivity.
  - apply create_throws in E as [-> _].
    eexists. eexists. eexists. split; [reflexivity|]. split.
    + cbn [emit trace]. now rewrite <- !app_assoc.
    + rewrite !filter_app, Hns. reflexivity.
Qed.

Lemma verifyManyLoop_oneByOne (env : Env) (userEmail : string)
      (targets : list string) :
  forall (dataa : list (option EmailResult)) (w : World),
    verifyManyLoop env userEmail targets dataa w
    = (Js.Return (dataa ++ fst (oneByOne env userEmail targets w))%list,
       snd (oneByOne env userEmail targets w)).
Proof.
  induction targets as [|target rest IH]; intros dataa w;
    cbn [verifyManyLoop oneByOne].
  - unfold ret. cbn [fst snd]. now rewrite app_nil_r.
  - unfold bind.
    destruct (verifyOneEmail_effects env
                {| dto_email := userEmail; check := target |} w)
      as [o [w1 [tr [Hrun _]]]].
    rewrite Hrun. cbn [sleep]. rewrite IH.
    destruct (oneByOne env userEmail rest _) as [rs w3]. cbn [fst snd].
    now rewrite <- app_assoc.
Qed.

Lemma oneByOne_answers (env : Env) (userEmail : string)
      (targets : list string) :
  forall w : World,
    Forall2 answers targets (fst (oneByOne env userEmail targets w)).
Proof.
  induction targets as [|target rest IH]; intros w; cbn [oneByOne].
  - constructor.
  - destruct (verifyOneEmail env _ w) as [c w1] eqn:Hrun. cbn [sleep].
    specialize (IH {| collection := collection w1;
                      clock := (clock w1 + 2000)%Z;
                      trace := (trace w1 ++ [Sleep 2000])%list |}).
    destruct (oneByOne env userEmail rest _) as [rs w3]. cbn [fst] in *.
    constructor; [|exact IH].
    destruct c as [[r|]|e]; cbn; trivial.
    apply verifyOneEmail_record in Hrun
      as [free' [res [_ [-> [Hf _]]]]].
    unfold email, toResult. cbn [r_fields]. rewrite Hf.
    apply plannedFields_email.
Qed.

Lemma oneByOne_sleeps (env : Env) (userEmail : string)
      (targets : list string) :
  forall w : World,
  exists tr,
    trace (snd (oneByOne env userEmail targets w)) = (trace w ++ tr)%list
    /\ filter isSleep tr = repeat (Sleep 2000) (length targets).
Proof.
  induction targets as [|target rest IH]; intros w; cbn [oneByOne].
  - exists []. cbn. now rewrite app_nil_r.
  - destruct (verifyOneEmail_effects env
                {| dto_email := userEmail; check := target |} w)
      as [o [w1 [tr1 [Hrun [Htr1 Hns]]]]].
    rewrite Hrun. cbn [sleep].
    destruct (IH {| collection := collection w1;
                    clock := (clock w1 + 2000)%Z;
                    trace := (trace w1 ++ [Sleep 2000])%list |})
      as [tr2 [Htr2 Hs2]].
    destruct (oneByOne env userEmail rest _) as [rs w3].
    cbn [fst snd trace] in *.
    exists (tr1 ++ [Sleep 2000] ++ tr2)%list. split.
    + rewrite Htr2, Htr1. now rewrite <- !app_assoc.
    + rewrite !filter_app, Hns, Hs2. reflexivity.
Qed.

(** C7, as the code has it.  [verifyManyEmail] handles the targets one
    after the other in input order, pausing 2000 ms after each of them,
    and returns one entry per target in the same order; the entry is what
    [verifyOneEmail] returned for that target: a record for that address,
    or nothing when the verification ended in its handler. *)
Theorem verifyManyEmail_in_order
        (env : Env) (data : VerifyManyDto) (w : World) :
  let run := oneByOne env (many_email data) (emails data) w in
  verifyManyEmail env data w = (Js.Return (fst run), snd run)
  /\ length (fst run) = length (emails data)
  /\ Forall2 answers (emails data) (fst run)
  /\ exists tr,
      trace (snd run) = (trace w ++ tr)%list
      /\ filter isSleep tr = repeat (Sleep 2000) (length (emails data)).
Proof.
  intros run. unfold verifyManyEmail.
  pose proof (oneByOne_answers env (many_email data) (emails data) w) as Hans.
  split; [now rewrite verifyManyLoop_oneByOne|].
  split; [symmetry; exact (Forall2_length Hans)|].
  split; [exact Hans|]. apply oneByOne_sleeps.
Qed.

(** C7, as stated, fails: with the same address twice in the list the
    second entry is no record. *)
Lemma verifyManyEmail_entry_without_record :
  exists r w',
    verifyManyEmail exampleEnv
      {| many_email := "owner@example.org"; many_name := "list";
         emails := ["user@example.com"; "user@example.com"] |}
      emptyWorld
    = (Js.Return [Some r; None], w').
Proof. eexists. eexists. vm_compute. reflexivity. Qed.

(** * Further properties *)

Lemma classifiers_without_at_core (s : string) :
  Js.hasChar "@" s = false ->
  checkFreeOrPaid s
  = Js.Throw (Js.TypeError
      "Cannot read properties of undefined (reading 'toLowerCase')")
  /\ part 1 s = None.
Proof.
  intros H. unfold checkFreeOrPaid, part.
  now rewrite (split_no_separator _ _ H).
Qed.

Lemma createUser_registered (env : Env) (address : string) (r : Registry) :
  dbFault env = None ->
  registered address r = true ->
  createUser env address r = (Js.Return None, r).
Proof.
  unfold createUser, usersModel_findOne, registered. intros -> Hreg.
  destruct (find _ (users r)) eqn:E; [reflexivity|].
  exfalso. induction (users r) as [|u l IH]; cbn in *; [discriminate|].
  destruct (String.eqb (u_email u) address); [discriminate | auto].
Qed.

Lemma createUser_shape (env : Env) (address : string) (r : Registry) :
  dbFault env = None ->
  (registered address r = true
   /\ createUser env address r = (Js.Return None, r))
  \/ (registered address r = false /\ address = EmptyString
      /\ createUser env address r
         = (Js.Return None, note (Js.message emailRequired) r))
  \/ (registered address r = false /\ address <> EmptyString
      /\ createUser env address r
         = (Js.Return
              (Some {| u_id := length (users r); u_email := address;
                       username := EmptyString; listsIds := [];
                       singlesIds := []; hashPassword := EmptyString |}),
            {| users := (users r ++
                         [{| u_id := length (users r); u_email := address;
                             username := EmptyString; listsIds := [];
                             singlesIds := [];
                             hashPassword := EmptyString |}])%list;
               journal := journal r |})).
Proof.
  intros Hdb. destruct (registered address r) eqn:Hreg.
  - left. split; [reflexivity | now apply createUser_registered].
  - right.
    assert (Hfind : find (fun u => String.eqb (u_email u) address) (users r)
                    = None).
    { destruct (find _ (users r)) eqn:E; [|reflexivity].
      exfalso. apply find_some in E as [Hin Heq].
      assert (existsb (fun u => String.eqb (u_email u) address) (users r)
              = true) by (apply existsb_exists; eauto).
      unfold registered in Hreg. congruence. }
    unfold createUser, usersModel_findOne, usersModel_create, user_save,
      registered in *.
    rewrite Hdb, Hfind.
    destruct (String.eqb address EmptyString) eqn:E.
    + left. apply String.eqb_eq in E. now repeat split.
    + right. apply String.eqb_neq in E. rewrite Hreg. now repeat split.
Qed.



(** ** Splitting an address *)

Lemma append_assoc (a b c : string) : (a ++ b) ++ c = a ++ b ++ c.
Proof. induction a as [|x a IH]; simpl; [reflexivity | now rewrite IH]. Qed.

Lemma append_empty_r (a : string) : a ++ EmptyString = a.
Proof. induction a as [|x a IH]; simpl; [reflexivity | now rewrite IH]. Qed.

Lemma toLowerCase_append (a b : string) :
  Js.toLowerCase (a ++ b) = Js.toLowerCase a ++ Js.toLowerCase b.
Proof. induction a as [|x a IH]; simpl; [reflexivity | now rewrite IH]. Qed.

Lemma split_at_separator (c : ascii) (a b : string) :
  Js.hasChar c a = false ->
  Js.split c (a ++ String c b) = a :: Js.split c b.
Proof.
  induction a as [|x a IH]; simpl.
  - intros _. now rewrite Ascii.eqb_refl.
  - intros H. apply orb_false_iff in H as [Hx Ha].
    now rewrite Hx, (IH Ha).
Qed.

Lemma hasChar_first (c : ascii) (s : string) :
  Js.hasChar c s = true ->
  exists a b, s = a ++ String c b /\ Js.hasChar c a = false.
Proof.
  induction s as [|x s IH]; simpl; [discriminate|].
  destruct (Ascii.eqb x c) eqn:E.
  - intros _. apply Ascii.eqb_eq in E as ->.
    now exists EmptyString, s.
  - intros H. destruct (IH H) as [a [b [-> Ha]]].
    exists (String x a), b. split; [reflexivity|]. simpl. now rewrite E.
Qed.

Lemma part_head (a b : string) :
  Js.hasChar "@" a = false -> part 0 (a ++ String "@" b) = Some a.
Proof. intros H. unfold part. now rewrite split_at_separator. Qed.

Lemma part_second (a b c : string) :
  Js.hasChar "@" a = false -> Js.hasChar "@" b = false ->
  part 1 (a ++ String "@" b) = Some b
  /\ part 1 (a ++ String "@" (b ++ String "@" c)) = Some b.
Proof.
  intros Ha Hb. unfold part.
  rewrite !split_at_separator, split_no_separator by assumption.
  split; reflexivity.
Qed.

Lemma part_domain_iff (e : string) :
  part 1 e = None <-> Js.hasChar "@" e = false.
Proof.
  split.
  - intros H. destruct (Js.hasChar "@" e) eqn:E; [|reflexivity].
    destruct (hasChar_first _ _ E) as [a [b [-> Ha]]].
    unfold part in H. rewrite (split_at_separator _ _ _ Ha) in H.
    pose proof (split_nonempty "@" b) as Hne.
    destruct (Js.split "@" b); [contradiction | discriminate].
  - intros H. unfold part. now rewrite (split_no_separator _ _ H).
Qed.

(** ** Free or paid *)

(** X1.  [checkFreeOrPaid] throws exactly on the strings without an at
    sign, and never otherwise; it does not depend on the case of its
    input. *)
Theorem checkFreeOrPaid_throws_iff :
  (forall e,
      (exists x, checkFreeOrPaid e = Js.Throw x)
      <-> Js.hasChar "@" e = false)
  /\ (forall e, checkFreeOrPaid (Js.toLowerCase e) = checkFreeOrPaid e).
Proof.
  split.
  - intros e. rewrite <- part_domain_iff. unfold checkFreeOrPaid.
    destruct (part 1 e) as [d|].
    + split; [|discriminate]. intros [x H].
      destruct (Js.arrayIncludes _ _); discriminate.
    + split; eauto.
  - intros e. unfold checkFreeOrPaid, part. rewrite split_toLowerCase.
    rewrite nth_error_map.
    destruct (nth_error (Js.split "@" e) 1) as [d|]; [|reflexivity].
    cbn [option_map]. now rewrite toLowerCase_idempotent.
Qed.

(** X2.  Only the text between the first and the second at sign is
    classified: the local part and whatever follows a second at sign are
    ignored, and the answer is [Free] exactly when that text, lower-cased,
    is one of [freeEmailProviders]. *)
Theorem checkFreeOrPaid_second_part (l d tail : string) :
  Js.hasChar "@" l = false ->
  Js.hasChar "@" d = false ->
  checkFreeOrPaid (l ++ "@" ++ d)
  = Js.Return (if existsb (String.eqb (Js.toLowerCase d)) freeEmailProviders
               then Free else Paid)
  /\ checkFreeOrPaid (l ++ "@" ++ d ++ "@" ++ tail)
     = checkFreeOrPaid (l ++ "@" ++ d).
Proof.
  intros Hl Hd. unfold checkFreeOrPaid.
  destruct (part_second l d tail Hl Hd) as [H1 H2].
  change (l ++ "@" ++ d) with (l ++ String "@" d).
  change (l ++ "@" ++ d ++ "@" ++ tail)
    with (l ++ String "@" (d ++ String "@" tail)).
  rewrite H1, H2. cbn [Js.arrayIncludes].
  split; [|reflexivity].
  destruct (existsb _ _); reflexivity.
Qed.

Lemma checkFreeOrPaid_second_part_witness :
  checkFreeOrPaid ("someone" ++ "@" ++ "Yahoo.com" ++ "@" ++ "corp.example")
  = Js.Return Free.
Proof.
  destruct (checkFreeOrPaid_second_part "someone" "Yahoo.com" "corp.example"
              eq_refl eq_refl) as [H1 H2].
  rewrite H2. exact H1.
Defined.

(** ** Blacklist *)

(** X3.  [isBlacklisted] holds exactly when the text between the first
    and the second at sign is, character for character, an entry of the
    blacklist.  The domain is not lower-cased first: against a blacklist
    of lower-case entries a domain written with a capital letter is never
    blacklisted. *)
Theorem isBlacklisted_exact_entry (bl : list string) (e : string) :
  (isBlacklisted bl e = true <-> exists d, part 1 e = Some d /\ In d bl)
  /\ (Forall (fun b => Js.toLowerCase b = b) bl ->
      forall d, part 1 e = Some d -> Js.toLowerCase d <> d ->
                isBlacklisted bl e = false).
Proof.
  assert (Hiff : isBlacklisted bl e = true
                 <-> exists d, part 1 e = Some d /\ In d bl).
  { unfold isBlacklisted, Js.arrayIncludes.
    destruct (part 1 e) as [d|].
    - rewrite existsb_exists. split.
      + intros [x [Hin Hx]]. apply String.eqb_eq in Hx as ->. eauto.
      + intros [d' [Hd Hin]]. injection Hd as ->. exists d'.
        split; [exact Hin | apply String.eqb_refl].
    - split; [discriminate | intros [d [Hd _]]; discriminate]. }
  split; [exact Hiff|].
  intros Hlow d Hd Hcap.
  apply not_true_is_false. intros E.
  apply Hiff in E as [d' [Hd' Hin]]. rewrite Hd in Hd'. injection Hd' as <-.
  rewrite Forall_forall in Hlow. now apply Hlow in Hin.
Qed.

Lemma isBlacklisted_exact_entry_witness :
  isBlacklisted (blacklist exampleEnv) "someone@Mailinator.com" = false
  /\ isBlacklisted (blacklist exampleEnv) "someone@mailinator.com" = true.
Proof.
  destruct (isBlacklisted_exact_entry (blacklist exampleEnv)
              "someone@Mailinator.com") as [_ Hcase].
  destruct (isBlacklisted_exact_entry (blacklist exampleEnv)
              "someone@mailinator.com") as [Hiff _].
  split.
  - apply (Hcase ltac:(repeat constructor) "Mailinator.com" eq_refl).
    discriminate.
  - apply Hiff. exists "mailinator.com". split; [reflexivity | now left].
Defined.

Lemma checkFreeOrPaid_throws_iff_witness :
  (exists x, checkFreeOrPaid "gmail.com" = Js.Throw x)
  /\ checkFreeOrPaid "A@GMAIL.COM" = checkFreeOrPaid "a@gmail.com".
Proof.
  destruct checkFreeOrPaid_throws_iff as [Hthrow Hcase].
  split.
  - apply Hthrow. reflexivity.
  - exact (eq_sym (Hcase "A@GMAIL.COM")).
Defined.

(** ** Role mailboxes, continued *)

Lemma roleKeywords_plain (k : string) :
  In k roleKeywords ->
  Js.toLowerCase k = k /\ Js.hasChar "@" k = false.
Proof.
  assert (H : forallb (fun k => String.eqb (Js.toLowerCase k) k
                                && negb (Js.hasChar "@" k))
                      roleKeywords = true) by (vm_compute; reflexivity).
  rewrite forallb_forall in H. intros Hin. apply H in Hin.
  apply andb_true_iff in Hin as [H1 H2].
  apply String.eqb_eq in H1. apply negb_true_iff in H2. now split.
Qed.

Lemma isSeparator_cases (sep : ascii) :
  isSeparator sep = true -> sep = "-"%char \/ sep = "_"%char.
Proof.
  unfold isSeparator. intros H. apply orb_true_iff in H as [H | H];
    apply Ascii.eqb_eq in H; auto.
Qed.

Lemma isRoleEmail_of_local (e l : string) :
  localPartOf e = l -> isRoleEmail e = existsb (roleMatch (Js.toLowerCase l))
                                               roleKeywords.
Proof. intros <-. reflexivity. Qed.

Lemma isRoleEmail_local (l d : string) :
  Js.hasChar "@" l = false ->
  isRoleEmail (l ++ "@" ++ d)
  = existsb (roleMatch (Js.toLowerCase l)) roleKeywords.
Proof.
  intros Hl. apply isRoleEmail_of_local.
  unfold localPartOf. change (l ++ "@" ++ d) with (l ++ String "@" d).
  now rewrite part_head.
Qed.

(** X4.  [isRoleEmail] reads the local part only: the domain of the
    address plays no role. *)
Theorem isRoleEmail_ignores_domain (l d : string) :
  Js.hasChar "@" l = false ->
  isRoleEmail (l ++ "@" ++ d) = isRoleEmail l.
Proof.
  intros Hl. rewrite (isRoleEmail_local l d Hl).
  symmetry. apply isRoleEmail_of_local. now apply localPartOf_no_at.
Qed.

Lemma isRoleEmail_ignores_domain_witness :
  isRoleEmail ("billing" ++ "@" ++ "example.com") = isRoleEmail "billing".
Proof. exact (isRoleEmail_ignores_domain "billing" "example.com" eq_refl). Defined.

(** X5.  The adjacency rules are one-sided: a keyword with a hyphen or an
    underscore on one side makes a role mailbox whatever stands on its
    other side, letters included. *)
Theorem isRoleEmail_one_sided_separator (k a b d : string) (sep : ascii) :
  In k roleKeywords ->
  isSeparator sep = true ->
  Js.hasChar "@" a = false ->
  Js.hasChar "@" b = false ->
  isRoleEmail ((a ++ String sep k ++ b) ++ "@" ++ d) = true
  /\ isRoleEmail ((a ++ k ++ String sep b) ++ "@" ++ d) = true.
Proof.
  intros Hk Hsep Ha Hb.
  destruct (roleKeywords_plain k Hk) as [Hlow Hat].
  assert (Hsep_at : Ascii.eqb sep "@" = false).
  { destruct (isSeparator_cases sep Hsep) as [-> | ->]; reflexivity. }
  assert (Hsep_low : Js.toLowerChar sep = sep).
  { destruct (isSeparator_cases sep Hsep) as [-> | ->]; reflexivity. }
  assert (Hmatch : forall l p,
             (p = String sep k \/ p = k ++ String sep EmptyString) ->
             Js.includes l p = true ->
             existsb (roleMatch l) roleKeywords = true).
  { intros l p Hp Hinc. apply existsb_exists. exists k.
    split; [exact Hk|]. unfold roleMatch.
    destruct (isSeparator_cases sep Hsep) as [-> | ->];
      destruct Hp as [-> | ->]; cbn [append] in *; rewrite Hinc;
      now rewrite ?orb_true_r. }
  split; (rewrite isRoleEmail_local;
          [|rewrite !hasChar_append; cbn [Js.hasChar];
            rewrite ?hasChar_append; cbn [Js.hasChar];
            now rewrite Ha, Hb, Hat, Hsep_at]).
  - apply (Hmatch _ (String sep k)); [now left|].
    rewrite !toLowerCase_append. cbn [Js.toLowerCase].
    rewrite Hsep_low, Hlow. apply includes_spec.
    now exists (Js.toLowerCase a), (Js.toLowerCase b).
  - apply (Hmatch _ (k ++ String sep EmptyString)); [now right|].
    rewrite !toLowerCase_append. cbn [Js.toLowerCase].
    rewrite Hsep_low, Hlow. apply includes_spec.
    exists (Js.toLowerCase a), (Js.toLowerCase b).
    now rewrite append_assoc.
Qed.

Lemma isRoleEmail_one_sided_separator_witness :
  isRoleEmail (("anti" ++ String "-" "it" ++ "ch") ++ "@" ++ "example.com")
  = true.
Proof.
  refine (proj1 (isRoleEmail_one_sided_separator "it" "anti" "ch"
                   "example.com" "-" _ eq_refl eq_refl eq_refl)).
  vm_compute. tauto.
Defined.

(** ** Provider detection *)

Lemma includes_suffix_pattern (s p q : string) :
  Js.includes s (p ++ q) = true -> Js.includes s q = true.
Proof.
  rewrite !includes_spec. intros [a [b ->]].
  exists (a ++ p), b. now rewrite !append_assoc.
Qed.

Lemma existsb_map_exchange (f : string -> bool) (records : list MxRecord) :
  existsb f (map exchange records) = existsb (fun r => f (exchange r)) records.
Proof.
  induction records as [|r rs IH]; simpl; [reflexivity | now rewrite IH].
Qed.

Lemma mentions_perm (sub : string) (l l' : list MxRecord) :
  Permutation l l' -> mentions sub l = mentions sub l'.
Proof.
  unfold mentions. induction 1; simpl.
  - reflexivity.
  - now rewrite IHPermutation.
  - now rewrite !orb_assoc, (orb_comm (Js.includes (exchange y) sub)).
  - congruence.
Qed.

Lemma extractMxRecords_provider (records : list MxRecord) :
  snd (extractMxRecords records)
  = (if mentions "google.com" records then Google
     else if mentions "outlook.com" records then Microsoft
     else if mentions "yahoodns.net" records then Yahoo
     else if mentions "cloudflare.net" records then CloudflareEmailRouting
     else Unknown).
Proof.
  unfold extractMxRecords, mentions. cbn [snd].
  rewrite !existsb_map_exchange.
  replace (existsb (fun r => Js.includes (exchange r) "outlook.com"
                             || Js.includes (exchange r)
                                            "protection.outlook.com") records)
    with (existsb (fun r => Js.includes (exchange r) "outlook.com") records);
    [reflexivity|].
  induction records as [|r rs IH]; simpl; [reflexivity|]. rewrite IH.
  destruct (Js.includes (exchange r) "outlook.com") eqn:E; [reflexivity|].
  destruct (Js.includes (exchange r) "protection.outlook.com") eqn:E';
    [|reflexivity].
  apply (includes_suffix_pattern _ "protection." "outlook.com") in E'.
  congruence.
Qed.

(** X6.  [extractMxRecords] lists the exchanges in the order of its
    input and names the provider by the first of four tests that some
    exchange passes: [google.com], then [outlook.com], then
    [yahoodns.net], then [cloudflare.net], and [Unknown] when none does.
    The further test for [protection.outlook.com] never decides: such an
    exchange already contains [outlook.com]. *)
Theorem extractMxRecords_decision (records : list MxRecord) :
  fst (extractMxRecords records) = map exchange records
  /\ snd (extractMxRecords records)
     = (if mentions "google.com" records then Google
        else if mentions "outlook.com" records then Microsoft
        else if mentions "yahoodns.net" records then Yahoo
        else if mentions "cloudflare.net" records
             then CloudflareEmailRouting
        else Unknown)
  /\ (forall e, Js.includes e "protection.outlook.com" = true ->
                Js.includes e "outlook.com" = true).
Proof.
  split; [reflexivity|]. split; [apply extractMxRecords_provider|].
  intros e. apply (includes_suffix_pattern e "protection." "outlook.com").
Qed.

Lemma extractMxRecords_decision_witness :
  snd (extractMxRecords
         [ {| exchange := "mx.yahoodns.net"; priority := 1 |};
           {| exchange := "x.mail.protection.outlook.com"; priority := 5 |} ])
  = Microsoft.
Proof.
  pose proof (extractMxRecords_decision
                [ {| exchange := "mx.yahoodns.net"; priority := 1 |};
                  {| exchange := "x.mail.protection.outlook.com";
                     priority := 5 |} ]) as [_ [H _]].
  exact H.
Defined.

(** X7.  The provider does not depend on the order of the MX records:
    any rearrangement of the records, the one sorted by priority
    included, names the same provider. *)
Theorem extractMxRecords_order_independent
        (records records' : list MxRecord) (dns : DnsVerificationResult) :
  (Permutation records records' ->
   snd (extractMxRecords records) = snd (extractMxRecords records'))
  /\ snd (extractMxRecords (sortedMxRecords dns))
     = snd (extractMxRecords (mxRecords dns)).
Proof.
  assert (H : forall l l', Permutation l l' ->
                           snd (extractMxRecords l)
                           = snd (extractMxRecords l')).
  { intros l l' Hp. rewrite !extractMxRecords_provider.
    now rewrite !(mentions_perm _ l l' Hp). }
  split; [apply H|]. symmetry. apply H. apply arraySort_perm.
Qed.

Lemma extractMxRecords_order_independent_witness :
  snd (extractMxRecords (rev exampleMx)) = snd (extractMxRecords exampleMx).
Proof.
  symmetry.
  apply (proj1 (extractMxRecords_order_independent exampleMx (rev exampleMx)
                  exampleDns)).
  apply Permutation_rev.
Defined.

(** ** DNS resolver, continued *)

Lemma findTxt_starts (tag : string) (txt : list (list string)) (s : string) :
  findTxt tag txt = Some s -> Js.startsWith s tag = true.
Proof. unfold findTxt. intros H. now apply find_some in H. Qed.

Lemma truthy_tagged (tag : string) (txt : list (list string)) :
  tag <> EmptyString ->
  Js.truthy (findTxt tag txt) = isSome (findTxt tag txt).
Proof.
  intros Htag. destruct (findTxt tag txt) as [s|] eqn:E; [|reflexivity].
  apply findTxt_starts in E. destruct s; [|reflexivity].
  destruct tag; [contradiction | discriminate].
Qed.

Lemma dnsResult_shape (env : Env) (address : string) :
  let r := dnsResult env address in
  hasMxRecord r = negb (length (mxRecords r) =? 0)%nat
  /\ hasSPF r = isSome (spfRecord r)
  /\ hasDMARC r = isSome (dmarcRecord r)
  /\ (forall s, spfRecord r = Some s -> Js.startsWith s "v=spf1" = true)
  /\ (forall s, dmarcRecord r = Some s -> Js.startsWith s "v=DMARC1" = true)
  /\ errors r = Some (dnsFailures env address).
Proof.
  assert (Hspf : "v=spf1" <> EmptyString) by discriminate.
  assert (Hdm : "v=DMARC1" <> EmptyString) by discriminate.
  unfold dnsResult, dnsFailures.
  destruct (lookupMx env (part 1 address)) as [mx|e1];
    destruct (lookupTxt env (part 1 address)) as [txt|e2];
    destruct (lookupTxt env (Some ("_dmarc." ++ Js.show (part 1 address))))
      as [dm|e3];
    cbn -[findTxt Js.startsWith];
    rewrite ?(truthy_tagged _ txt Hspf), ?(truthy_tagged _ dm Hdm);
    repeat split;
    try (destruct mx; reflexivity);
    try discriminate;
    try (destruct (findTxt "v=spf1" txt) eqn:E; cbn;
         [reflexivity | reflexivity]);
    try (destruct (findTxt "v=DMARC1" dm) eqn:E; cbn;
         [reflexivity | reflexivity]);
    intros s Hs;
    try (destruct (findTxt "v=spf1" txt) eqn:E; cbn in Hs;
         [injection Hs as <-; now apply findTxt_starts in E | discriminate]);
    try (destruct (findTxt "v=DMARC1" dm) eqn:E; cbn in Hs;
         [injection Hs as <-; now apply findTxt_starts in E | discriminate]).
Qed.

(** X8.  Whatever the lookups answer, the result of [verifyEmailDns]
    is coherent: [hasMxRecord] tells whether [mxRecords] is non-empty,
    [hasSPF] and [hasDMARC] tell whether [spfRecord] and [dmarcRecord]
    are set, and a record that is set starts with its tag. *)
Theorem verifyEmailDns_coherent
        (env : Env) (address : string) (w w' : World)
        (r : DnsVerificationResult) :
  verifyEmailDns env address w = (Js.Return r, w') ->
  (hasMxRecord r = true <-> mxRecords r <> [])
  /\ (hasSPF r = true <-> exists s, spfRecord r = Some s)
  /\ (hasDMARC r = true <-> exists s, dmarcRecord r = Some s)
  /\ (forall s, spfRecord r = Some s -> Js.startsWith s "v=spf1" = true)
  /\ (forall s, dmarcRecord r = Some s -> Js.startsWith s "v=DMARC1" = true).
Proof.
  rewrite verifyEmailDns_run. intros H. injection H as <- _.
  destruct (dnsResult_shape env address) as [Hmx [Hs [Hd [Hst [Hdt _]]]]].
  cbv zeta in *. rewrite Hmx, Hs, Hd.
  split; [|split; [|split; [|split; assumption]]].
  - destruct (mxRecords (dnsResult env address)); cbn;
      split; congruence.
  - destruct (spfRecord (dnsResult env address)); cbn; split; eauto;
      try discriminate. intros [s Hs']. discriminate.
  - destruct (dmarcRecord (dnsResult env address)); cbn; split; eauto;
      try discriminate. intros [s Hs']. discriminate.
Qed.

Lemma verifyEmailDns_coherent_witness :
  exists r w',
    verifyEmailDns exampleEnv "user@example.com" emptyWorld
    = (Js.Return r, w')
    /\ dmarcRecord r = Some "v=DMARC1; p=none" /\ hasDMARC r = true.
Proof.
  eexists. eexists. split; [apply verifyEmailDns_run|].
  split; [reflexivity|].
  apply (verifyEmailDns_coherent exampleEnv "user@example.com" emptyWorld _ _
           (verifyEmailDns_run _ _ _)).
  eexists. reflexivity.
Defined.

(** X9.  [errors] holds one entry for each lookup that failed, and
    nothing else, in the order MX, SPF, DMARC; each entry names its
    lookup and carries the message of the failure. *)
Theorem verifyEmailDns_errors
        (env : Env) (address : string) (w w' : World)
        (r : DnsVerificationResult) :
  verifyEmailDns env address w = (Js.Return r, w') ->
  errors r = Some (dnsFailures env address)
  /\ length (dnsFailures env address) <= 3.
Proof.
  rewrite verifyEmailDns_run. intros H. injection H as <- _.
  split; [apply dnsResult_shape|].
  unfold dnsFailures.
  destruct (lookupMx _ _), (lookupTxt env (part 1 address)),
    (lookupTxt env (Some _)); cbn; lia.
Qed.

Lemma verifyEmailDns_errors_witness :
  exists r w',
    verifyEmailDns exampleEnv "user@nowhere.invalid" emptyWorld
    = (Js.Return r, w')
    /\ errors r
       = Some [ "MX lookup failed: queryMx ENOTFOUND nowhere.invalid";
                "SPF lookup failed: queryTxt ENODATA nowhere.invalid";
                "DMARC lookup failed: queryTxt ENODATA _dmarc.nowhere.invalid"
              ].
Proof.
  eexists. eexists. split; [apply verifyEmailDns_run|].
  exact (proj1 (verifyEmailDns_errors exampleEnv "user@nowhere.invalid"
                  emptyWorld _ _ (verifyEmailDns_run _ _ _))).
Defined.

(** X10.  For an address without an at sign the domain is [undefined]:
    the MX and SPF lookups are refused as type errors before any query,
    the DMARC lookup asks for [_dmarc.undefined], and the call still
    returns, with no MX record and the two refusals first in [errors]. *)
Theorem verifyEmailDns_without_domain
        (env : Env) (address : string) (w : World) :
  Js.hasChar "@" address = false ->
  exists r rest,
    verifyEmailDns env address w
    = (Js.Return r,
       emit [ResolveMx None; ResolveTxt None;
             ResolveTxt (Some "_dmarc.undefined")] w)
    /\ hasMxRecord r = false /\ mxRecords r = []
    /\ hasSPF r = false
    /\ errors r
       = Some (("MX lookup failed: " ++ Js.message invalidName)
               :: ("SPF lookup failed: " ++ Js.message invalidName)
               :: rest)
    /\ rest = failure "DMARC" (resolveTxt env "_dmarc.undefined").
Proof.
  intros H. apply part_domain_iff in H.
  exists (dnsResult env address),
    (failure "DMARC" (resolveTxt env "_dmarc.undefined")).
  rewrite verifyEmailDns_run. unfold dnsLookups, dnsResult. rewrite H.
  cbn [Js.show lookupMx lookupTxt append].
  destruct (resolveTxt env "_dmarc.undefined"); repeat split.
Qed.

Lemma verifyEmailDns_without_domain_witness :
  exists r rest,
    verifyEmailDns exampleEnv "postmaster" emptyWorld
    = (Js.Return r,
       emit [ResolveMx None; ResolveTxt None;
             ResolveTxt (Some "_dmarc.undefined")] emptyWorld)
    /\ hasMxRecord r = false
    /\ errors r
       = Some (("MX lookup failed: " ++ Js.message invalidName)
               :: ("SPF lookup failed: " ++ Js.message invalidName)
               :: rest).
Proof.
  destruct (verifyEmailDns_without_domain exampleEnv "postmaster" emptyWorld
              eq_refl) as [r [rest [Hrun [Hmx [_ [_ [Herr _]]]]]]].
  exists r, rest. now repeat split.
Defined.

(** ** SMTP probe, continued *)

Lemma socketLoop_dialogue (email : string) (timeout : Z)
      (events : list (Z * SocketEvent)) :
  forall s : Session,
  exists n,
    let r := fst (socketLoop email (part 1 email) timeout events s) in
    let tr := snd (socketLoop email (part 1 email) timeout events s) in
    let sent := firstn n (skipn (step s) (dialogue email)) in
    ((success r = true /\ tr = (sent ++ closing r)%list)
     \/ (r = timeoutResult /\ tr = (sent ++ expiry r)%list))
    /\ (exists_ r = true ->
        r = accepted /\ sent = skipn (step s) (dialogue email)).
Proof.
  induction events as [|[t ev] rest IH]; intros s; cbn [socketLoop].
  - exists 0. cbn. split; [right; split; reflexivity | discriminate].
  - destruct (timeout <=? t)%Z.
    { exists 0. cbn. split; [right; split; reflexivity | discriminate]. }
    assert (Hstay : forall s', step s' = step s ->
               exists n,
                 let p := (let '(r, tr) :=
                             socketLoop email (part 1 email) timeout rest s'
                           in (r, ([] ++ tr)%list)) in
                 let sent := firstn n (skipn (step s) (dialogue email)) in
                 ((success (fst p) = true
                   /\ snd p = (sent ++ closing (fst p))%list)
                  \/ (fst p = timeoutResult
                      /\ snd p = (sent ++ expiry (fst p))%list))
                 /\ (exists_ (fst p) = true ->
                     fst p = accepted
                     /\ sent = skipn (step s) (dialogue email))).
    { intros s' Hs'. destruct (IH s') as [n Hn]. rewrite Hs' in Hn.
      exists n. destruct (socketLoop _ _ _ rest s'). exact Hn. }
    assert (Hclose : forall ex msg,
               (ex = true -> step s = 4 /\ msg = "Email exists") ->
               exists n,
                 let r := {| success := true; exists_ := ex;
                             message := msg |} in
                 let sent := firstn n (skipn (step s) (dialogue email)) in
                 ((success r = true
                   /\ closing r = (sent ++ closing r)%list)
                  \/ (r = timeoutResult
                      /\ closing r = (sent ++ expiry r)%list))
                 /\ (exists_ r = true ->
                     r = accepted
                     /\ sent = skipn (step s) (dialogue email))).
    { intros ex msg Hex. exists 0. cbn [firstn app].
      split; [left; split; reflexivity|].
      cbn. intros ->. destruct (Hex eq_refl) as [-> ->]. now split. }
    assert (Hnext : forall k cmd,
               step s = k ->
               skipn k (dialogue email)
               = SocketWrite cmd :: skipn (S k) (dialogue email) ->
               exists n,
                 let p := (let '(r, tr) :=
                             socketLoop email (part 1 email) timeout rest
                               {| buffer := EmptyString; step := S k |}
                           in (r, ([SocketWrite cmd] ++ tr)%list)) in
                 let sent := firstn n (skipn (step s) (dialogue email)) in
                 ((success (fst p) = true
                   /\ snd p = (sent ++ closing (fst p))%list)
                  \/ (fst p = timeoutResult
                      /\ snd p = (sent ++ expiry (fst p))%list))
                 /\ (exists_ (fst p) = true ->
                     fst p = accepted
                     /\ sent = skipn (step s) (dialogue email))).
    { intros k cmd Hk Hskip.
      destruct (IH {| buffer := EmptyString; step := S k |}) as [n Hn].
      cbn [step] in Hn. exists (S n). rewrite Hk, Hskip.
      destruct (socketLoop _ _ _ rest _) as [r tr].
      cbn [fst snd firstn] in *. destruct Hn as [Hcase Hex].
      split.
      - destruct Hcase as [[Hs ->] | [Hr ->]]; [left | right];
          split; trivial.
      - intros H. destruct (Hex H) as [-> ->]. now split. }
    destruct ev as [| |data|msg]; cbn [onEvent].
    + apply Hstay. reflexivity.
    + apply Hstay. reflexivity.
    + unfold onData.
      destruct (Js.includes (buffer s ++ data) Js.CRLF);
        [|apply Hstay; reflexivity].
      revert Hstay Hclose Hnext.
      destruct (step s) as [|[|[|[|[|k]]]]]; intros Hstay Hclose Hnext;
        repeat match goal with
               | |- context [if ?b then _ else _] => destruct b
               end;
        first [ apply Hclose; first [discriminate | now split]
              | eapply Hnext; reflexivity
              | apply Hstay; reflexivity ].
    + apply Hclose. discriminate.
Qed.

(** X11.  Whatever the server sends, with MX records present and a
    timeout that is not negative, the writes of one probe before its
    ending are the first commands of the fixed dialogue EHLO, STARTTLS,
    MAIL FROM, RCPT TO, in that order and each at most once; then comes
    the ending of [closeConnection] or that of the timer, and nothing
    else. *)
Theorem verifyEmail_commands_in_order
        (events : list (Z * SocketEvent)) (email : string)
        (dns : DnsVerificationResult) (timeout : Z) :
  hasMxRecord dns = true ->
  mxRecords dns <> [] ->
  (0 <= timeout)%Z ->
  let r := fst (verifyEmailOn events email dns timeout) in
  let tr := snd (verifyEmailOn events email dns timeout) in
  exists n,
    tr = (relay timeout :: SetTimeout timeout :: firstn n (dialogue email)
          ++ closing r)%list
    \/ tr = (relay timeout :: SetTimeout timeout :: firstn n (dialogue email)
             ++ expiry r)%list.
Proof.
  intros Hmx Hne _. unfold verifyEmailOn. rewrite (mx_present dns Hmx Hne).
  destruct (socketLoop_dialogue email (Js.timerDelay timeout) events
              {| buffer := EmptyString; step := 0 |}) as [n [Hcase _]].
  destruct (socketLoop _ _ _ _ _) as [r tr]. cbn [fst snd step skipn] in *.
  exists n. destruct Hcase as [[_ ->] | [_ ->]]; [left | right]; reflexivity.
Qed.

Lemma verifyEmail_commands_in_order_witness :
  let r := fst (verifyEmailOn (submissionEvents exampleEnv "user@example.com")
                              "user@example.com" exampleDns defaultTimeout) in
  let tr := snd (verifyEmailOn (submissionEvents exampleEnv "user@example.com")
                               "user@example.com" exampleDns defaultTimeout) in
  exists n,
    tr = (relay defaultTimeout :: SetTimeout defaultTimeout
          :: firstn n (dialogue "user@example.com") ++ closing r)%list
    \/ tr = (relay defaultTimeout :: SetTimeout defaultTimeout
             :: firstn n (dialogue "user@example.com") ++ expiry r)%list.
Proof.
  exact (verifyEmail_commands_in_order
           (submissionEvents exampleEnv "user@example.com")
           "user@example.com" exampleDns defaultTimeout eq_refl
           ltac:(discriminate) ltac:(discriminate)).
Defined.

(** X12.  The probe answers [exists = true] only at the end of the whole
    dialogue: all four commands were written, RCPT TO last, and the
    result is the one of the accepting branch. *)
Theorem verifyEmail_exists_only_after_rcpt
        (events : list (Z * SocketEvent)) (email : string)
        (dns : DnsVerificationResult) (timeout : Z) :
  exists_ (fst (verifyEmailOn events email dns timeout)) = true ->
  verifyEmailOn events email dns timeout
  = (accepted,
     (relay timeout :: SetTimeout timeout :: dialogue email
      ++ closing accepted)%list).
Proof.
  unfold verifyEmailOn.
  destruct (negb (hasMxRecord dns) || (length (mxRecords dns) =? 0)%nat);
    [discriminate|].
  destruct (socketLoop_dialogue email (Js.timerDelay timeout) events
              {| buffer := EmptyString; step := 0 |}) as [n [Hcase Hex]].
  destruct (socketLoop _ _ _ _ _) as [r tr]. cbn [fst snd step skipn] in *.
  intros H. destruct (Hex H) as [-> Hsent]. rewrite Hsent in Hcase.
  destruct Hcase as [[_ ->] | [Habs _]]; [reflexivity | discriminate].
Qed.

Lemma verifyEmail_exists_only_after_rcpt_witness :
  In (SocketWrite ("RCPT TO:<user@example.com>" ++ Js.CRLF))
     (probeTrace exampleEnv "user@example.com").
Proof.
  unfold probeTrace.
  rewrite (verifyEmail_exists_only_after_rcpt
             (submissionEvents exampleEnv "user@example.com")
             "user@example.com" (dnsResult exampleEnv "user@example.com")
             defaultTimeout eq_refl).
  cbn. tauto.
Defined.

Lemma includes_append_false (a b : string) :
  Js.includes (a ++ b) Js.CRLF = false -> Js.includes a Js.CRLF = false.
Proof.
  intros H. apply not_true_is_false. intros Ha.
  apply includes_spec in Ha as [x [y ->]].
  assert (Js.includes ((x ++ Js.CRLF ++ y) ++ b) Js.CRLF = true).
  { apply includes_spec. exists x, (y ++ b). now rewrite !append_assoc. }
  congruence.
Qed.

(** X13.  The data handler reassembles a response that arrives in
    pieces: a chunk that leaves the buffer without a CR LF only grows the
    buffer, writes nothing and keeps the step, and the chunk after it is
    handled exactly as the two chunks in one. *)
Theorem onData_reassembles
        (email : string) (domain : option string) (timeout : Z)
        (s : Session) (t1 t2 : Z) (d1 d2 : string)
        (rest : list (Z * SocketEvent)) :
  Js.includes (buffer s ++ d1) Js.CRLF = false ->
  (t1 < timeout)%Z ->
  onData email domain s d1
  = Continue {| buffer := buffer s ++ d1; step := step s |} []
  /\ onData email domain {| buffer := buffer s ++ d1; step := step s |} d2
     = onData email domain s (d1 ++ d2)
  /\ socketLoop email domain timeout
                ((t1, EvData d1) :: (t2, EvData d2) :: rest) s
     = socketLoop email domain timeout ((t2, EvData (d1 ++ d2)) :: rest) s.
Proof.
  intros Hpartial Ht1.
  assert (H1 : onData email domain s d1
               = Continue {| buffer := buffer s ++ d1; step := step s |} []).
  { unfold onData. now rewrite Hpartial. }
  assert (H2 : onData email domain
                 {| buffer := buffer s ++ d1; step := step s |} d2
               = onData email domain s (d1 ++ d2)).
  { unfold onData. cbn [buffer step]. now rewrite append_assoc. }
  split; [exact H1|]. split; [exact H2|].
  cbn [socketLoop onEvent]. apply Z.leb_gt in Ht1. rewrite Ht1, H1.
  destruct (timeout <=? t2)%Z; [reflexivity|]. rewrite H2.
  destruct (onData email domain s (d1 ++ d2)) as [s' eff | r eff];
    [|reflexivity].
  destruct (socketLoop email domain timeout rest s'). reflexivity.
Qed.

Lemma onData_reassembles_witness :
  socketLoop "user@example.com" (Some "example.com") defaultTimeout
             [ (10%Z, EvData "220 o"); (20%Z, EvData ("k" ++ Js.CRLF));
               line 30 "500 no" ]
             {| buffer := EmptyString; step := 0 |}
  = socketLoop "user@example.com" (Some "example.com") defaultTimeout
               [ (20%Z, EvData ("220 o" ++ "k" ++ Js.CRLF));
                 line 30 "500 no" ]
               {| buffer := EmptyString; step := 0 |}.
Proof.
  exact (proj2 (proj2 (onData_reassembles "user@example.com"
                         (Some "example.com") defaultTimeout
                         {| buffer := EmptyString; step := 0 |} 10 20
                         "220 o" ("k" ++ Js.CRLF) [line 30 "500 no"]
                         eq_refl eq_refl))).
Defined.

Lemma socketLoop_idle (email : string) (domain : option string)
      (timeout : Z) (quiet rest : list (Z * SocketEvent)) (s : Session) :
  idle timeout quiet ->
  socketLoop email domain timeout (quiet ++ rest) s
  = socketLoop email domain timeout rest s.
Proof.
  unfold idle. induction 1 as [|[t ev] q [Ht Hev] _ IH]; cbn [app socketLoop].
  - reflexivity.
  - cbn [fst snd] in *. apply Z.leb_gt in Ht. rewrite Ht.
    destruct Hev as [-> | ->]; cbn [onEvent]; rewrite IH;
      now destruct (socketLoop email domain timeout rest s).
Qed.

(** X14.  A socket error is not reported as a failure of the call: with
    a timeout that the timer runs with as it is (from 1 to
    [Js.TIMEOUT_MAX] milliseconds), when the first thing the socket
    emits besides [connect] and [timeout] notices is an error, in time,
    the probe goes through
    [closeConnection] and resolves with [success = true],
    [exists = false] and the message of the error. *)
Theorem verifyEmail_socket_error
        (quiet rest : list (Z * SocketEvent)) (t : Z) (msg email : string)
        (dns : DnsVerificationResult) (timeout : Z) :
  hasMxRecord dns = true ->
  mxRecords dns <> [] ->
  (1 <= timeout <= Js.TIMEOUT_MAX)%Z ->
  idle timeout quiet ->
  (t < timeout)%Z ->
  let r := {| success := true; exists_ := false;
              message := "Connection error: " ++ msg |} in
  verifyEmailOn (quiet ++ (t, EvError msg) :: rest) email dns timeout
  = (r, (relay timeout :: SetTimeout timeout :: closing r)%list).
Proof.
  intros Hmx Hne Hrange Hq Ht r. unfold verifyEmailOn.
  rewrite (mx_present dns Hmx Hne), (timerDelay_in_range timeout Hrange),
    (socketLoop_idle _ _ _ _ _ _ Hq).
  cbn [socketLoop]. apply Z.leb_gt in Ht. now rewrite Ht.
Qed.

Lemma verifyEmail_socket_error_witness :
  success (fst (verifyEmailOn
                  ([(1%Z, EvConnect)] ++ [(35%Z, EvError "read ECONNRESET")])
                  "user@example.com" exampleDns defaultTimeout)) = true.
Proof.
  assert (Hq : idle defaultTimeout [(1%Z, EvConnect)]).
  { repeat constructor. }
  assert (Hrange : (1 <= defaultTimeout <= Js.TIMEOUT_MAX)%Z).
  { unfold defaultTimeout, Js.TIMEOUT_MAX. lia. }
  now rewrite (verifyEmail_socket_error [(1%Z, EvConnect)] [] 35
                 "read ECONNRESET" "user@example.com" exampleDns
                 defaultTimeout eq_refl ltac:(discriminate) Hrange Hq
                 eq_refl).
Defined.

(** ** SMTP handshake with the exchanges *)

Lemma framed_ret {A : Type} (a : A) : framed (ret a).
Proof. intros w. unfold ret. cbn. now rewrite emit_nil. Qed.

Lemma framed_throw {A : Type} (e : Js.Exn) : framed (@throw A e).
Proof. intros w. unfold throw. cbn. now rewrite emit_nil. Qed.

Lemma framed_effect {A : Type} (es : list Effect) (m : M A) :
  framed m -> framed (effect es ;;; m).
Proof.
  intros Hm w. unfold bind, effect.
  rewrite (Hm (emit es w)), (Hm (emit es emptyWorld)). cbn [fst snd].
  rewrite emit_emit. cbn [emit trace app]. reflexivity.
Qed.

Lemma framed_handshakeLoop (user domain : string)
      (events : list SocketEvent) :
  forall handshakeState : nat,
    framed (handshakeLoop user domain events handshakeState).
Proof.
  induction events as [|ev rest IH]; intros st; cbn [handshakeLoop].
  - apply framed_ret.
  - destruct ev as [| |data|msg].
    + apply IH.
    + apply framed_effect, framed_throw.
    + destruct st as [|[|[|[|st]]]];
        repeat match goal with
               | |- context [if ?b then _ else _] => destruct b
               end;
        first [apply IH | apply framed_effect; first [apply IH | apply framed_ret]].
    + apply framed_effect, framed_throw.
Qed.

Lemma framed_smtpHandshake (env : Env) (host user domain : string) :
  framed (smtpHandshake env host user domain).
Proof. apply framed_effect, framed_handshakeLoop. Qed.

Lemma smtpHandshake_connects (env : Env) (host user domain : string) :
  netConnects (trace (snd (smtpHandshake env host user domain emptyWorld)))
  = [NetConnect 25 host].
Proof.
  destruct (smtpHandshake_trace env host user domain emptyWorld)
    as [tr [Htr Hnc]].
  rewrite Htr. cbn [emit trace emptyWorld app]. unfold netConnects in *.
  cbn. now rewrite Hnc.
Qed.

Lemma tryExchanges_decisive (env : Env) (user domain : string)
      (sorted : list MxRecord) :
  forall w : World,
    let outcomes :=
      map (fun mx => handshakeOutcome env (exchange mx) user domain) sorted in
    exists tr,
      tryExchanges env user domain sorted w
      = (Js.Return (firstDecisive outcomes), emit tr w)
      /\ netConnects tr
         = firstn (attempts outcomes)
                  (map (fun mx => NetConnect 25 (exchange mx)) sorted).
Proof.
  induction sorted as [|mx rest IH]; intros w; cbn [tryExchanges map].
  - exists []. now rewrite emit_nil.
  - unfold bind, tryCatch.
    rewrite (framed_smtpHandshake env (exchange mx) user domain w).
    pose proof (smtpHandshake_connects env (exchange mx) user domain) as Hc.
    unfold handshakeOutcome at 1 3.
    set (tr0 := trace (snd (smtpHandshake env (exchange mx) user domain
                                          emptyWorld))) in *.
    destruct (fst (smtpHandshake env (exchange mx) user domain emptyWorld))
      as [[[|]|]|e]; cbn [firstDecisive attempts firstn].
    + exists tr0. split; [reflexivity|]. now rewrite Hc.
    + destruct (IH (emit tr0 w)) as [tr [Hrun Hnc]].
      exists (tr0 ++ tr)%list. cbn [ret]. rewrite Hrun, emit_emit.
      split; [reflexivity|]. now rewrite netConnects_app, Hc, Hnc.
    + exists tr0. split; [reflexivity|]. now rewrite Hc.
    + destruct (IH (emit tr0 w)) as [tr [Hrun Hnc]].
      exists (tr0 ++ tr)%list. cbn [ret]. rewrite Hrun, emit_emit.
      split; [reflexivity|]. now rewrite netConnects_app, Hc, Hnc.
Qed.

Lemma truthy_nonempty (s : string) :
  s <> EmptyString -> Js.truthy (Some s) = true.
Proof. intros H. destruct s; [contradiction | reflexivity]. Qed.

(** X15.  [verifyEmailWithDnsResult] never raises.  For an address with
    a user and a domain and a result with MX records, it contacts the
    exchanges on port 25 in ascending priority and stops at the first
    handshake that accepts the recipient (answer [true]) or stays
    pending; a handshake that is rejected or that refuses the recipient
    passes to the next exchange, and the answer is [false] when all have
    been passed. *)
Theorem verifyEmailWithDnsResult_fallback
        (env : Env) (email user domain : string)
        (dns : DnsVerificationResult) (w : World) :
  part 0 email = Some user -> user <> EmptyString ->
  part 1 email = Some domain -> domain <> EmptyString ->
  hasMxRecord dns = true -> mxRecords dns <> [] ->
  let outcomes :=
    map (fun mx => handshakeOutcome env (exchange mx) user domain)
        (sortedMxRecords dns) in
  exists tr,
    verifyEmailWithDnsResult env email dns w
    = (Js.Return (firstDecisive outcomes), emit tr w)
    /\ netConnects tr
       = firstn (attempts outcomes)
                (map (fun mx => NetConnect 25 (exchange mx))
                     (sortedMxRecords dns)).
Proof.
  intros Hu Hune Hd Hdne Hmx Hne. unfold verifyEmailWithDnsResult.
  rewrite Hu, Hd, (truthy_nonempty _ Hune), (truthy_nonempty _ Hdne),
    (mx_present dns Hmx Hne).
  cbn [negb orb Js.show]. apply tryExchanges_decisive.
Qed.

Lemma verifyEmailWithDnsResult_fallback_witness :
  exists tr,
    verifyEmailWithDnsResult fallbackEnv "user@example.com" exampleDns
                             emptyWorld
    = (Js.Return (Some true), emit tr emptyWorld)
    /\ netConnects tr = [ NetConnect 25 "mx1.example.com";
                          NetConnect 25 "mx2.example.com" ].
Proof.
  exact (verifyEmailWithDnsResult_fallback fallbackEnv "user@example.com"
           "user" "example.com" exampleDns emptyWorld eq_refl
           ltac:(discriminate) eq_refl ltac:(discriminate) eq_refl
           ltac:(discriminate)).
Defined.

(** ** The order of the exchanges *)

Lemma insertBy_ofPriority (p : Z) (x : MxRecord) (l : list MxRecord) :
  ofPriority p (insertBy byPriority x l) = ofPriority p (x :: l).
Proof.
  unfold ofPriority. induction l as [|y t IH]; cbn [insertBy].
  - reflexivity.
  - unfold byPriority at 1. destruct (priority x - priority y <=? 0)%Z eqn:E.
    + reflexivity.
    + apply Z.leb_gt in E. cbn [filter] in *. rewrite IH.
      destruct (priority x =? p)%Z eqn:Ex, (priority y =? p)%Z eqn:Ey;
        try reflexivity.
      apply Z.eqb_eq in Ex, Ey. lia.
Qed.

Lemma arraySort_ofPriority (p : Z) (l : list MxRecord) :
  ofPriority p (arraySort byPriority l) = ofPriority p l.
Proof.
  unfold arraySort. induction l as [|x t IH]; cbn [fold_right].
  - reflexivity.
  - rewrite insertBy_ofPriority. unfold ofPriority in *. cbn [filter].
    now rewrite IH.
Qed.

Lemma attempts_first (outcomes : list (Js.Completion (option bool))) :
  outcomes <> [] -> 1 <= attempts outcomes.
Proof.
  destruct outcomes as [|[[[|]|]|e] rest]; [contradiction | | | |];
    intros _; cbn [attempts]; lia.
Qed.

Lemma attempts_all (outcomes : list (Js.Completion (option bool))) :
  firstDecisive outcomes = Some false -> attempts outcomes = length outcomes.
Proof.
  induction outcomes as [|[[[|]|]|e] rest IH];
    cbn [firstDecisive attempts length]; intros H;
    first [reflexivity | discriminate | now rewrite IH].
Qed.

(** C4, as the code has it.  [verifyEmailDns] hands back the MX records
    in the order the lookup delivered them.  The ascending order is made
    by [verifyEmailWithDnsResult]: its [sortedMxRecords] is the stable
    ascending rearrangement of the records it is given (ascending, the
    same records, and those of equal priority in the order they came
    in); for an address with a user and a domain and a result with MX
    records it contacts the exchanges in exactly that order, the first
    one always, stopping at the first handshake that accepts the
    recipient or stays pending, and it has contacted them all when it
    answers [false]. *)
Theorem mxRecords_sorted_by_consumer
        (env : Env) (email user domain : string)
        (dns : DnsVerificationResult) (w : World) :
  (forall d mx,
      part 1 email = Some d ->
      resolveMx env d = Js.Return mx ->
      exists r,
        verifyEmailDns env email w = (Js.Return r, emit (dnsLookups email) w)
        /\ mxRecords r = mx)
  /\ ascendingPriority (sortedMxRecords dns)
  /\ Permutation (mxRecords dns) (sortedMxRecords dns)
  /\ (forall p,
         ofPriority p (sortedMxRecords dns) = ofPriority p (mxRecords dns))
  /\ (part 0 email = Some user -> user <> EmptyString ->
      part 1 email = Some domain -> domain <> EmptyString ->
      hasMxRecord dns = true -> mxRecords dns <> [] ->
      let outcomes :=
        map (fun mx => handshakeOutcome env (exchange mx) user domain)
            (sortedMxRecords dns) in
      exists tr,
        verifyEmailWithDnsResult env email dns w
        = (Js.Return (firstDecisive outcomes), emit tr w)
        /\ netConnects tr
           = firstn (attempts outcomes)
                    (map (fun mx => NetConnect 25 (exchange mx))
                         (sortedMxRecords dns))
        /\ 1 <= attempts outcomes
        /\ (firstDecisive outcomes = Some false ->
            attempts outcomes = length (sortedMxRecords dns))).
Proof.
  split; [|split; [|split; [|split]]].
  - intros d mx Hd Hmx. exists (dnsResult env email).
    split; [apply verifyEmailDns_run|].
    unfold dnsResult, lookupMx, lookupTxt. rewrite Hd, Hmx.
    destruct (resolveTxt env d);
      destruct (resolveTxt env ("_dmarc." ++ Js.show (Some d)));
      reflexivity.
  - apply arraySort_sorted.
  - apply arraySort_perm.
  - intros p. apply arraySort_ofPriority.
  - intros Hu Hune Hd Hdne Hmx Hne outcomes.
    unfold verifyEmailWithDnsResult.
    rewrite Hu, Hd, (truthy_nonempty _ Hune), (truthy_nonempty _ Hdne),
      (mx_present dns Hmx Hne).
    cbn [negb orb Js.show].
    destruct (tryExchanges_decisive env user domain (sortedMxRecords dns) w)
      as [tr [Hrun Hnc]].
    exists tr. split; [exact Hrun|]. split; [exact Hnc|]. split.
    + apply attempts_first. subst outcomes. intros Hnil.
      apply map_eq_nil in Hnil. apply Hne.
      pose proof (arraySort_perm (mxRecords dns)) as Hp.
      fold (sortedMxRecords dns) in Hp. rewrite Hnil in Hp.
      now apply Permutation_sym, Permutation_nil in Hp.
    + intros Hall. subst outcomes. rewrite (attempts_all _ Hall).
      apply length_map.
Qed.

Lemma mxRecords_sorted_by_consumer_witness :
  (exists r,
      verifyEmailDns fallbackEnv "user@example.com" emptyWorld
      = (Js.Return r, emit (dnsLookups "user@example.com") emptyWorld)
      /\ mxRecords r = exampleMx)
  /\ sortedMxRecords exampleDns
     = [ {| exchange := "mx1.example.com"; priority := 10 |};
         {| exchange := "mx2.example.com"; priority := 20 |} ]
  /\ exists tr,
      verifyEmailWithDnsResult fallbackEnv "user@example.com" exampleDns
                               emptyWorld
      = (Js.Return (Some true), emit tr emptyWorld)
      /\ netConnects tr = [ NetConnect 25 "mx1.example.com";
                            NetConnect 25 "mx2.example.com" ].
Proof.
  destruct (mxRecords_sorted_by_consumer fallbackEnv "user@example.com"
              "user" "example.com" exampleDns emptyWorld)
    as [Hraw [_ [_ [_ Hcontact]]]].
  split; [exact (Hraw "example.com" exampleMx eq_refl eq_refl)|].
  split; [reflexivity|].
  destruct (Hcontact eq_refl ltac:(discriminate) eq_refl ltac:(discriminate)
                     eq_refl ltac:(discriminate))
    as [tr [Hrun [Hnc _]]].
  exists tr. split; [exact Hrun | exact Hnc].
Defined.

Lemma handshakeLoop_mute (user domain : string) (events : list SocketEvent)
      (w : World) :
  mute events ->
  handshakeLoop user domain events 0 w = (Js.Return None, w).
Proof.
  unfold mute. induction 1 as [|ev rest Hev _ IH]; cbn [handshakeLoop].
  - reflexivity.
  - destruct Hev as [-> | [data [-> Hdata]]]; [exact IH|].
    now rewrite Hdata.
Qed.

(** X16.  The handshake has no timer of its own: when the most
    preferred exchange sends no banner that contains [220], raises no
    error and never reports an idle timeout, its promise is never
    settled, and [verifyEmailWithDnsResult] stays pending after that one
    connection; it writes nothing and tries no other exchange. *)
Theorem verifyEmailWithDnsResult_pending
        (env : Env) (email user domain : string)
        (dns : DnsVerificationResult) (mx : MxRecord)
        (rest : list MxRecord) (w : World) :
  part 0 email = Some user -> user <> EmptyString ->
  part 1 email = Some domain -> domain <> EmptyString ->
  hasMxRecord dns = true ->
  sortedMxRecords dns = mx :: rest ->
  mute (mxEvents env (exchange mx)) ->
  verifyEmailWithDnsResult env email dns w
  = (Js.Return None, emit [NetConnect 25 (exchange mx)] w).
Proof.
  intros Hu Hune Hd Hdne Hmx Hsorted Hmute.
  assert (Hne : mxRecords dns <> []).
  { intros Hnil. pose proof (arraySort_perm (mxRecords dns)) as Hp.
    fold (sortedMxRecords dns) in Hp. rewrite Hsorted, Hnil in Hp.
    now apply Permutation_nil in Hp. }
  unfold verifyEmailWithDnsResult.
  rewrite Hu, Hd, (truthy_nonempty _ Hune), (truthy_nonempty _ Hdne),
    (mx_present dns Hmx Hne), Hsorted.
  cbn [negb orb Js.show tryExchanges].
  unfold smtpHandshake. unfold bind, tryCatch, effect.
  now rewrite (handshakeLoop_mute _ _ _ _ Hmute).
Qed.

Lemma verifyEmailWithDnsResult_pending_witness :
  verifyEmailWithDnsResult exampleEnv "user@example.com" exampleDns emptyWorld
  = (Js.Return None, emit [NetConnect 25 "mx1.example.com"] emptyWorld).
Proof.
  refine (verifyEmailWithDnsResult_pending exampleEnv "user@example.com"
            "user" "example.com" exampleDns
            {| exchange := "mx1.example.com"; priority := 10 |}
            [ {| exchange := "mx2.example.com"; priority := 20 |} ]
            emptyWorld eq_refl _ eq_refl _ eq_refl eq_refl _);
    try discriminate.
  constructor.
Defined.

(** X17.  The handshake dialogue on port 25: after a chunk that contains
    [220] it writes EHLO, after one that contains [250] MAIL FROM with
    the fixed sender [mhaddaou], after another RCPT TO, and a further
    chunk that contains [250] anywhere resolves it with [true] and ends
    the socket.  No STARTTLS and no QUIT is written. *)
Theorem smtpHandshake_dialogue
        (env : Env) (host user domain d0 d1 d2 d3 : string)
        (rest : list SocketEvent) (w : World) :
  mxEvents env host = EvData d0 :: EvData d1 :: EvData d2 :: EvData d3 :: rest ->
  Js.includes d0 "220" = true ->
  Js.includes d1 "250" = true ->
  Js.includes d2 "250" = true ->
  Js.includes d3 "250" = true ->
  smtpHandshake env host user domain w
  = (Js.Return (Some true),
     emit [ NetConnect 25 host;
            SocketWrite ("EHLO " ++ domain ++ Js.CRLF);
            SocketWrite ("MAIL FROM:<mhaddaou@" ++ domain ++ ">" ++ Js.CRLF);
            SocketWrite ("RCPT TO:<" ++ user ++ "@" ++ domain ++ ">"
                         ++ Js.CRLF);
            SocketEnd ] w).
Proof.
  intros Hev H0 H1 H2 H3. unfold smtpHandshake. rewrite Hev.
  cbn [handshakeLoop]. rewrite H0, H1, H2, H3.
  unfold bind, effect, ret. now rewrite !emit_emit.
Qed.

Lemma smtpHandshake_dialogue_witness :
  fst (smtpHandshake looseEnv "mx.example.com" "user" "example.com"
                     emptyWorld)
  = Js.Return (Some true).
Proof.
  now rewrite (smtpHandshake_dialogue looseEnv "mx.example.com" "user"
                 "example.com" "220 ready" "250 hello" "250 ok"
                 "550 5.1.1 unknown user (ref 250)" [] emptyWorld eq_refl
                 eq_refl eq_refl eq_refl eq_refl).
Defined.

(** ** Orchestration, continued *)

(** X18.  An address without an at sign is never classified, probed or
    stored: after the three DNS calls of the first resolution (two
    refused, one for [_dmarc.undefined]) the type error of
    [checkFreeOrPaid] is caught and logged, and the call returns
    nothing. *)
Theorem verifyOneEmail_without_domain
        (env : Env) (data : VerifyOneDto) (w : World) :
  Js.hasChar "@" (check data) = false ->
  verifyOneEmail env data w
  = (Js.Return None,
     emit [ ResolveMx None; ResolveTxt None;
            ResolveTxt (Some "_dmarc.undefined");
            LoggerError
              "Cannot read properties of undefined (reading 'toLowerCase')" ]
          w).
Proof.
  intros H. rewrite verifyOneEmail_run. cbv zeta.
  destruct (classifiers_without_at_core (check data) H) as [Hthrow Hpart].
  rewrite Hthrow. unfold dnsLookups. rewrite Hpart. reflexivity.
Qed.

Lemma verifyOneEmail_without_domain_witness :
  fst (verifyOneEmail exampleEnv
         {| dto_email := "owner@example.org"; check := "postmaster" |}
         emptyWorld)
  = Js.Return None.
Proof.
  now rewrite (verifyOneEmail_without_domain exampleEnv
                 {| dto_email := "owner@example.org"; check := "postmaster" |}
                 emptyWorld eq_refl).
Defined.

Lemma dnsResult_without_mx (env : Env) (address d : string) :
  part 1 address = Some d ->
  (resolveMx env d = Js.Return [] \/ exists e, resolveMx env d = Js.Throw e) ->
  hasMxRecord (dnsResult env address) = false
  /\ mxRecords (dnsResult env address) = [].
Proof.
  intros Hd Hmx. unfold dnsResult, lookupMx, lookupTxt. rewrite Hd.
  destruct Hmx as [-> | [e ->]];
    destruct (resolveTxt env d);
    destruct (resolveTxt env ("_dmarc." ++ Js.show (Some d)));
    split; reflexivity.
Qed.

(** X19.  When the MX lookup of the domain fails or finds nothing, an
    address that is not blacklisted is recorded as [Undeliverable] with
    score 0, an empty host list and provider [Unknown], and no socket is
    opened: the call consists of the DNS lookups and the insertion. *)
Theorem verifyOneEmail_without_mx
        (env : Env) (data : VerifyOneDto) (d : string) (w w' : World)
        (r : EmailResult) :
  part 1 (check data) = Some d ->
  (resolveMx env d = Js.Return [] \/ exists e, resolveMx env d = Js.Throw e) ->
  isBlacklisted (blacklist env) (check data) = false ->
  verifyOneEmail env data w = (Js.Return (Some r), w') ->
  state r = Undeliverable /\ score r = 0%Z
  /\ f_mxRecords (r_fields r) = []
  /\ f_SmtpProvider (r_fields r) = Unknown
  /\ trace w' = (trace w ++ dnsLookups (check data) ++ dnsLookups (check data)
                 ++ [EmailsCreate (r_fields r)])%list.
Proof.
  intros Hd Hmx Hbl Hrun.
  destruct (dnsResult_without_mx env (check data) d Hd Hmx) as [Hhas Hrec].
  apply verifyOneEmail_record in Hrun
    as [free' [res [_ [-> [Hf [_ [_ Htr]]]]]]].
  unfold state, score, toResult in *. cbn [r_fields] in *.
  rewrite Htr, Hf. unfold plannedFields.
  rewrite Hbl, Hrec. cbn [extractMxRecords map existsb].
  unfold verifyEmailOn. rewrite Hhas. cbn. repeat split.
Qed.

Lemma verifyOneEmail_without_mx_witness :
  exists r w',
    verifyOneEmail exampleEnv strayData emptyWorld = (Js.Return (Some r), w')
    /\ state r = Undeliverable /\ score r = 0%Z.
Proof.
  eexists. eexists. split; [vm_compute; reflexivity|].
  refine (let H := verifyOneEmail_without_mx exampleEnv strayData
                     "nowhere.invalid" emptyWorld _ _ eq_refl _ eq_refl _
          in conj (proj1 H) (proj1 (proj2 H))).
  - right. eexists. reflexivity.
  - vm_compute. reflexivity.
Defined.

Lemma stored_addresses (a : string) (w : World) :
  stored a w = true <-> In a (addresses w).
Proof.
  unfold stored, addresses. rewrite existsb_exists, in_map_iff. split.
  - intros [d [Hin Hd]]. apply String.eqb_eq in Hd. eauto.
  - intros [d [Hd Hin]]. exists d. split; [exact Hin|].
    now apply String.eqb_eq.
Qed.

(** What one verification does to the collection. *)
Lemma verifyOneEmail_collection_cases
      (env : Env) (data : VerifyOneDto) (w : World) :
  exists o w',
    verifyOneEmail env data w = (Js.Return o, w')
    /\ clock w' = clock w
    /\ ((o = None /\ collection w' = collection w)
        \/ (exists res,
               o = Some (toResult res)
               /\ collection w' = (collection w ++ [res])%list
               /\ f_email (fields res) = check data
               /\ stored (check data) w = false)).
Proof.
  rewrite verifyOneEmail_run. cbv zeta.
  destruct (checkFreeOrPaid (check data)) as [free'|e].
  2: { eexists. eexists. split; [reflexivity|]. split; [reflexivity|].
       left. now split. }
  pose proof (plannedFields_email env data free' (clock w)) as Hmail.
  destruct (plannedFields env data free' (clock w)) as [doc tr].
  cbn [fst] in Hmail.
  destruct (emailsModel_create env doc _) as [[res|e] w3] eqn:E.
  - apply create_returns in E as [Hf [_ [Hnew [_ [Hc [Hk _]]]]]].
    eexists. eexists. split; [reflexivity|]. split; [exact Hk|].
    right. exists res. rewrite Hf, Hmail.
    rewrite Hmail, stored_emit in Hnew. now repeat split.
  - apply create_throws in E as [-> _].
    eexists. eexists. split; [reflexivity|]. split; [reflexivity|].
    left. now split.
Qed.

Lemma addresses_snoc (w w' : World) (res : Emails) :
  collection w' = (collection w ++ [res])%list ->
  addresses w' = (addresses w ++ [f_email (fields res)])%list.
Proof. unfold addresses. intros ->. now rewrite map_app. Qed.

Lemma NoDup_snoc (l : list string) (a : string) :
  NoDup l -> ~ In a l -> NoDup (l ++ [a]).
Proof.
  intros Hl Ha. apply NoDup_app; [exact Hl | repeat constructor; easy |].
  intros x Hx [<- | []]. contradiction.
Qed.

Lemma stored_false_not_in (a : string) (w : World) :
  stored a w = false -> ~ In a (addresses w).
Proof.
  intros H Hin. apply stored_addresses in Hin. congruence.
Qed.

Lemma oneByOne_collection (env : Env) (userEmail : string)
      (targets : list string) :
  forall w : World,
    exists added,
      collection (snd (oneByOne env userEmail targets w))
      = (collection w ++ added)%list
      /\ incl (map (fun d => f_email (fields d)) added) targets
      /\ map toResult added = records (fst (oneByOne env userEmail targets w))
      /\ (NoDup (addresses w) ->
          NoDup (addresses (snd (oneByOne env userEmail targets w)))).
Proof.
  induction targets as [|target rest IH]; intros w; cbn [oneByOne].
  - exists []. cbn [snd fst map records]. rewrite app_nil_r.
    repeat split; trivial. easy.
  - destruct (verifyOneEmail_collection_cases env
                {| dto_email := userEmail; check := target |} w)
      as [o [w1 [Hrun [_ Hcase]]]].
    rewrite Hrun. cbn [sleep].
    set (w2 := {| collection := collection w1; clock := (clock w1 + 2000)%Z;
                  trace := (trace w1 ++ [Sleep 2000])%list |}).
    destruct (IH w2) as [added [Hadd [Hincl [Hrec Hnd]]]].
    destruct (oneByOne env userEmail rest w2) as [rs w3].
    cbn [fst snd] in *.
    assert (Hw2 : addresses w2 = addresses w1) by reflexivity.
    change (collection w2) with (collection w1) in Hadd.
    rewrite Hw2 in Hnd.
    destruct Hcase as [[-> Hc] | [res [-> [Hc [Hmail Hnew]]]]].
    + exists added. rewrite Hadd, Hc. cbn [records].
      split; [reflexivity|]. split; [now apply incl_tl|].
      split; [exact Hrec|].
      intros Hw. apply Hnd. unfold addresses in *. now rewrite Hc.
    + cbn [check] in *. exists (res :: added).
      rewrite Hadd, Hc, <- app_assoc. cbn [map records app].
      split; [reflexivity|]. split.
      { rewrite Hmail. apply incl_cons; [now left | now apply incl_tl]. }
      split; [now rewrite Hrec|].
      intros Hw. apply Hnd.
      rewrite (addresses_snoc w w1 res Hc), Hmail.
      apply NoDup_snoc; [exact Hw|]. now apply stored_false_not_in.
Qed.

(** X20.  Verifications only ever add to the collection, and change
    no document that is in it.  One call leaves the collection as it was
    and returns no record, or appends one document, for its target and
    returned as the record, and only if that address was not stored yet;
    a batch appends, in order, exactly the documents it returns as
    records, each for one of its targets.  In particular addresses stay
    unique in the collection. *)
Theorem verifications_grow_collection
        (env : Env) (data : VerifyOneDto) (many : VerifyManyDto)
        (w : World) :
  (exists o w',
      verifyOneEmail env data w = (Js.Return o, w')
      /\ ((o = None /\ collection w' = collection w)
          \/ (exists res,
                 o = Some (toResult res)
                 /\ collection w' = (collection w ++ [res])%list
                 /\ f_email (fields res) = check data
                 /\ stored (check data) w = false))
      /\ (NoDup (addresses w) -> NoDup (addresses w')))
  /\ (exists results w' added,
         verifyManyEmail env many w = (Js.Return results, w')
         /\ collection w' = (collection w ++ added)%list
         /\ incl (map (fun d => f_email (fields d)) added) (emails many)
         /\ map toResult added = records results
         /\ (NoDup (addresses w) -> NoDup (addresses w'))).
Proof.
  split.
  - destruct (verifyOneEmail_collection_cases env data w)
      as [o [w' [Hrun [_ Hcase]]]].
    exists o, w'. split; [exact Hrun|]. split; [exact Hcase|].
    destruct Hcase as [[_ Hc] | [res [_ [Hc [Hmail Hnew]]]]].
    + unfold addresses. now rewrite Hc.
    + rewrite (addresses_snoc w w' res Hc), Hmail.
      apply stored_false_not_in in Hnew.
      intros Hnd. now apply NoDup_snoc.
  - unfold verifyManyEmail. rewrite verifyManyLoop_oneByOne.
    destruct (oneByOne_collection env (many_email many) (emails many) w)
      as [added [Hadd [Hincl [Hrec Hnd]]]].
    eexists. eexists. exists added. split; [reflexivity|].
    cbn [app]. now repeat split.
Qed.

Lemma verifications_grow_collection_witness :
  addresses storedWorld = ["user@example.com"]
  /\ NoDup (addresses (snd (verifyOneEmail exampleEnv exampleData
                                           storedWorld)))
  /\ collection (snd (verifyOneEmail exampleEnv exampleData storedWorld))
     = collection storedWorld.
Proof.
  split; [vm_compute; reflexivity|].
  destruct (verifications_grow_collection exampleEnv exampleData
              {| many_email := "owner@example.org"; many_name := "list";
                 emails := [] |} storedWorld)
    as [[o [w' [Hrun [_ Hnd]]]] _].
  rewrite Hrun. split; [|vm_compute in Hrun; now inversion Hrun].
  apply Hnd. vm_compute. repeat constructor. intros [].
Defined.

(** X21.  The fields of a returned record: the classification of
    [checkFreeOrPaid], the role flag of [isRoleEmail], the blacklist
    flag, the exchanges in the order the MX lookup delivered them (not
    sorted by priority), and the provider named from them. *)
Theorem verifyOneEmail_record_fields
        (env : Env) (data : VerifyOneDto) (d : string)
        (mx : list MxRecord) (w w' : World) (r : EmailResult) :
  verifyOneEmail env data w = (Js.Return (Some r), w') ->
  part 1 (check data) = Some d ->
  resolveMx env d = Js.Return mx ->
  let f := r_fields r in
  checkFreeOrPaid (check data) = Js.Return (f_free f)
  /\ f_role f = (if isRoleEmail (check data) then Yes else No)
  /\ f_disposable f = isBlacklisted (blacklist env) (check data)
  /\ f_mxRecords f = map exchange mx
  /\ f_SmtpProvider f = snd (extractMxRecords mx).
Proof.
  intros Hrun Hd Hmx f. subst f.
  apply verifyOneEmail_record in Hrun
    as [free' [res [Hfree [-> [Hf _]]]]].
  unfold toResult. cbn [r_fields]. rewrite Hf, Hfree.
  assert (Hrec : mxRecords (dnsResult env (check data)) = mx).
  { unfold dnsResult, lookupMx, lookupTxt. rewrite Hd, Hmx.
    destruct (resolveTxt env d);
      destruct (resolveTxt env ("_dmarc." ++ Js.show (Some d)));
      reflexivity. }
  unfold plannedFields. rewrite Hrec.
  destruct (isBlacklisted (blacklist env) (check data));
    [|destruct (verifyEmailOn _ _ _ _)]; repeat split.
Qed.

Lemma verifyOneEmail_record_fields_witness :
  exists r w',
    verifyOneEmail exampleEnv exampleData emptyWorld = (Js.Return (Some r), w')
    /\ f_mxRecords (r_fields r) = ["mx2.example.com"; "mx1.example.com"]
    /\ f_free (r_fields r) = Paid.
Proof.
  assert (Hrun : exists r w',
             verifyOneEmail exampleEnv exampleData emptyWorld
             = (Js.Return (Some r), w')).
  { eexists. eexists. vm_compute. reflexivity. }
  destruct Hrun as [r [w' Hrun]]. exists r, w'. split; [exact Hrun|].
  destruct (verifyOneEmail_record_fields exampleEnv exampleData
              "example.com" exampleMx emptyWorld w' r Hrun eq_refl eq_refl)
    as [Hfree [_ [_ [Hmx _]]]].
  split; [exact Hmx|].
  vm_compute in Hfree. now injection Hfree.
Defined.

(** ** Batches, continued *)

Lemma stored_grows (env : Env) (data : VerifyOneDto) (a : string)
      (w : World) :
  stored a w = true ->
  stored a (snd (verifyOneEmail env data w)) = true.
Proof.
  intros H. destruct (verifyOneEmail_collection_cases env data w)
    as [o [w' [Hrun [_ Hcase]]]].
  rewrite Hrun. cbn [snd]. apply stored_addresses in H.
  apply stored_addresses.
  destruct Hcase as [[_ Hc] | [res [_ [Hc _]]]].
  - unfold addresses in *. now rewrite Hc.
  - rewrite (addresses_snoc w w' res Hc). apply in_or_app. now left.
Qed.

Lemma verifyOneEmail_stored_none (env : Env) (data : VerifyOneDto)
      (w : World) :
  stored (check data) w = true ->
  fst (verifyOneEmail env data w) = Js.Return None.
Proof.
  intros H. destruct (verifyOneEmail_collection_cases env data w)
    as [o [w' [Hrun [_ Hcase]]]].
  rewrite Hrun. cbn [fst].
  destruct Hcase as [[-> _] | [res [_ [_ [_ Hnew]]]]];
    [reflexivity | congruence].
Qed.

Lemma verifyOneEmail_some_stored (env : Env) (data : VerifyOneDto)
      (w : World) (r : EmailResult) :
  fst (verifyOneEmail env data w) = Js.Return (Some r) ->
  email r = check data
  /\ stored (check data) w = false
  /\ stored (check data) (snd (verifyOneEmail env data w)) = true.
Proof.
  destruct (verifyOneEmail_collection_cases env data w)
    as [o [w' [Hrun [_ Hcase]]]].
  rewrite Hrun. cbn [fst snd]. intros H. injection H as ->.
  destruct Hcase as [[Habs _] | [res [Hres [Hc [Hmail Hnew]]]]];
    [discriminate|].
  injection Hres as ->. split; [exact Hmail|]. split; [exact Hnew|].
  apply stored_addresses. rewrite (addresses_snoc w w' res Hc), Hmail.
  apply in_or_app. right. now left.
Qed.

(** Once an address is stored, every later entry for it is empty. *)
Lemma oneByOne_stored (env : Env) (userEmail : string)
      (targets : list string) (t : string) :
  forall (w : World) (j : nat),
    stored t w = true ->
    nth_error targets j = Some t ->
    nth_error (fst (oneByOne env userEmail targets w)) j = Some None.
Proof.
  induction targets as [|target rest IH]; intros w j Hst Hj;
    [destruct j; discriminate|].
  cbn [oneByOne].
  pose proof (stored_grows env {| dto_email := userEmail; check := target |}
                t w Hst) as Hst1.
  pose proof (verifyOneEmail_stored_none env
                {| dto_email := userEmail; check := target |} w) as Hnone.
  destruct (verifyOneEmail env _ w) as [c w1]. cbn [fst snd sleep] in *.
  specialize (IH {| collection := collection w1;
                    clock := (clock w1 + 2000)%Z;
                    trace := (trace w1 ++ [Sleep 2000])%list |}).
  destruct (oneByOne env userEmail rest _) as [rs w3]. cbn [fst] in *.
  destruct j as [|j]; cbn [nth_error] in *.
  - injection Hj as ->. now rewrite (Hnone Hst).
  - now apply IH.
Qed.

Lemma oneByOne_fresh (env : Env) (userEmail : string)
      (targets : list string) :
  forall w : World,
    let rs := records (fst (oneByOne env userEmail targets w)) in
    NoDup (map email rs)
    /\ Forall (fun a => stored a w = false) (map email rs).
Proof.
  induction targets as [|target rest IH]; intros w; cbn [oneByOne].
  - split; constructor.
  - pose proof (verifyOneEmail_some_stored env
                  {| dto_email := userEmail; check := target |} w) as Hsome.
    pose proof (fun a => stored_grows env
                  {| dto_email := userEmail; check := target |} a w) as Hgrow.
    destruct (verifyOneEmail env _ w) as [c w1]. cbn [fst snd sleep] in *.
    set (w2 := {| collection := collection w1; clock := (clock w1 + 2000)%Z;
                  trace := (trace w1 ++ [Sleep 2000])%list |}).
    destruct (IH w2) as [Hnd Hfresh].
    destruct (oneByOne env userEmail rest w2) as [rs w3]. cbn [fst] in *.
    assert (Hold : Forall (fun a => stored a w = false)
                          (map email (records rs))).
    { eapply Forall_impl; [|exact Hfresh]. intros a Ha.
      cbv beta in Ha. apply not_true_is_false. intros Hw.
      apply Hgrow in Hw.
      change (stored a w2) with (stored a w1) in Ha. congruence. }
    destruct c as [[r|]|e]; cbn [records map]; try (split; assumption).
    destruct (Hsome r eq_refl) as [Hmail [Hnew Hst]]. cbn [check] in *.
    split.
    + constructor; [|exact Hnd]. rewrite Hmail. intros Hin.
      rewrite Forall_forall in Hfresh. apply Hfresh in Hin.
      change (stored target w2) with (stored target w1) in Hin. congruence.
    + constructor; [now rewrite Hmail | exact Hold].
Qed.

(** X22.  A batch yields at most one record per address: the records
    in the result list have pairwise different addresses, none of them
    stored before the call, and when a target occurs again after an
    occurrence that produced a record, the later entry is empty. *)
Theorem verifyManyEmail_one_record_per_address
        (env : Env) (data : VerifyManyDto) (w w' : World)
        (results : list (option EmailResult)) :
  verifyManyEmail env data w = (Js.Return results, w') ->
  NoDup (map email (records results))
  /\ Forall (fun a => ~ In a (addresses w)) (map email (records results))
  /\ (forall i j t r,
         i < j ->
         nth_error (emails data) i = Some t ->
         nth_error (emails data) j = Some t ->
         nth_error results i = Some (Some r) ->
         nth_error results j = Some None).
Proof.
  unfold verifyManyEmail. rewrite verifyManyLoop_oneByOne. cbn [app].
  intros H. injection H as <- _.
  destruct (oneByOne_fresh env (many_email data) (emails data) w)
    as [Hnd Hfresh].
  split; [exact Hnd|]. split.
  { eapply Forall_impl; [|exact Hfresh].
    intros a Ha. now apply stored_false_not_in. }
  clear Hnd Hfresh. generalize (many_email data) as u.
  intros u. revert w.
  induction (emails data) as [|target rest IH]; intros w i j t r Hij Hi Hj Hr;
    [destruct i; discriminate|].
  destruct j as [|j]; [lia|]. cbn [nth_error] in Hj.
  cbn [oneByOne] in *.
  pose proof (verifyOneEmail_some_stored env
                {| dto_email := u; check := target |} w) as Hsome.
  destruct (verifyOneEmail env _ w) as [c w1]. cbn [fst snd sleep] in *.
  set (w2 := {| collection := collection w1; clock := (clock w1 + 2000)%Z;
                trace := (trace w1 ++ [Sleep 2000])%list |}) in *.
  pose proof (oneByOne_stored env u rest t w2 j) as Hlater.
  specialize (IH w2).
  destruct (oneByOne env u rest w2) as [rs w3]. cbn [fst nth_error] in *.
  destruct i as [|i]; cbn [nth_error] in *.
  - injection Hi as ->. injection Hr as Hr.
    destruct c as [[r0|]|e]; try discriminate. injection Hr as ->.
    destruct (Hsome r eq_refl) as [_ [_ Hst]]. cbn [check] in Hst.
    now apply Hlater.
  - apply (IH i j t r); trivial. lia.
Qed.

Lemma verifyManyEmail_one_record_per_address_witness :
  exists results w',
    verifyManyEmail exampleEnv
      {| many_email := "owner@example.org"; many_name := "list";
         emails := ["user@example.com"; "x@nowhere.invalid";
                    "user@example.com"] |}
      emptyWorld
    = (Js.Return results, w')
    /\ nth_error results 2 = Some None.
Proof.
  eexists. eexists. split; [vm_compute; reflexivity|].
  refine (proj2 (proj2 (verifyManyEmail_one_record_per_address exampleEnv
                          {| many_email := "owner@example.org";
                             many_name := "list";
                             emails := ["user@example.com";
                                        "x@nowhere.invalid";
                                        "user@example.com"] |}
                          emptyWorld _ _ _))
                0 2 "user@example.com" _ _ eq_refl eq_refl _).
  - vm_compute. reflexivity.
  - lia.
  - reflexivity.
Defined.

(** ** Account probes *)

Lemma probe_session (a : Adapter) (pilot : Pilot) (email : string) :
  probe a pilot email = session pilot (labelOf a) (stepsOf a pilot email).
Proof. destruct a; reflexivity. Qed.

Lemma extend_nil (v : Visit) : extend [] [] v = v.
Proof. destruct v. unfold extend. cbn. now rewrite !app_nil_r. Qed.

Lemma extend_extend (n1 n2 : list BrowserCall) (l1 l2 : list string)
      (v : Visit) :
  extend n2 l2 (extend n1 l1 v) = extend (n1 ++ n2) (l1 ++ l2) v.
Proof. unfold extend. cbn. now rewrite !app_assoc. Qed.

Lemma closes_app (a b : list BrowserCall) :
  closes (a ++ b) = (closes a ++ closes b)%list.
Proof. apply filter_app. Qed.

Lemma attends_ret {A : Type} (a : A) : attends (retB a).
Proof. intros v. exists [], []. now rewrite extend_nil. Qed.

Lemma attends_bind {A C : Type} (m : B A) (k : A -> B C) :
  attends m -> (forall a, attends (k a)) -> attends (bindB m k).
Proof.
  intros Hm Hk v. unfold bindB.
  destruct (Hm v) as [n1 [l1 [H1 Hc1]]].
  destruct (m v) as [[a|e] v1]; cbn [snd] in *; subst v1.
  - destruct (Hk a (extend n1 l1 v)) as [n2 [l2 [H2 Hc2]]].
    exists (n1 ++ n2)%list, (l1 ++ l2)%list.
    rewrite H2, extend_extend, closes_app, Hc1, Hc2. now split.
  - exists n1, l1. now split.
Qed.

Lemma attends_catch {A : Type} (m : B A) (h : Js.Exn -> B A) :
  attends m -> (forall e, attends (h e)) -> attends (catchB m h).
Proof.
  intros Hm Hh v. unfold catchB.
  destruct (Hm v) as [n1 [l1 [H1 Hc1]]].
  destruct (m v) as [[a|e] v1]; cbn [snd] in *; subst v1.
  - exists n1, l1. now split.
  - destruct (Hh e (extend n1 l1 v)) as [n2 [l2 [H2 Hc2]]].
    exists (n1 ++ n2)%list, (l1 ++ l2)%list.
    rewrite H2, extend_extend, closes_app, Hc1, Hc2. now split.
Qed.

Lemma attends_consult (pilot : Pilot) (c : BrowserCall) :
  isClose c = false -> attends (consult pilot c).
Proof.
  intros Hc v. exists [c], []. unfold consult, record, extend, closes.
  cbn. rewrite Hc, app_nil_r. now split.
Qed.

Lemma attends_perform (pilot : Pilot) (c : BrowserCall) :
  isClose c = false -> attends (perform pilot c).
Proof.
  intros Hc. apply attends_bind; [now apply attends_consult|].
  intros _. apply attends_ret.
Qed.

Lemma attends_randomDelay (min max : Z) : attends (randomDelay min max).
Proof.
  intros v. exists [RandomDelay min max], [].
  unfold randomDelay, record, extend. cbn. now rewrite app_nil_r.
Qed.

Lemma attends_logError (msg : string) : attends (logError msg).
Proof.
  intros v. exists [], [msg]. unfold logError, extend. cbn.
  now rewrite app_nil_r.
Qed.

Lemma attends_if {A : Type} (b : bool) (m1 m2 : B A) :
  attends m1 -> attends m2 -> attends (if b then m1 else m2).
Proof. now destruct b. Qed.

Ltac attend :=
  repeat first
    [ apply attends_ret
    | apply attends_randomDelay
    | apply attends_logError
    | apply attends_perform; reflexivity
    | apply attends_consult; reflexivity
    | apply attends_if
    | apply attends_bind; [|intros ?]
    | apply attends_catch; [|intros ?] ].

Lemma attends_typeText (pilot : Pilot) (selector : Selector) (text : string) :
  attends (typeText pilot selector text).
Proof.
  induction text as [|c rest IH]; cbn [typeText]; attend. exact IH.
Qed.

Lemma attends_simulateHumanClick (pilot : Pilot) (selector : Selector) :
  attends (simulateHumanClick pilot selector).
Proof. unfold simulateHumanClick. attend. Qed.

Lemma attends_initBrowser (pilot : Pilot) : attends (initBrowser pilot).
Proof. unfold initBrowser. attend. Qed.

Lemma attends_failed (label : string) (e : Js.Exn) :
  attends (failed label e).
Proof. unfold failed. attend. Qed.

Lemma attends_steps (a : Adapter) (pilot : Pilot) (email : string) :
  attends (stepsOf a pilot email).
Proof.
  destruct a; cbn [stepsOf];
    unfold googleSteps, yahooSteps, microsoftSteps, yahooVerdict,
      microsoftVerdict;
    attend;
    first [apply attends_typeText | apply attends_simulateHumanClick].
Qed.

Lemma initBrowser_cases (pilot : Pilot) :
  (initBrowser pilot newVisit = (Js.Return tt, extend initCalls [] newVisit))
  \/ (exists e k,
         initBrowser pilot newVisit
         = (Js.Throw e, extend (firstn (S k) initCalls) [] newVisit)
         /\ (k = 0 \/ exists b, pilot 0 Launch = Js.Return b)).
Proof.
  unfold initBrowser, perform, bindB, consult, retB, record, extend,
    newVisit, initCalls. cbn.
  destruct (pilot 0 Launch) as [b0|e0] eqn:E0; cbn.
  2: { right. exists e0, 0. split; [reflexivity | now left]. }
  destruct (pilot 1 NewContext) as [b1|e1]; cbn.
  2: { right. exists e1, 1. split; [reflexivity | right; eauto]. }
  destruct (pilot 2 NewPage) as [b2|e2]; cbn.
  2: { right. exists e2, 2. split; [reflexivity | right; eauto]. }
  destruct (pilot 3 AddInitScript) as [b3|e3]; cbn.
  2: { right. exists e3, 3. split; [reflexivity | right; eauto]. }
  now left.
Qed.

Lemma session_opened (pilot : Pilot) (label : string)
      (steps : B AccountCheck) :
  fst (initBrowser pilot newVisit) = Js.Return tt ->
  session pilot label steps newVisit
  = finallyB (catchB steps (failed label)) (release pilot) opened.
Proof.
  intros H. destruct (initBrowser_cases pilot) as [Hok | [e [k [Hko _]]]];
    [|rewrite Hko in H; discriminate].
  unfold session, bindB, finallyB, catchB, declare. cbn.
  change {| calls := []; logged := []; page := false; context := false;
            browser := false |} with newVisit.
  now rewrite Hok.
Qed.

Lemma session_unopened (pilot : Pilot) (label : string)
      (steps : B AccountCheck) (e : Js.Exn) :
  fst (initBrowser pilot newVisit) = Js.Throw e ->
  exists k,
    session pilot label steps newVisit
    = (Js.Return {| ac_exists := false; ac_message := Js.message e |},
       {| calls := firstn (S k) initCalls;
          logged := [label ++ Js.message e];
          page := false; context := false; browser := false |}).
Proof.
  intros H. destruct (initBrowser_cases pilot) as [Hok | [e' [k [Hko _]]]];
    [rewrite Hok in H; discriminate|].
  rewrite Hko in H. injection H as ->. exists k.
  unfold session, bindB, finallyB, catchB, declare. cbn.
  change {| calls := []; logged := []; page := false; context := false;
            browser := false |} with newVisit.
  rewrite Hko. reflexivity.
Qed.

Lemma release_run (pilot : Pilot) (v : Visit) :
  page v = true -> context v = true -> browser v = true ->
  release pilot v =
  match pilot (length (calls v)) ClosePage with
  | Js.Throw e => (Js.Throw e, extend [ClosePage] [] v)
  | Js.Return _ =>
      match pilot (S (length (calls v))) CloseContext with
      | Js.Throw e => (Js.Throw e, extend [ClosePage; CloseContext] [] v)
      | Js.Return _ =>
          match pilot (S (S (length (calls v)))) CloseBrowser with
          | Js.Throw e => (Js.Throw e, extend allClosed [] v)
          | Js.Return _ => (Js.Return tt, extend allClosed [] v)
          end
      end
  end.
Proof.
  destruct v as [cs lg p c b]. cbn. intros -> -> ->.
  unfold release, whenSet, bindB, perform, consult, retB, record, extend,
    bindB. cbn.
  rewrite !app_nil_r.
  destruct (pilot (length cs) ClosePage); cbn; [|reflexivity].
  rewrite length_app. cbn [length].
  replace (length cs + 1) with (S (length cs)) by lia.
  destruct (pilot (S (length cs)) CloseContext); cbn;
    [|now rewrite <- app_assoc].
  rewrite !length_app. cbn [length].
  replace (length cs + 1 + 1) with (S (S (length cs))) by lia.
  destruct (pilot (S (S (length cs))) CloseBrowser); cbn;
    now rewrite <- !app_assoc.
Qed.

(** What the guarded body leaves behind when the handles are set. *)
Lemma guarded_opened (pilot : Pilot) (a : Adapter) (email : string) :
  exists c new lines,
    catchB (stepsOf a pilot email) (failed (labelOf a)) opened
    = (Js.Return c, extend new lines opened)
    /\ closes new = [].
Proof.
  assert (Hat : attends (catchB (stepsOf a pilot email)
                                (failed (labelOf a)))).
  { apply attends_catch; [apply attends_steps | apply attends_failed]. }
  destruct (Hat opened) as [new [lines [Hsnd Hc]]].
  unfold catchB in *.
  destruct (stepsOf a pilot email opened) as [[c|e] v1]; cbn [snd] in *.
  - subst v1. now exists c, new, lines.
  - unfold failed, bindB, logError, retB in *. cbn in *.
    eexists. exists new, lines. rewrite <- Hsnd. now split.
Qed.

(** X23.  Provided closing a page, a context and a browser succeeds,
    each of the three account probes returns a result and never raises.
    When [initBrowser] returned, the run ends by closing the page, the
    context and the browser, in that order, each once, and closes
    nothing before; when [initBrowser] failed, nothing is closed. *)
Theorem probes_release (a : Adapter) (pilot : Pilot) (email : string) :
  (forall n c, isClose c = true -> exists b, pilot n c = Js.Return b) ->
  exists r v',
    probe a pilot email newVisit = (Js.Return r, v')
    /\ ((fst (initBrowser pilot newVisit) = Js.Return tt
         /\ exists pre, calls v' = (pre ++ allClosed)%list
                        /\ closes pre = [])
        \/ ((exists e, fst (initBrowser pilot newVisit) = Js.Throw e)
            /\ closes (calls v') = [])).
Proof.
  intros Hclose. rewrite probe_session.
  destruct (fst (initBrowser pilot newVisit)) as [[]|e] eqn:Hinit.
  - rewrite (session_opened _ _ _ Hinit). unfold finallyB.
    destruct (guarded_opened pilot a email) as [c [new [lines [Hg Hc]]]].
    rewrite Hg, release_run by reflexivity.
    destruct (Hclose (length (calls (extend new lines opened))) ClosePage
                eq_refl) as [b1 ->].
    destruct (Hclose (S (length (calls (extend new lines opened))))
                CloseContext eq_refl) as [b2 ->].
    destruct (Hclose (S (S (length (calls (extend new lines opened)))))
                CloseBrowser eq_refl) as [b3 ->].
    eexists. eexists. split; [reflexivity|]. left. split; [reflexivity|].
    exists (initCalls ++ new)%list. split; [reflexivity|].
    now rewrite closes_app, Hc.
  - destruct (session_unopened pilot (labelOf a) (stepsOf a pilot email) e
                Hinit) as [k ->].
    eexists. eexists. split; [reflexivity|]. right.
    split; [eauto|]. cbn [calls].
    destruct k as [|[|[|[|k]]]]; reflexivity.
Qed.

Lemma probes_release_witness :
  exists r v',
    probe GoogleProbe calmPilot "user@gmail.com" newVisit = (Js.Return r, v')
    /\ exists pre, calls v' = (pre ++ allClosed)%list /\ closes pre = [].
Proof.
  destruct (probes_release GoogleProbe calmPilot "user@gmail.com")
    as [r [v' [Hrun Hcase]]].
  { intros n c Hc. destruct c; try discriminate; now exists true. }
  exists r, v'. split; [exact Hrun|].
  destruct Hcase as [[_ Hpre] | [[e He] _]]; [exact Hpre | discriminate He].
Defined.

(** X24.  When the browser was launched but [initBrowser] fails
    afterwards, the handles are never assigned: each probe answers
    [exists = false] with the message of the failure, logs it under its
    label (the Yahoo probe under the Microsoft label), and closes
    nothing, so the launched browser stays open. *)
Theorem probes_leak_after_launch
        (a : Adapter) (pilot : Pilot) (email : string) (e : Js.Exn)
        (b : bool) :
  pilot 0 Launch = Js.Return b ->
  fst (initBrowser pilot newVisit) = Js.Throw e ->
  exists v',
    probe a pilot email newVisit
    = (Js.Return {| ac_exists := false; ac_message := Js.message e |}, v')
    /\ In Launch (calls v')
    /\ closes (calls v') = []
    /\ logged v' = [labelOf a ++ Js.message e].
Proof.
  intros _ Hinit. rewrite probe_session.
  destruct (session_unopened pilot (labelOf a) (stepsOf a pilot email) e
              Hinit) as [k ->].
  eexists. split; [reflexivity|]. cbn [calls logged].
  split; [now left|]. split; [|reflexivity].
  destruct k as [|[|[|[|k]]]]; reflexivity.
Qed.

Lemma probes_leak_after_launch_witness :
  exists v',
    probe YahooProbe crampedPilot "user@yahoo.com" newVisit
    = (Js.Return {| ac_exists := false;
                    ac_message := "browser.newContext: out of memory" |}, v')
    /\ calls v' = [Launch; NewContext]
    /\ logged v' = [ "Microsoft account check failed: "
                     ++ "browser.newContext: out of memory" ].
Proof.
  destruct (probes_leak_after_launch YahooProbe crampedPilot "user@yahoo.com"
              (Js.Error "browser.newContext: out of memory") true
              eq_refl eq_refl) as [v' [Hrun [_ [_ Hlog]]]].
  exists v'. split; [exact Hrun|]. split; [|exact Hlog].
  vm_compute in Hrun. now injection Hrun as <-.
Defined.

(** X25.  When [initBrowser] returned and closing the page fails, each
    probe raises that failure instead of returning the result it had,
    and neither the context nor the browser is closed. *)
Theorem probes_raise_when_close_fails
        (a : Adapter) (pilot : Pilot) (email : string) (e : Js.Exn) :
  fst (initBrowser pilot newVisit) = Js.Return tt ->
  (forall n, pilot n ClosePage = Js.Throw e) ->
  exists v',
    probe a pilot email newVisit = (Js.Throw e, v')
    /\ closes (calls v') = [ClosePage].
Proof.
  intros Hinit Hclose. rewrite probe_session, (session_opened _ _ _ Hinit).
  unfold finallyB.
  destruct (guarded_opened pilot a email) as [c [new [lines [Hg Hc]]]].
  rewrite Hg, release_run, Hclose by reflexivity.
  eexists. split; [reflexivity|]. cbn [extend calls opened].
  rewrite !closes_app, Hc. reflexivity.
Qed.

Lemma probes_raise_when_close_fails_witness :
  exists v',
    probe MicrosoftProbe stuckPilot "user@outlook.com" newVisit
    = (Js.Throw (Js.Error "page.close: target crashed"), v')
    /\ closes (calls v') = [ClosePage].
Proof.
  exact (probes_raise_when_close_fails MicrosoftProbe stuckPilot
           "user@outlook.com" (Js.Error "page.close: target crashed")
           eq_refl (fun _ => eq_refl)).
Defined.

Lemma bind_return {A C : Type} (m : B A) (k : A -> B C) (v v' : Visit)
      (c : C) :
  bindB m k v = (Js.Return c, v') ->
  exists a v1, m v = (Js.Return a, v1) /\ k a v1 = (Js.Return c, v').
Proof.
  unfold bindB. destruct (m v) as [[a|e] v1]; [eauto | discriminate].
Qed.

Ltac advance H :=
  apply bind_return in H;
  let a := fresh "a" in
  let v := fresh "v" in
  destruct H as [a [v [_ H]]].

Lemma steps_reach_verdict (a : Adapter) (pilot : Pilot) (email : string)
      (v v' : Visit) (c : AccountCheck) :
  stepsOf a pilot email v = (Js.Return c, v') ->
  exists v1, verdictOf a pilot v1 = (Js.Return c, v').
Proof.
  destruct a; cbn [stepsOf verdictOf];
    unfold googleSteps, yahooSteps, microsoftSteps; intros H;
    do 7 advance H; try (do 2 advance H); eauto.
Qed.

Lemma length_record (c : BrowserCall) (v : Visit) :
  length (calls (record c v)) = S (length (calls v)).
Proof. unfold record. cbn. rewrite length_app. cbn. lia. Qed.

Ltac lengths :=
  cbn [calls record]; rewrite ?length_app; cbn [length];
  rewrite ?Nat.add_1_r.

Ltac answered :=
  let i := fresh "i" in
  let text := fresh "text" in
  let Hi := fresh "Hi" in
  intros i text Hi;
  do 5 (try destruct i as [|i]); cbn in Hi; try discriminate;
  injection Hi as <-;
  rewrite ?Nat.add_succ_r, ?Nat.add_0_r; assumption.

Lemma verdict_positive (a : Adapter) (pilot : Pilot) (v v' : Visit)
      (c : AccountCheck) :
  verdictOf a pilot v = (Js.Return c, v') ->
  ac_exists c = true ->
  ac_message c = "Account exists"
  /\ calls v' = (calls v ++ verdictCalls a)%list
  /\ (forall i text,
         nth_error (verdictCalls a) i = Some (IsVisible text) ->
         pilot (length (calls v) + i) (IsVisible text) = Js.Return false).
Proof.
  destruct a; cbn [verdictOf verdictCalls].
  - unfold googleVerdict, bindB, consult, retB.
    destruct (pilot (length (calls v)) (IsVisible NoGoogleAccount))
      as [[|]|e] eqn:E; intros H; try discriminate;
      injection H as <- <-; intros Hex; try discriminate.
    split; [reflexivity|]. split; [reflexivity|]. answered.
  - unfold yahooVerdict, catchB, bindB, perform, bindB, consult, retB,
      randomDelay.
    destruct (pilot (length (calls v)) (IsVisible YahooUnrecognized))
      as [[|]|e] eqn:E1; cbn;
      try (intros H; injection H as <- <-; discriminate).
    lengths.
    destruct (pilot (S (length (calls v))) (WaitForLoadState "load"))
      as [b|e]; cbn;
      try (intros H; injection H as <- <-; discriminate).
    lengths.
    destruct (pilot (S (S (S (length (calls v)))))
                    (IsVisible YahooDeactivated)) as [[|]|e] eqn:E2; cbn;
      try (intros H; injection H as <- <-; discriminate).
    intros H _. injection H as <- <-. split; [reflexivity|]. split.
    + unfold record. cbn. now rewrite <- !app_assoc.
    + answered.
  - unfold microsoftVerdict, catchB, bindB, consult, retB.
    destruct (pilot (length (calls v)) (IsVisible NoMicrosoftAccount))
      as [[|]|e] eqn:E1; cbn;
      try (intros H; injection H as <- <-; discriminate).
    lengths.
    destruct (pilot (S (length (calls v))) (IsVisible MicrosoftUsernameMayBe))
      as [[|]|e] eqn:E2; cbn;
      try (intros H; injection H as <- <-; discriminate).
    lengths.
    destruct (pilot (S (S (length (calls v)))) (IsVisible MicrosoftNotFound))
      as [[|]|e] eqn:E3; cbn;
      try (intros H; injection H as <- <-; discriminate).
    intros H _. injection H as <- <-. split; [reflexivity|]. split.
    + unfold record. cbn. now rewrite <- !app_assoc.
    + answered.
Qed.

(** X26.  A probe answers [exists = true] only on a run in which
    [initBrowser] returned and which ends with the verdict and the
    release: every text that speaks against the account was looked for
    and answered not visible, and then the page, the context and the
    browser were closed.  The absence of a negative sign is the only
    ground of a positive answer. *)
Theorem probes_positive_answer
        (a : Adapter) (pilot : Pilot) (email : string) (r : AccountCheck)
        (v' : Visit) :
  probe a pilot email newVisit = (Js.Return r, v') ->
  ac_exists r = true ->
  ac_message r = "Account exists"
  /\ fst (initBrowser pilot newVisit) = Js.Return tt
  /\ exists pre,
      calls v' = (pre ++ verdictCalls a ++ allClosed)%list
      /\ (forall i text,
             nth_error (verdictCalls a) i = Some (IsVisible text) ->
             pilot (length pre + i) (IsVisible text) = Js.Return false).
Proof.
  rewrite probe_session. intros Hrun Hex.
  destruct (fst (initBrowser pilot newVisit)) as [[]|e] eqn:Hinit.
  2: { destruct (session_unopened pilot (labelOf a) (stepsOf a pilot email) e
                   Hinit) as [k Hk].
       rewrite Hk in Hrun. injection Hrun as <- _. discriminate. }
  rewrite (session_opened _ _ _ Hinit) in Hrun. unfold finallyB in Hrun.
  destruct (guarded_opened pilot a email) as [c [new [lines [Hg Hc]]]].
  rewrite Hg, release_run in Hrun by reflexivity.
  destruct (pilot _ ClosePage); [|discriminate].
  destruct (pilot _ CloseContext); [|discriminate].
  destruct (pilot _ CloseBrowser); [|discriminate].
  injection Hrun as -> <-.
  unfold catchB in Hg.
  destruct (stepsOf a pilot email opened) as [[c0|e] v1] eqn:Hsteps.
  2: { unfold failed, bindB, logError, retB in Hg. injection Hg as <- _.
       discriminate. }
  injection Hg as -> ->.
  destruct (steps_reach_verdict a pilot email _ _ _ Hsteps) as [vk Hv].
  destruct (verdict_positive a pilot vk _ _ Hv Hex) as [Hmsg [Hcalls Hans]].
  split; [exact Hmsg|]. split; [reflexivity|].
  exists (calls vk). split; [|exact Hans].
  change (calls (extend allClosed [] (extend new lines opened)))
    with (calls (extend new lines opened) ++ allClosed)%list.
  now rewrite Hcalls, <- app_assoc.
Qed.

Lemma probes_positive_answer_witness :
  exists r v',
    probe MicrosoftProbe calmPilot "ab" newVisit = (Js.Return r, v')
    /\ ac_message r = "Account exists".
Proof.
  assert (Hrun : exists r v',
             probe MicrosoftProbe calmPilot "ab" newVisit
             = (Js.Return r, v') /\ ac_exists r = true).
  { eexists. eexists. split; vm_compute; reflexivity. }
  destruct Hrun as [r [v' [Hrun Hex]]]. exists r, v'.
  split; [exact Hrun|].
  exact (proj1 (probes_positive_answer MicrosoftProbe calmPilot "ab" r v'
                  Hrun Hex)).
Defined.

(** ** Users *)

Lemma find_existsb_users (address : string) (l : list Users) :
  find (fun u => String.eqb (u_email u) address) l = None
  <-> existsb (fun u => String.eqb (u_email u) address) l = false.
Proof.
  induction l as [|u l IH]; cbn; [tauto|].
  destruct (String.eqb (u_email u) address); cbn; [|exact IH].
  split; discriminate.
Qed.

(** X27.  [createUser] never raises.  With the database failing it logs
    the failure, returns nothing and changes nothing.  For an address
    that is registered it returns nothing, not the user, writes nothing
    and logs nothing.  For the empty address, which the schema refuses,
    it logs the validation failure, returns nothing and writes nothing.
    For any other new address it appends one user with that address, an
    empty name, no lists, no single records and an empty password hash,
    and returns it. *)
Theorem createUser_cases (env : Env) (address : string) (r : Registry) :
  (forall msg,
      dbFault env = Some msg ->
      createUser env address r = (Js.Return None, note msg r))
  /\ (dbFault env = None ->
      registered address r = true ->
      createUser env address r = (Js.Return None, r))
  /\ (dbFault env = None ->
      registered address r = false ->
      address = EmptyString ->
      createUser env address r
      = (Js.Return None,
         note "Users validation failed: email: Path `email` is required." r))
  /\ (dbFault env = None ->
      registered address r = false ->
      address <> EmptyString ->
      let user := {| u_id := length (users r); u_email := address;
                     username := EmptyString; listsIds := [];
                     singlesIds := []; hashPassword := EmptyString |} in
      createUser env address r
      = (Js.Return (Some user),
         {| users := (users r ++ [user])%list; journal := journal r |})).
Proof.
  unfold createUser, usersModel_findOne, usersModel_create, user_save,
    registered.
  split; [|split; [|split]].
  - intros msg ->. reflexivity.
  - intros -> Hreg.
    destruct (find _ (users r)) eqn:E; [reflexivity|].
    apply find_existsb_users in E. congruence.
  - intros -> Hreg ->. apply find_existsb_users in Hreg.
    now rewrite Hreg.
  - intros -> Hreg Hne. cbv zeta. rewrite Hreg.
    apply find_existsb_users in Hreg. rewrite Hreg.
    apply String.eqb_neq in Hne. now rewrite Hne.
Qed.

Lemma createUser_cases_witness :
  createUser faultyEnv "owner@example.org" emptyRegistry
  = (Js.Return None,
     note "connect ECONNREFUSED 127.0.0.1:27017" emptyRegistry)
  /\ createUser healthyEnv EmptyString emptyRegistry
     = (Js.Return None,
        note "Users validation failed: email: Path `email` is required."
             emptyRegistry)
  /\ exists user r',
      createUser healthyEnv "owner@example.org" emptyRegistry
      = (Js.Return (Some user), r')
      /\ users r' = [user] /\ u_email user = "owner@example.org"
      /\ createUser healthyEnv "owner@example.org" r' = (Js.Return None, r').
Proof.
  destruct (createUser_cases faultyEnv "owner@example.org" emptyRegistry)
    as [Hfault _].
  destruct (createUser_cases healthyEnv EmptyString emptyRegistry)
    as [_ [_ [Hempty _]]].
  destruct (createUser_cases healthyEnv "owner@example.org" emptyRegistry)
    as [_ [_ [_ Hnew]]].
  split; [exact (Hfault _ eq_refl)|].
  split; [exact (Hempty eq_refl eq_refl eq_refl)|].
  eexists. eexists.
  split; [exact (Hnew eq_refl eq_refl ltac:(discriminate))|].
  split; [reflexivity|]. split; [reflexivity|].
  match goal with
  | |- createUser _ _ ?r' = _ =>
      exact (proj1 (proj2 (createUser_cases healthyEnv "owner@example.org"
                             r')) eq_refl eq_refl)
  end.
Defined.

Lemma registered_snoc (address : string) (l : list Users) (u : Users) :
  existsb (fun x => String.eqb (u_email x) address) (l ++ [u])
  = existsb (fun x => String.eqb (u_email x) address) l
    || String.eqb (u_email u) address.
Proof. rewrite existsb_app. cbn. now rewrite orb_false_r. Qed.

(** X28.  Registering is idempotent and keeps addresses unique: after
    [createUser] with a working database an address that is not empty
    is registered, whether it was before or not, and a second call for
    it returns nothing and leaves the registry as the first one left
    it; other addresses are registered after the call exactly when they
    were before; and a collection without two users of one address stays
    so. *)
Theorem createUser_idempotent (env : Env) (address : string) (r : Registry) :
  dbFault env = None ->
  let r1 := snd (createUser env address r) in
  (address <> EmptyString ->
   registered address r1 = true
   /\ createUser env address r1 = (Js.Return None, r1))
  /\ (forall other, other <> address ->
                    registered other r1 = registered other r)
  /\ (NoDup (map u_email (users r)) -> NoDup (map u_email (users r1))).
Proof.
  intros Hdb.
  destruct (createUser_shape env address r Hdb)
    as [[Hreg Hsame] | [[Hreg [Hempty Hlog]] | [Hreg [Hne Hnew]]]].
  - cbv zeta. rewrite Hsame. cbn [snd].
    split; [|split; trivial]. intros _.
    split; [exact Hreg|].
    now apply createUser_registered.
  - cbv zeta. rewrite Hlog. cbn [snd].
    split; [intros Hne; contradiction|]. split; trivial.
  - cbv zeta. rewrite Hnew. cbn [snd].
    assert (Hreg1 : registered address
                      {| users := (users r ++
                                   [{| u_id := length (users r);
                                       u_email := address;
                                       username := EmptyString;
                                       listsIds := []; singlesIds := [];
                                       hashPassword := EmptyString |}])%list;
                         journal := journal r |} = true).
    { unfold registered. cbn [users]. rewrite registered_snoc. cbn.
      now rewrite String.eqb_refl, orb_true_r. }
    split; [|split].
    + intros _. split; [exact Hreg1|]. now apply createUser_registered.
    + intros other Hother. unfold registered. cbn [users].
      rewrite registered_snoc. cbn [u_email].
      apply not_eq_sym in Hother. apply String.eqb_neq in Hother.
      now rewrite Hother, orb_false_r.
    + intros Hnd. cbn [users]. rewrite map_app. cbn [map u_email].
      apply NoDup_snoc; [exact Hnd|].
      intros Hin. apply in_map_iff in Hin as [u [Hu Hin]].
      unfold registered in Hreg.
      assert (existsb (fun x => String.eqb (u_email x) address) (users r)
              = true).
      { apply existsb_exists. exists u. split; [exact Hin|].
        now apply String.eqb_eq. }
      congruence.
Qed.

Lemma createUser_idempotent_witness :
  let r1 := snd (createUser healthyEnv "owner@example.org" emptyRegistry) in
  registered "owner@example.org" r1 = true
  /\ createUser healthyEnv "owner@example.org" r1 = (Js.Return None, r1).
Proof.
  destruct (createUser_idempotent healthyEnv "owner@example.org"
              emptyRegistry eq_refl) as [H _].
  exact (H ltac:(discriminate)).
Defined.
